(** * Verification of the Patch Verification Engine of gen42-codemonkeys

  A shallow embedding of
    - [codemonkeys/stages/context/localization.py]
    - [codemonkeys/swe_bench/test_runner/test_execution.py]
    - [codemonkeys/export_final_patches.py]
  together with the Python built-ins those files rely on.

  Python [int] is [Z]; [str] is [string], whose characters stand for the
  code points 0..255; a [list] is a [list]; a [set] of ints is a [gset Z];
  [None] is [option]'s [None]; a raised exception is the [Raise] case of
  [result]. *)

From Stdlib Require Import ZArith Lia Ascii String List.
From stdpp Require Import base list gmap strings sorting pretty.

Open Scope Z_scope.

(** ** Exceptions and the error monad *)

Inductive PyExc : Type :=
| IndexError
| ValueError (args : list string)
| UnicodeDecodeError
| UnboundLocalError
| TimeoutExpired
| OSError (msg : string).

Inductive result (A : Type) : Type :=
| Ok (a : A)
| Raise (e : PyExc).
Arguments Ok {A} a.
Arguments Raise {A} e.

#[global] Instance result_ret : MRet result := λ A a, Ok a.
#[global] Instance result_bind : MBind result := λ A B k r,
  match r with
  | Ok a => k a
  | Raise e => Raise e
  end.

(** ** Python built-ins *)

Module Py.

(** [len] of a list and of a string. *)
Definition len {A} (l : list A) : Z := Z.of_nat (List.length l).
Definition slen (s : string) : Z := Z.of_nat (String.length s).

(** A slice bound [i] on a sequence of length [n]: a negative bound counts
    from the end, and every bound is clipped to [0..n]. *)
Definition slice_index (n i : Z) : Z :=
  if i <? 0 then Z.max 0 (i + n) else Z.min i n.

(** [l[lo:hi]] *)
Definition slice {A} (l : list A) (lo hi : Z) : list A :=
  let a := slice_index (len l) lo in
  let b := slice_index (len l) hi in
  take (Z.to_nat (b - a)) (drop (Z.to_nat a) l).

(** [s[lo:hi]] on strings; an omitted bound is [None]. *)
Definition sslice (s : string) (lo hi : option Z) : string :=
  let a := slice_index (slen s) (default 0 lo) in
  let b := slice_index (slen s) (default (slen s) hi) in
  String.substring (Z.to_nat a) (Z.to_nat (b - a)) s.

(** [s.startswith(p)] *)
Definition startswith (s p : string) : bool := String.prefix p s.

(** [s.endswith(p)] for a one-character [p]. *)
Fixpoint endswith_char (s : string) (c : ascii) : bool :=
  match s with
  | EmptyString => false
  | String a EmptyString => Ascii.eqb a c
  | String _ s' => endswith_char s' c
  end.

(** [s.split(sep)] for a one-character separator: never empty. *)
Fixpoint split (sep : ascii) (s : string) : list string :=
  match s with
  | EmptyString => [EmptyString]
  | String c s' =>
      if Ascii.eqb c sep then EmptyString :: split sep s'
      else match split sep s' with
           | [] => [String c EmptyString]
           | h :: t => String c h :: t
           end
  end.

(** Whitespace in the sense of [str.isspace], for code points below 256. *)
Definition isspace (c : ascii) : bool :=
  let n := N_of_ascii c in
  ((9 <=? n) && (n <=? 13) || (28 <=? n) && (n <=? 32)
   || (n =? 133) || (n =? 160))%N.

Fixpoint lstrip (s : string) : string :=
  match s with
  | EmptyString => EmptyString
  | String c s' => if isspace c then lstrip s' else s
  end.

Fixpoint rstrip (s : string) : string :=
  match s with
  | EmptyString => EmptyString
  | String c s' =>
      match rstrip s' with
      | EmptyString => if isspace c then EmptyString else String c EmptyString
      | r => String c r
      end
  end.

(** [s.strip()] *)
Definition strip (s : string) : string := rstrip (lstrip s).

Definition isdigit (c : ascii) : bool :=
  let n := N_of_ascii c in ((48 <=? n) && (n <=? 57))%N.

Definition digit_value (c : ascii) : Z := Z.of_N (N_of_ascii c) - 48.

(** The digits of a decimal literal: single underscores are allowed between
    digits only. [prev] tells whether the previous character was a digit. *)
Fixpoint int_digits (acc : Z) (prev : bool) (s : string) : option Z :=
  match s with
  | EmptyString => if prev then Some acc else None
  | String c s' =>
      if isdigit c then int_digits (10 * acc + digit_value c) true s'
      else if Ascii.eqb c "_" then
        if prev then
          match s' with
          | EmptyString => None
          | String d _ => if isdigit d then int_digits acc false s' else None
          end
        else None
      else None
  end.

(** [int(s)] in base 10; [None] stands for [ValueError]. The limit that
    Python 3.11 puts on the number of digits ([sys.set_int_max_str_digits])
    is not part of the model. *)
Definition int (s : string) : option Z :=
  match strip s with
  | String "-" d => Z.opp <$> int_digits 0 false d
  | String "+" d => int_digits 0 false d
  | d => int_digits 0 false d
  end.

(** [sorted(s)] for a set of ints. *)
Definition sorted (s : gset Z) : list Z := merge_sort Z.le (elements s).

(** [str(n)] and the [{n}] of an f-string, for an int. *)
Definition str_of_int (n : Z) : string := pretty n.

(** The one-character string of a line feed. *)
Definition nl : string := String "010" EmptyString.

(** [s[n:]] for [0 <= n]. *)
Definition sdrop (n : nat) (s : string) : string :=
  String.substring n (String.length s - n) s.

(** [s.partition(pat)]: the text before and after the first occurrence of
    [pat], if there is one. *)
Fixpoint partition (pat s : string) : option (string * string) :=
  if String.prefix pat s then
    Some (EmptyString, sdrop (String.length pat) s)
  else
    match s with
    | EmptyString => None
    | String c s' =>
        match partition pat s' with
        | Some (before, after) => Some (String c before, after)
        | None => None
        end
    end.

(** Line boundaries of [str.splitlines], for code points below 256. *)
Definition islinebreak (c : ascii) : bool :=
  let n := N_of_ascii c in
  ((10 <=? n) && (n <=? 13) || (28 <=? n) && (n <=? 30) || (n =? 133))%N.

(** [s.splitlines()]: a carriage return followed by a line feed is one
    boundary, and a final boundary opens no further line. *)
Fixpoint splitlines (s : string) : list string :=
  match s with
  | EmptyString => []
  | String c s' =>
      if islinebreak c then
        match s' with
        | String "010" s'' =>
            if Ascii.eqb c "013" then EmptyString :: splitlines s''
            else EmptyString :: splitlines s'
        | _ => EmptyString :: splitlines s'
        end
      else
        match splitlines s' with
        | [] => [String c EmptyString]
        | h :: t => String c h :: t
        end
  end.

End Py.

(** ** [codemonkeys/stages/context/localization.py] *)

Module Localization.

Record ContextChunk : Type := mkContextChunk {
  line_number : Z;
  content : list string;
}.

Record RelevantChunks : Type := mkRelevantChunks {
  message : string;
  chunks : list ContextChunk;
  file_path : string;
}.

(** One turn of the loop over [locations]: the body of
    [for loc in locations]. [loc.split(":")[1]] raises [IndexError] when
    the split has fewer than two parts; the [ValueError] of [int] is
    caught and the location skipped. *)
Definition add_location (line_numbers : gset Z) (loc : string)
  : result (gset Z) :=
  if Py.startswith loc "line:" then
    match Py.split ":" loc !! 1%nat with
    | None => Raise IndexError
    | Some part =>
        match Py.int (Py.strip part) with
        | Some line_num => Ok ({[ line_num ]} ∪ line_numbers)
        | None => Ok line_numbers
        end
    end
  else Ok line_numbers.

Fixpoint extract_line_numbers (line_numbers : gset Z)
    (locations : list string) : result (gset Z) :=
  match locations with
  | [] => Ok line_numbers
  | loc :: rest =>
      s ← add_location line_numbers loc; extract_line_numbers s rest
  end.

(** One turn of the loop that creates the initial chunks. *)
Definition add_chunk (lines : list string) (context_lines : Z)
    (chunks : list ContextChunk) (line_num : Z) : list ContextChunk :=
  if (line_num <? 1) || (line_num >? Py.len lines) then chunks
  else
    let start_line := Z.max 1 (line_num - context_lines) in
    let end_line := Z.min (Py.len lines) (line_num + context_lines) in
    chunks ++ [ {| line_number := start_line;
                   content := Py.slice lines (start_line - 1) end_line |} ].

Definition initial_chunks (lines : list string) (context_lines : Z)
    (line_nums : list Z) : list ContextChunk :=
  fold_left (add_chunk lines context_lines) line_nums [].

(** One turn of the loop that combines overlapping chunks; the state is
    [(combined_chunks, current_chunk)]. *)
Definition combine_step (lines : list string)
    (st : list ContextChunk * ContextChunk) (next_chunk : ContextChunk)
  : list ContextChunk * ContextChunk :=
  let '(combined_chunks, current_chunk) := st in
  let current_end :=
    line_number current_chunk + Py.len (content current_chunk) in
  if line_number next_chunk <=? current_end then
    (combined_chunks,
     {| line_number := line_number current_chunk;
        content := Py.slice lines
                     (line_number current_chunk - 1)
                     (line_number next_chunk
                      + Py.len (content next_chunk) - 1) |})
  else (combined_chunks ++ [current_chunk], next_chunk).

(** The combine step: lines 77-100 of the source. *)
Definition combine_chunks (lines : list string)
    (chunks : list ContextChunk) : list ContextChunk :=
  match chunks with
  | [] => []
  | first :: rest =>
      let '(combined_chunks, current_chunk) :=
        fold_left (combine_step lines) rest ([], first) in
      combined_chunks ++ [current_chunk]
  end.

Definition create_context_chunks (message : string)
    (locations : list string) (file_path file_content : string)
    (context_lines : Z) : result RelevantChunks :=
  line_numbers ← extract_line_numbers ∅ locations;
  if decide (line_numbers = ∅) then
    Ok {| message := message; chunks := []; file_path := file_path |}
  else
    let lines := Py.split "010" file_content in
    let chunks :=
      initial_chunks lines context_lines (Py.sorted line_numbers) in
    Ok {| message := message;
          chunks := combine_chunks lines chunks;
          file_path := file_path |}.

(** The default [context_lines = 200]. *)
Definition default_context_lines : Z := 200.

Record RelevantLocations : Type := mkRelevantLocations {
  rl_message : string;
  locations : list string;
}.

(** The leading run of whitespace of [s] and what follows it. *)
Fixpoint span_space (s : string) : string * string :=
  match s with
  | EmptyString => (EmptyString, EmptyString)
  | String c s' =>
      if Py.isspace c then
        let '(run, rest) := span_space s' in (String c run, rest)
      else (EmptyString, s)
  end.

(** Group 1 of a match, at the start of [s], of the pattern
    "LOCATIONS:", whitespace, a line feed, three backquotes, a shortest
    text, three backquotes (with [re.DOTALL]). The whitespace before the
    backquotes has to end in the line feed. *)
Definition match_locations (s : string) : option string :=
  if String.prefix "LOCATIONS:" s then
    let '(run, rest) := span_space (Py.sdrop 10 s) in
    if Py.endswith_char run "010" && String.prefix "```" rest then
      fst <$> Py.partition "```" (Py.sdrop 3 rest)
    else None
  else None.

(** [re.search]: the leftmost position with a match. *)
Fixpoint search_locations (s : string) : option string :=
  match match_locations s with
  | Some group => Some group
  | None =>
      match s with
      | EmptyString => None
      | String _ s' => search_locations s'
      end
  end.

Definition nonempty (s : string) : bool := negb (String.eqb s EmptyString).

Definition _parse_response (message : string) : RelevantLocations :=
  match search_locations message with
  | None => {| rl_message := message; locations := [] |}
  | Some group =>
      let locations_text := Py.strip group in
      if negb (nonempty locations_text) then
        {| rl_message := message; locations := [] |}
      else
        {| rl_message := message;
           locations :=
             map Py.strip
               (List.filter (λ loc, nonempty (Py.strip loc))
                  (Py.split "010" locations_text)) |}
  end.

Record CodebaseFile : Type := mkCodebaseFile {
  path : string;
  file_text : string;
}.

(** The fields of [LocalizationConfig] that [_run_work] and
    [call_completions] read. *)
Record LocalizationConfig : Type := mkLocalizationConfig {
  max_file_tokens : Z;
  max_tokens : Z;
  model : string;
}.

Record WorkItem : Type := mkWorkItem {
  problem_statement : string;
  file : CodebaseFile;
  config : LocalizationConfig;
}.

Record Message : Type := mkMessage {
  role : string;
  text : string;
}.

(** [get_user_prompt] of [prompts/localization_prompts.py]. *)
Definition get_user_prompt (problem_statement file_path file_content
    : string) : string :=
  "
Please analyze the relevance of the following file to the given GitHub issue. Determine if it's relevant for understanding or solving the issue.
Provide your analysis in the specified format.

GitHub Issue Description:
<issue>
" +:+ problem_statement +:+ "
</issue>

File Path: " +:+ file_path +:+ "

File Contents:
<content>
" +:+ file_content +:+ "
</content>


Remember:
1. Carefully read both the issue description and the file contents.
2. Determine if the file is relevant to understanding or solving the issue.
3. If relevant, identify important functions for understanding the codebase in relation to the issue.
4. Provide a brief but informative summary for relevant files. This summary will be used to rank and prioritize files for inclusion in the next stage of analysis, so focus on why this file is important for addressing the GitHub issue.
5. Follow the output format exactly as specified in the system prompt.
6. Include your thoughts on the relevance before making your final decision.
".

(** What [_run_work] acts on: the trajectory store of the work item's
    problem and the completion requests sent so far. *)
Record State : Type := mkState {
  store : gmap string RelevantChunks;
  requests : list (list Message);
}.

(** Modelled from the spec: the trajectory store
    ([config.get_trajectory_store(problem)], a class of the repository
    outside the given sources) is the persistent store keyed by file path
    that holds one [RelevantChunks] per file and supports an existence
    check. *)
Definition localization_decision_exists
    (trajectory_store : gmap string RelevantChunks) (file_path : string)
  : bool :=
  bool_decide (is_Some (trajectory_store !! file_path)).

(** Modelled from the spec: saving stores the chunks under the file's
    path. *)
Definition save_per_file_relevant_chunks
    (trajectory_store : gmap string RelevantChunks) (file_path : string)
    (relevant_chunks : RelevantChunks) : gmap string RelevantChunks :=
  <[file_path := relevant_chunks]> trajectory_store.

Section RunWork.
(** [count_tokens.count_tokens] of [codemonkeys.utils]. *)
Variable count_tokens : string → Z.
(** The text of [SYSTEM_PROMPT]. *)
Variable SYSTEM_PROMPT : string.
(** The answer of the model behind [call_completions] to a request: the
    message text, or the exception the client raises. *)
Variable completion : LocalizationConfig → list Message → result string.

(** [call_completions]: one request to the client, recorded in the
    state. *)
Definition call_completions (config : LocalizationConfig)
    (messages : list Message) (st : State) : result string * State :=
  (completion config messages,
   {| store := store st; requests := requests st ++ [messages] |}).

Definition _run_work (work : WorkItem) (st : State)
  : result unit * State :=
  let trajectory_store := store st in
  if localization_decision_exists trajectory_store (path (file work))
  then (Ok (), st)
  else
    let prompt :=
      get_user_prompt (problem_statement work) (path (file work))
        (file_text (file work)) in
    let messages :=
      [ {| role := "system"; text := SYSTEM_PROMPT |};
        {| role := "user"; text := prompt |} ] in
    if count_tokens (file_text (file work))
       >? max_file_tokens (config work)
    then (Ok (), st)
    else
      let '(response, st) :=
        call_completions (config work) messages st in
      match response with
      | Raise e => (Raise e, st)
      | Ok message =>
          let relevant_locations := _parse_response message in
          match create_context_chunks message
                  (locations relevant_locations) (path (file work))
                  (file_text (file work)) default_context_lines with
          | Raise e => (Raise e, st)
          | Ok relevant_chunks =>
              (Ok (),
               {| store :=
                    save_per_file_relevant_chunks (store st)
                      (path (file work)) relevant_chunks;
                  requests := requests st |})
          end
      end.

End RunWork.

End Localization.

(** ** [codemonkeys/swe_bench/test_runner/test_execution.py] *)

Module TestExecution.

Definition truncate_output (output : string) (max_length : Z) : string :=
  if Py.slen output <=? max_length then output
  else
    let front_length := max_length `div` 2 in
    let back_length := max_length - front_length in
    let num_truncatable_chars := Py.slen output - max_length in
    ("[Output too long, truncating middle portion]" +:+ Py.nl +:+ Py.nl)
    +:+ Py.sslice output None (Some front_length)
    +:+ (Py.nl +:+ Py.nl +:+ "[Truncating "
         +:+ Py.str_of_int num_truncatable_chars
         +:+ " characters]" +:+ Py.nl +:+ Py.nl)
    +:+ Py.sslice output (Some (Py.slen output - back_length)) None.

Record ExecutionOutput : Type := mkExecutionOutput {
  stdout : option string;
  exit_code : Z;
  timed_out : bool;
}.

Definition render_stdout (self : ExecutionOutput) (max_chars : option Z)
  : string :=
  if timed_out self then "[Running script timed out]"
  else
    match stdout self with
    | None => "[Running script produced no output]"
    | Some out =>
        match max_chars with
        | None => out
        | Some m => truncate_output out m
        end
    end.

(** The directory-backed [SWEBenchProblem]: the fields the runner reads. *)
Record Problem : Type := mkProblem {
  instance_id : string;
  repo_location : string;
  base_commit : string;
}.

(** What a process wrote: [str | bytes]. *)
Inductive Output : Type :=
  | Str (s : string)
  | Bytes (b : list Byte.byte).

Definition command : string :=
  "bash -c 'source /opt/miniconda3/bin/activate && conda activate testbed && python reproduce_script.py'".

(** [if not patch.endswith("\n"): patch = patch + "\n"] *)
Definition terminate_patch (patch : string) : string :=
  if negb (Py.endswith_char patch "010") then patch +:+ Py.nl else patch.

(** *** The container runner

    [SWEBenchContainerAPI] lives in [test_runner/containers.py]; its
    methods are parameters of the section. A call returns its value and
    the container after the call; every call is logged. *)

(** The value of [container.exec_run]. *)
Record ExecResult : Type := mkExecResult {
  er_exit_code : Z;
  er_output : Output;
}.

(** The value of [container.exec_run_with_timeout]. *)
Record TimedExecResult : Type := mkTimedExecResult {
  output : Output;
  t_exit_code : Z;
  t_timed_out : bool;
}.

(** The calls made on a container, each with what it returned. *)
Inductive ContainerEvent : Type :=
  | WriteFile (content path : string)
  | ExecRun (cmd workdir user : string) (r : ExecResult)
  | ExecRunWithTimeout (cmd workdir : string) (timeout : Z)
      (r : TimedExecResult).

Definition git_apply_cmd : string := "git apply -v /tmp/patch.diff".
Definition fuzzy_patch_cmd : string :=
  "patch --batch --fuzz=5 -p1 -i /tmp/patch.diff".

Section Container.
(** The file system of a running container. *)
Variable container : Type.
(** [SWEBenchContainerAPI(log_dir, problem).__enter__]: a fresh
    container of the problem's image. *)
Variable start_container : Problem → container.
Variable write_file : string → string → container → container.
Variable exec_run :
  string → string → string → container → ExecResult * container.
Variable exec_run_with_timeout :
  string → string → Z → container → TimedExecResult * container.
(** [bytes.decode("utf-8")] *)
Variable decode : list Byte.byte → result string.
(** The text an f-string gives for a process output. *)
Variable format_output : Output → string.

Definition patch_error_args (patch_apply_exit_code : Z)
    (patch_apply_output : string) (fuzzy_patch_apply_exit_code : Z)
    (fuzzy_patch_apply_output : string) : list string :=
  [ "error applying patch" +:+ Py.nl;
    "patch_apply_exit_code=" +:+ Py.str_of_int patch_apply_exit_code
      +:+ Py.nl
    +:+ "patch_apply_output=" +:+ patch_apply_output +:+ Py.nl
    +:+ "fuzzy_patch_apply_exit_code="
      +:+ Py.str_of_int fuzzy_patch_apply_exit_code +:+ Py.nl
    +:+ "fuzzy_patch_apply_output=" +:+ fuzzy_patch_apply_output
      +:+ Py.nl ].

(** The part of [execute_script_container] after the patch: write the
    script, run it under the timeout, build the [ExecutionOutput]. *)
Definition run_script_container (script : string) (timeout : Z)
    (c : container) (log : list ContainerEvent)
  : list ContainerEvent * result ExecutionOutput :=
  let c := write_file script "/tmp/repro/reproduce_script.py" c in
  let '(out, _) := exec_run_with_timeout command "/tmp/repro" timeout c in
  let log :=
    log ++ [ WriteFile script "/tmp/repro/reproduce_script.py";
             ExecRunWithTimeout command "/tmp/repro" timeout out ] in
  (log,
   stdout ← match output out with
            | Str s => Ok s
            | Bytes b => decode b
            end;
   Ok {| stdout := Some stdout;
         exit_code := if negb (t_timed_out out) then t_exit_code out
                      else 1;
         timed_out := t_timed_out out |}).

Definition execute_script_container (script : string)
    (problem : Problem) (patch : option string) (timeout : Z)
    (return_error_as_execution_output : bool)
  : list ContainerEvent * result ExecutionOutput :=
  let c := start_container problem in
  match patch with
  | None => run_script_container script timeout c []
  | Some patch =>
      let patch := terminate_patch patch in
      let c := write_file patch "/tmp/patch.diff" c in
      let '(patch_apply_cmd, c) :=
        exec_run git_apply_cmd "/testbed" "root" c in
      let log := [ WriteFile patch "/tmp/patch.diff";
                   ExecRun git_apply_cmd "/testbed" "root"
                     patch_apply_cmd ] in
      let patch_apply_exit_code := er_exit_code patch_apply_cmd in
      let patch_apply_output := er_output patch_apply_cmd in
      if negb (patch_apply_exit_code =? 0) then
        let '(fuzzy_patch_apply_cmd, c) :=
          exec_run fuzzy_patch_cmd "/testbed" "root" c in
        let log :=
          log ++ [ ExecRun fuzzy_patch_cmd "/testbed" "root"
                     fuzzy_patch_apply_cmd ] in
        let fuzzy_patch_apply_exit_code :=
          er_exit_code fuzzy_patch_apply_cmd in
        let fuzzy_patch_apply_output :=
          er_output fuzzy_patch_apply_cmd in
        if negb (fuzzy_patch_apply_exit_code =? 0) then
          if return_error_as_execution_output then
            (log,
             Ok {| stdout := Some "Could not apply patch to repository";
                   exit_code := 1;
                   timed_out := false |})
          else
            (log,
             Raise (ValueError
                      (patch_error_args patch_apply_exit_code
                         (format_output patch_apply_output)
                         fuzzy_patch_apply_exit_code
                         (format_output fuzzy_patch_apply_output))))
        else run_script_container script timeout c log
      else run_script_container script timeout c log
  end.

End Container.

(** *** The local runner

    The host file system is a map from the path of a directory to the tree
    below it. A process started with [cwd] set to a directory reads and
    changes the tree of that directory; what it does there is the
    parameter [run] of the section. *)

Inductive Command : Type :=
  | Args (argv : list string)
  | Shell (cmd : string).

(** [subprocess.CompletedProcess] *)
Record CompletedProcess : Type := mkCompletedProcess {
  returncode : Z;
  cp_stdout : option Output;
}.

(** What the local runner does on the host, a process run with what it
    returned or raised. *)
Inductive LocalEvent : Type :=
  | Copytree (src dst : string)
  | Run (cmd : Command) (cwd : string) (r : result CompletedProcess)
  | WriteText (path content : string)
  | Print (msg : string)
  | Cleanup (path : string).

Definition GIT_APPLY_CMDS : list string :=
  [ "git apply --verbose";
    "git apply --verbose --reject";
    "patch --batch --fuzz=8 -p1 -l" ].

(** [s.replace(old, new)] for a non-empty [old]; [skip] counts the
    characters of a match still to be passed over. *)
Fixpoint replace_from (old new : string) (skip : nat) (s : string)
  : string :=
  match s with
  | EmptyString => EmptyString
  | String c s' =>
      match skip with
      | S k => replace_from old new k s'
      | O =>
          if String.prefix old s then
            new +:+ replace_from old new (String.length old - 1)%nat s'
          else String c (replace_from old new O s')
      end
  end.
Definition replace (s old new : string) : string :=
  replace_from old new O s.

Section Local.
(** The content of a directory tree. *)
Variable tree : Type.

Record World : Type := mkWorld {
  fs : gmap string tree;
  log : list LocalEvent;
}.

(** A process run in a tree: [subprocess.run] returns or raises. *)
Variable run :
  Command → option Z → tree → result CompletedProcess * tree.
(** [open(dir / name, "w").write(text)] *)
Variable write_text : string → string → tree → tree.
(** The directory [tempfile.TemporaryDirectory()] creates. *)
Variable mkdtemp : World → string.
Variable decode : list Byte.byte → result string.
(** [str(e)] *)
Variable str_exc : PyExc → string.
Variable format_output : option Output → string.
(** [make_test_spec(problem).eval_script] *)
Variable eval_script_of : Problem → string.
(** Whether [get_eval_report] finds the instance resolved in a test
    log. *)
Variable get_eval_report : Problem → string → string → bool.

Definition emit (e : LocalEvent) (w : World) : World :=
  {| fs := fs w; log := log w ++ [e] |}.

(** [subprocess.run(cmd, cwd=cwd, timeout=timeout)] *)
Definition subprocess_run (cmd : Command) (timeout : option Z)
    (cwd : string) (w : World) : result CompletedProcess * World :=
  match fs w !! cwd with
  | None =>
      let r := Raise (OSError cwd) in (r, emit (Run cmd cwd r) w)
  | Some t =>
      let '(r, t') := run cmd timeout t in
      (r, {| fs := <[cwd := t']> (fs w);
             log := log w ++ [Run cmd cwd r] |})
  end.

(** [with open(dir / name, "w") as f: f.write(text)] *)
Definition write_in (dir name text : string) (w : World) : World :=
  let w := emit (WriteText (dir +:+ "/" +:+ name) text) w in
  {| fs := alter (write_text name text) dir (fs w); log := log w |}.

(** The last [try] of [execute_script]: it never raises. *)
Definition run_script_local (script : string) (timeout : Z)
    (temp_repo_location : string) (w : World)
  : ExecutionOutput * World :=
  let w := write_in temp_repo_location "reproduce_script.py" script w in
  let '(r, w) :=
    subprocess_run (Shell command) (Some timeout) temp_repo_location w in
  match r with
  | Ok out =>
      let decoded :=
        match cp_stdout out with
        | Some (Str s) => Ok s
        | Some (Bytes b) => decode b
        | None => Ok EmptyString
        end in
      match decoded with
      | Ok stdout =>
          ({| stdout := Some stdout;
              exit_code := returncode out;
              timed_out := false |}, w)
      | Raise e =>
          let msg := "Error running script command: " +:+ str_exc e in
          ({| stdout := Some msg; exit_code := 1; timed_out := false |},
           emit (Print msg) w)
      end
  | Raise TimeoutExpired =>
      ({| stdout := Some "Script execution timed out";
          exit_code := 1;
          timed_out := true |}, w)
  | Raise e =>
      let msg := "Error running script command: " +:+ str_exc e in
      ({| stdout := Some msg; exit_code := 1; timed_out := false |},
       emit (Print msg) w)
  end.

(** The fuzzy fallback of [execute_script], guarded in the source by
    [if patch_apply_exit_code != 0]. *)
Definition fuzzy_patch_local (script : string) (timeout : Z)
    (temp_repo_location : string)
    (return_error_as_execution_output : bool)
    (patch_apply_exit_code : Z) (patch_apply_output : option Output)
    (w : World) : result ExecutionOutput * World :=
  let '(r, w) :=
    subprocess_run
      (Args [ "patch"; "--batch"; "--fuzz=5"; "-p1"; "-i";
              temp_repo_location +:+ "/patch.diff" ])
      None temp_repo_location w in
  match r with
  | Raise e =>
      let msg := "Error applying fuzzy patch: " +:+ str_exc e in
      let w := emit (Print msg) w in
      if return_error_as_execution_output then
        (Ok {| stdout := Some msg; exit_code := 1; timed_out := false |},
         w)
      else (Raise UnboundLocalError, w)
  | Ok fuzzy_patch_apply_cmd =>
      let fuzzy_patch_apply_exit_code :=
        returncode fuzzy_patch_apply_cmd in
      let fuzzy_patch_apply_output := cp_stdout fuzzy_patch_apply_cmd in
      if negb (fuzzy_patch_apply_exit_code =? 0) then
        if return_error_as_execution_output then
          (Ok {| stdout := Some "Could not apply patch to repository";
                 exit_code := 1;
                 timed_out := false |}, w)
        else
          (Raise (ValueError
                    (patch_error_args patch_apply_exit_code
                       (format_output patch_apply_output)
                       fuzzy_patch_apply_exit_code
                       (format_output fuzzy_patch_apply_output))), w)
      else
        let '(out, w) :=
          run_script_local script timeout temp_repo_location w in
        (Ok out, w)
  end.

(** The body of [with tempfile.TemporaryDirectory() as temp_dir] once
    the repository has been copied. *)
Definition execute_script_in (script : string) (problem : Problem)
    (temp_repo_location : string) (patch : option string)
    (timeout : Z) (return_error_as_execution_output : bool)
    (w : World) : result ExecutionOutput * World :=
  let finish (w : World) : result ExecutionOutput * World :=
    let patch_apply_exit_code := 0 in
    let patch_apply_output : option Output := None in
    if negb (patch_apply_exit_code =? 0) then
      fuzzy_patch_local script timeout temp_repo_location
        return_error_as_execution_output
        patch_apply_exit_code patch_apply_output w
    else
      let '(out, w) :=
        run_script_local script timeout temp_repo_location w in
      (Ok out, w) in
  match patch with
  | None =>
      let '(out, w) :=
        run_script_local script timeout temp_repo_location w in
      (Ok out, w)
  | Some patch =>
      let patch := terminate_patch patch in
      let '(r, w) :=
        subprocess_run
          (Args [ "git"; "reset"; "--hard"; base_commit problem ])
          None temp_repo_location w in
      let '(r, w) :=
        match r with
        | Raise e => (Raise e, w)
        | Ok _ =>
            let w := write_in temp_repo_location "patch.diff" patch w in
            subprocess_run
              (Args [ "git"; "apply"; "-v";
                      temp_repo_location +:+ "/patch.diff" ])
              None temp_repo_location w
        end in
      match r with
      | Raise e =>
          let msg := "Error applying patch: " +:+ str_exc e in
          let w := emit (Print msg) w in
          if return_error_as_execution_output then
            (Ok {| stdout := Some msg;
                   exit_code := 1;
                   timed_out := false |}, w)
          else finish w
      | Ok _ => finish w
      end
  end.

Definition execute_script (script : string) (problem : Problem)
    (repo_location : string) (patch : option string) (timeout : Z)
    (return_error_as_execution_output : bool) (w : World)
  : result ExecutionOutput * World :=
  let temp_dir := mkdtemp w in
  let temp_repo_location := temp_dir +:+ "/repo" in
  let w := emit (Copytree repo_location temp_repo_location) w in
  match fs w !! repo_location with
  | None => (Raise (OSError repo_location), emit (Cleanup temp_dir) w)
  | Some t =>
      let w :=
        {| fs := <[temp_repo_location := t]> (fs w); log := log w |} in
      let '(r, w) :=
        execute_script_in script problem temp_repo_location patch
          timeout return_error_as_execution_output w in
      (r, emit (Cleanup temp_dir)
            {| fs := delete temp_repo_location (fs w); log := log w |})
  end.

(** The loop [for cmd in GIT_APPLY_CMDS] of [run_swebench_test_local]:
    the first command that does not raise ends it. *)
Fixpoint apply_in_place (cmds : list string) (patch_path cwd : string)
    (w : World) : World :=
  match cmds with
  | [] => w
  | cmd :: rest =>
      let full_cmd := cmd +:+ " " +:+ patch_path in
      let '(r, w) := subprocess_run (Shell full_cmd) None cwd w in
      match r with
      | Ok _ => w
      | Raise e =>
          let msg := "Failed to apply patch with command '" +:+ cmd
                     +:+ "': " +:+ str_exc e in
          apply_in_place rest patch_path cwd (emit (Print msg) w)
      end
  end.

Record SWEBenchTestResult : Type := mkSWEBenchTestResult {
  resolved : bool;
  test_output : option string;
}.

(** The default [timeout = 600.0] of [execute_script]. *)
Definition default_timeout : Z := 600.

Definition run_swebench_test_local (problem : Problem) (patch : string)
    (log_dir : string) (w : World) : result SWEBenchTestResult * World :=
  let w :=
    if negb (String.eqb patch EmptyString) then
      let temp_dir := mkdtemp w in
      let patch_path := temp_dir +:+ "/patch.diff" in
      let w := emit (WriteText patch_path patch) w in
      let w :=
        apply_in_place GIT_APPLY_CMDS patch_path (repo_location problem)
          w in
      emit (Cleanup temp_dir) w
    else w in
  let eval_script :=
    replace (eval_script_of problem) "/testbed" (repo_location problem) in
  let '(r, w) :=
    execute_script eval_script problem (repo_location problem)
      (Some patch) default_timeout false w in
  match r with
  | Raise e => (Raise e, w)
  | Ok result =>
      let test_output_path := log_dir +:+ "/test_output.text" in
      let text := default EmptyString (stdout result) in
      let w := emit (WriteText test_output_path text) w in
      (Ok {| resolved := get_eval_report problem patch text;
             test_output := stdout result |}, w)
  end.

End Local.

End TestExecution.

(** ** [codemonkeys/export_final_patches.py] *)

Module ExportFinalPatches.

Record Edit : Type := mkEdit {
  file_name : string;
  line_number : Z;
  line_content : string;
  new_line_content : string;
}.

Record Patch : Type := mkPatch {
  edits : list Edit;
}.

(** [edit.model_dump()]: the fields of an [Edit] as a dictionary, here
    the tuple of its four values. *)
Definition model_dump (e : Edit) : string * Z * string * string :=
  (file_name e, line_number e, line_content e, new_line_content e).

(** What [Patch(edits=...)] makes of a dumped edit. *)
Definition validate (d : string * Z * string * string) : Edit :=
  let '(f, n, o, m) := d in
  {| file_name := f; line_number := n;
     line_content := o; new_line_content := m |}.

(** [zip] of three lists. *)
Fixpoint zip3 {A B C} (a : list A) (b : list B) (c : list C)
  : list (A * B * C) :=
  match a, b, c with
  | x :: a', y :: b', z :: c' => (x, y, z) :: zip3 a' b' c'
  | _, _, _ => []
  end.

(** [lines[i]] when [i < len(lines)], the empty string otherwise. *)
Definition line_or_empty (lines : list string) (i : nat) : string :=
  if (i <? List.length lines)%nat then nth i lines EmptyString
  else EmptyString.

(** The body of [for i in range(max_lines)]. *)
Definition compare_line (name : string) (old_lines new_lines : list string)
    (edits : list Edit) (i : nat) : list Edit :=
  let old_line := line_or_empty old_lines i in
  let new_line := line_or_empty new_lines i in
  if negb (String.eqb old_line new_line) then
    edits ++ [ {| file_name := name;
                  line_number := Z.of_nat i;
                  line_content := old_line;
                  new_line_content := new_line |} ]
  else edits.

(** The body of the loop over the zipped files. *)
Definition compare_file (edits : list Edit)
    (f : string * string * string) : list Edit :=
  let '(name, old_content, new_content) := f in
  let old_lines := Py.splitlines old_content in
  let new_lines := Py.splitlines new_content in
  let max_lines := Nat.max (List.length old_lines) (List.length new_lines) in
  fold_left (compare_line name old_lines new_lines) (seq 0 max_lines) edits.

Definition create_patch (file_names old_contents new_contents : list string)
  : Patch :=
  let edits :=
    fold_left compare_file (zip3 file_names old_contents new_contents) [] in
  {| edits := map (λ edit, validate (model_dump edit)) edits |}.

End ExportFinalPatches.

(** ** Further built-ins *)

Module PyStr.

(** The one-character string of a double quote. *)
Definition dq : string := String "034" EmptyString.

(** [sub in s] *)
Fixpoint contains (sub s : string) : bool :=
  if String.prefix sub s then true
  else
    match s with
    | EmptyString => false
    | String _ s' => contains sub s'
    end.

(** [sep.join(parts)] *)
Fixpoint join (sep : string) (parts : list string) : string :=
  match parts with
  | [] => EmptyString
  | [p] => p
  | p :: rest => p +:+ sep +:+ join sep rest
  end.

(** [l[i]]: a negative index counts from the end, and an index out of
    range raises [IndexError]. *)
Definition index {A} (l : list A) (i : Z) : result A :=
  let j := if i <? 0 then i + Py.len l else i in
  if j <? 0 then Raise IndexError
  else
    match l !! Z.to_nat j with
    | Some a => Ok a
    | None => Raise IndexError
    end.

(** [os.path.join(a, b)] of [posixpath]. *)
Definition path_join (a b : string) : string :=
  if Py.startswith b "/" then b
  else if String.eqb a EmptyString || Py.endswith_char a "/" then a +:+ b
  else a +:+ "/" +:+ b.

(** [sorted(l, key=key)] for an integer key: the stable sort, here by
    insertion from the right. *)
Fixpoint insert_by {A} (key : A → Z) (x : A) (l : list A) : list A :=
  match l with
  | [] => [x]
  | y :: l' =>
      if key x <=? key y then x :: y :: l' else y :: insert_by key x l'
  end.

Definition sorted_by {A} (key : A → Z) (l : list A) : list A :=
  foldr (insert_by key) [] l.

End PyStr.

(** ** [codemonkeys/swe_bench/swe_bench_verified.py] *)

Module SweBenchVerified.

(** The text [[remote "origin"]] of a git configuration. *)
Definition remote_origin : string :=
  "[remote " +:+ PyStr.dq +:+ "origin" +:+ PyStr.dq +:+ "]".

(** The last character of a text. *)
Fixpoint last_char (s : string) : option string :=
  match s with
  | EmptyString => None
  | String c EmptyString => Some (String c EmptyString)
  | String _ s' => last_char s'
  end.

(** Group 1 of a match, at the start of [s], of the pattern "url",
    whitespace, "=", whitespace, a longest non-empty text. With
    [re.DOTALL] the text runs to the end of [s]; when nothing but
    whitespace follows the "=", the whitespace gives back its last
    character to the group. *)
Definition match_url (s : string) : option string :=
  if String.prefix "url" s then
    let '(_, rest) := Localization.span_space (Py.sdrop 3 s) in
    match rest with
    | String "=" after =>
        let '(run, value) := Localization.span_space after in
        match value with
        | String _ _ => Some value
        | EmptyString => last_char run
        end
    | _ => None
    end
  else None.

(** The shortest text after which "url ..." matches. *)
Fixpoint search_url (s : string) : option string :=
  match match_url s with
  | Some group => Some group
  | None =>
      match s with
      | EmptyString => None
      | String _ s' => search_url s'
      end
  end.

(** A match of the whole pattern at the start of [s]. *)
Definition match_origin (s : string) : option string :=
  if String.prefix remote_origin s then
    search_url (Py.sdrop (String.length remote_origin) s)
  else None.

(** [re.search]: the leftmost position with a match. *)
Fixpoint search_origin (s : string) : option string :=
  match match_origin s with
  | Some group => Some group
  | None =>
      match s with
      | EmptyString => None
      | String _ s' => search_origin s'
      end
  end.

Section Files.
(** [os.path.exists] *)
Variable path_exists : string → bool.
(** [open(path, "r").read()]: the text of the file, or the exception
    raised on the way. *)
Variable read : string → result string.
(** [str(e)] *)
Variable str_exc : PyExc → string.

(** [SWEBenchProblem._get_base_commit], of the problem at
    [repo_location]: it catches every exception. *)
Definition _get_base_commit (repo_location : string) : string :=
  let head :=
    PyStr.path_join (PyStr.path_join repo_location ".git") "HEAD" in
  if path_exists head then
    match read head with
    | Raise _ => EmptyString
    | Ok text =>
        let head_content := Py.strip text in
        if Py.startswith head_content "ref: " then
          let ref_path := Py.sslice head_content (Some 5) None in
          match read (PyStr.path_join
                        (PyStr.path_join repo_location ".git") ref_path) with
          | Raise _ => EmptyString
          | Ok ref_text => Py.strip ref_text
          end
        else head_content
    end
  else EmptyString.

(** [SWEBenchProblem.get_repo]: what it returns and what it prints. *)
Definition get_repo (directory : string) : string * list string :=
  let git_config_path :=
    PyStr.path_join (PyStr.path_join directory ".git") "config" in
  if negb (path_exists git_config_path) then (EmptyString, [])
  else
    match read git_config_path with
    | Raise e => (EmptyString, ["Error getting project: " +:+ str_exc e])
    | Ok config =>
        match search_origin config with
        | Some group => (Py.strip group, [])
        | None => (EmptyString, [])
        end
    end.

End Files.

(** [get_test_command], as a function of [problem.repo]. *)
Definition get_test_command (repo : string) : string :=
  if PyStr.contains "django" repo then
    "./tests/runtests.py --verbosity 2 --settings=test_sqlite --parallel 1"
  else if PyStr.contains "django-cms" repo then
    "./tests/runtests.py --verbosity 2"
  else if PyStr.contains "seaborn" repo then "pytest --no-header -rA"
  else if PyStr.contains "astropy" repo then
    "pytest -rA -vv -o console_output_style=classic --tb=no"
  else if PyStr.contains "sphinx" repo then "tox --current-env -epy39 -v --"
  else if PyStr.contains "sympy" repo then "bin/test -C --verbose"
  else "pytest -rA".

End SweBenchVerified.

(** ** The file filter of [localization.py] *)

Module LocalizationFilter.

Definition _should_include_file (file_path : string) : result bool :=
  extension ← PyStr.index (Py.split "." file_path) (-1);
  if negb (String.eqb extension "py") then Ok false
  else
    top ← PyStr.index (Py.split "/" file_path) 0;
    if String.eqb top "test" || String.eqb top "tests" then Ok false
    else Ok true.

End LocalizationFilter.

(** ** [call_completions] of [localization.py] *)

Module Completions.

(** What [call_completions] raises: [AssertionError], or one of the
    exceptions above. *)
Inductive Exc : Type :=
  | AssertionError
  | Py (e : PyExc).

Inductive outcome (A : Type) : Type :=
  | Returned (a : A)
  | Raised (e : Exc).
Arguments Returned {A} a.
Arguments Raised {A} e.

#[global] Instance outcome_ret : MRet outcome := λ A a, Returned a.
#[global] Instance outcome_bind : MBind outcome := λ A B k r,
  match r with
  | Returned a => k a
  | Raised e => Raised e
  end.

Definition lift {A} (r : result A) : outcome A :=
  match r with
  | Ok a => Returned a
  | Raise e => Raised (Py e)
  end.

(** A content block: its type, its text (for a block of another type,
    what it holds) and the type of its [cache_control] entry, if it has
    one. *)
Record Block : Type := mkBlock {
  block_type : string;
  block_text : string;
  cache_control : option string;
}.

(** [message["content"]]: a string or a list of blocks. *)
Inductive Content : Type :=
  | Plain (s : string)
  | Blocks (bs : list Block).

Record ChatMessage : Type := mkChatMessage {
  role : string;
  content : Content;
}.

(** The block of the system prompt. *)
Record SystemBlock : Type := mkSystemBlock {
  system_text : Content;
  system_cache : option string;
}.

Inductive Client : Type :=
  | OpenAI
  | Anthropic
  | Unknown (type_name : string).

(** [{"type": "ephemeral"}] *)
Definition ephemeral : option string := Some "ephemeral".

(** The body of [for pos in positions_for_cache_control], on the content
    of the message at [pos]. *)
Definition mark (cur_content : Content) : outcome Content :=
  match cur_content with
  | Plain s =>
      Returned (Blocks [ {| block_type := "text"; block_text := s;
                            cache_control := ephemeral |} ])
  | Blocks bs =>
      b ← lift (PyStr.index bs (-1));
      Returned (Blocks (removelast bs
                        ++ [ {| block_type := block_type b;
                                block_text := block_text b;
                                cache_control := ephemeral |} ]))
  end.

Definition mark_at (messages : list ChatMessage) (pos : nat)
  : outcome (list ChatMessage) :=
  m ← lift (PyStr.index messages (Z.of_nat pos));
  c ← mark (content m);
  Returned (<[pos := {| role := role m; content := c |}]> messages).

(** [[i for i, m in enumerate(messages) if m["role"] == "user"]] *)
Definition user_message_positions (messages : list ChatMessage)
  : list nat :=
  map fst
    (List.filter (λ im : nat * ChatMessage, String.eqb (role im.2) "user")
       (combine (seq 0 (length messages)) messages)).

Section Client.
(** Python's [float], for the temperature that is passed through. *)
Variable float : Type.

(** The fields of the configuration that [call_completions] reads. *)
Record Config : Type := mkConfig {
  model : string;
  temperature : float;
  max_tokens : Z;
  anthropic_cache : bool;
}.

(** The arguments of [client.chat.completions.create]. *)
Record OpenAIRequest : Type := mkOpenAIRequest {
  oa_model : string;
  oa_temperature : float;
  oa_max_tokens : Z;
  oa_messages : list ChatMessage;
}.

(** The arguments of [client.messages.create]. *)
Record AnthropicRequest : Type := mkAnthropicRequest {
  an_model : string;
  an_messages : list ChatMessage;
  an_max_tokens : Z;
  an_temperature : float;
  an_system : list SystemBlock;
}.

(** [resp.choices], each with its [message.content]. *)
Variable openai_create : OpenAIRequest → result (list (option string)).
(** [resp.content], each block with its [text] when that is a [str]. *)
Variable anthropic_create :
  AnthropicRequest → result (list (option string)).

(** The request that the Anthropic branch builds. *)
Definition anthropic_request (config : Config)
    (messages : list ChatMessage) : outcome AnthropicRequest :=
  m0 ← lift (PyStr.index messages 0);
  if negb (String.eqb (role m0) "system") then Raised AssertionError
  else
    m1 ← lift (PyStr.index messages 1);
    if negb (String.eqb (role m1) "user") then Raised AssertionError
    else
      let system_message :=
        {| system_text := content m0; system_cache := None |} in
      let user_and_asst_messages :=
        Py.slice messages 1 (Py.len messages) in
      '(system_message, user_and_asst_messages) ←
        (if anthropic_cache config then
           let system_message :=
             {| system_text := content m0; system_cache := ephemeral |} in
           let user_message_positions :=
             user_message_positions user_and_asst_messages in
           let positions_for_cache_control :=
             Py.slice user_message_positions (-2)
               (Py.len user_message_positions) in
           marked ←
             foldl (λ acc pos, marked ← acc; mark_at marked pos)
               (Returned user_and_asst_messages)
               positions_for_cache_control;
           Returned (system_message, marked)
         else Returned (system_message, user_and_asst_messages));
      Returned {| an_model := model config;
                  an_messages := user_and_asst_messages;
                  an_max_tokens := max_tokens config;
                  an_temperature := temperature config;
                  an_system := [system_message] |}.

Definition call_completions (config : Config)
    (messages : list ChatMessage) (client : Client) : outcome string :=
  match client with
  | OpenAI =>
      choices ←
        lift (openai_create {| oa_model := model config;
                               oa_temperature := temperature config;
                               oa_max_tokens := max_tokens config;
                               oa_messages := messages |});
      choice ← lift (PyStr.index choices 0);
      match choice with
      | None => Raised AssertionError
      | Some message => Returned message
      end
  | Anthropic =>
      request ← anthropic_request config messages;
      blocks ← lift (anthropic_create request);
      block ← lift (PyStr.index blocks 0);
      match block with
      | None => Raised AssertionError
      | Some out => Returned out
      end
  | Unknown type_name =>
      Raised (Py (ValueError ["Unknown client type: " +:+ type_name]))
  end.

End Client.

End Completions.

(** ** [format_relevant_chunks] of
    [codemonkeys/prompts/editing_state_machine_prompts.py] *)

Module EditingPrompts.
Import Localization.

(** One chunk between its tags. *)
Definition format_chunk (chunk_data : ContextChunk) : string :=
  "<chunk start_line=" +:+ PyStr.dq
  +:+ Py.str_of_int (line_number chunk_data) +:+ PyStr.dq +:+ ">" +:+ Py.nl
  +:+ PyStr.join Py.nl (content chunk_data) +:+ Py.nl +:+ "</chunk>".

Definition omitted : string :=
  Py.nl +:+ "... # some code omitted ..." +:+ Py.nl.

(** The body of the loop over [relevant_chunks]. *)
Definition format_file (chunk : RelevantChunks) : string :=
  let chunks_sorted := PyStr.sorted_by line_number (chunks chunk) in
  let file_chunks := map format_chunk chunks_sorted in
  ("<file path=" +:+ PyStr.dq +:+ file_path chunk +:+ PyStr.dq +:+ ">"
   +:+ Py.nl)
  +:+ PyStr.join omitted file_chunks
  +:+ (Py.nl +:+ "</file>").

Definition format_relevant_chunks (relevant_chunks : list RelevantChunks)
  : string :=
  ("<files>" +:+ Py.nl)
  +:+ PyStr.join Py.nl (map format_file relevant_chunks)
  +:+ (Py.nl +:+ "</files>").

End EditingPrompts.

(** * Terms of the properties *)

(** ** The parts of a truncated output *)

Section TruncationTerms.
Import TestExecution.

Definition truncation_header : string :=
  "[Output too long, truncating middle portion]" +:+ Py.nl +:+ Py.nl.

(** The marker that states how many characters were elided. *)
Definition elision_marker (elided : Z) : string :=
  Py.nl +:+ Py.nl +:+ "[Truncating " +:+ Py.str_of_int elided
  +:+ " characters]" +:+ Py.nl +:+ Py.nl.

End TruncationTerms.

(** ** The line diff of the specification *)

Section DiffTerms.
Import ExportFinalPatches.

(** Line [i] of a text, the empty string past its end. *)
Definition line_at (content : string) (i : nat) : string :=
  line_or_empty (Py.splitlines content) i.

Definition differs_at (old_content new_content : string) (i : nat) : bool :=
  negb (String.eqb (line_at old_content i) (line_at new_content i)).

Definition edit_at (name old_content new_content : string) (i : nat) : Edit :=
  {| file_name := name;
     line_number := Z.of_nat i;
     line_content := line_at old_content i;
     new_line_content := line_at new_content i |}.

Definition line_count (content : string) : nat :=
  List.length (Py.splitlines content).

(** The derivation in the words of the specification: the indices below
    the longer of the two line counts at which the lines differ, one edit
    record for each. *)
Definition derive_edits (f : string * string * string) : list Edit :=
  let '(name, old_content, new_content) := f in
  map (edit_at name old_content new_content)
    (List.filter (differs_at old_content new_content)
       (seq 0 (Nat.max (line_count old_content) (line_count new_content)))).

End DiffTerms.

(** ** Chunks and their combination *)

Section ChunkTerms.
Import Localization.

(** The line after the last line of a chunk. *)
Definition chunk_end (c : ContextChunk) : Z :=
  line_number c + Py.len (content c).

(** Line [L] lies in the chunk. *)
Definition covers (L : Z) (c : ContextChunk) : Prop :=
  line_number c ≤ L < chunk_end c.

(** At least one line is left out between chunk [a] and chunk [b]. *)
Definition gap (a b : ContextChunk) : Prop := chunk_end a < line_number b.

(** The chunk that takes the place of [current_chunk] when [next_chunk]
    is combined with it. *)
Definition merged (lines : list string) (current next : ContextChunk)
  : ContextChunk :=
  {| line_number := line_number current;
     content := Py.slice lines (line_number current - 1)
                  (line_number next + Py.len (content next) - 1) |}.

(** The combine loop as a recursion on the chunks still to come. *)
Fixpoint merge_from (lines : list string) (current : ContextChunk)
    (rest : list ContextChunk) : list ContextChunk :=
  match rest with
  | [] => [current]
  | next :: rest' =>
      if line_number next <=? chunk_end current
      then merge_from lines (merged lines current next) rest'
      else current :: merge_from lines next rest'
  end.

Definition ten_lines : string :=
  "1
2
3
4
5
6
7
8
9
10".

End ChunkTerms.

(** ** The chunk around a line *)

Section WindowTerms.
Import Localization.

Variable lines : list string.
Variable context_lines : Z.

(** [1 <= L <= len(lines)] *)
Definition in_range (L : Z) : bool :=
  negb ((L <? 1) || (L >? Py.len lines)).

(** The chunk built around line [L]. *)
Definition window (L : Z) : ContextChunk :=
  {| line_number := Z.max 1 (L - context_lines);
     content := Py.slice lines (Z.max 1 (L - context_lines) - 1)
                  (Z.min (Py.len lines) (L + context_lines)) |}.

(** The chunk lies within the file. *)
Definition within (c : ContextChunk) : Prop :=
  1 ≤ line_number c ∧ chunk_end c ≤ Py.len lines + 1.

(** Chunk [a] starts and ends no later than chunk [b]. *)
Definition before (a b : ContextChunk) : Prop :=
  line_number a ≤ line_number b ∧ chunk_end a ≤ chunk_end b.

(** The content of the chunk is the text of the lines it covers. *)
Definition faithful (c : ContextChunk) : Prop :=
  content c = Py.slice lines (line_number c - 1) (chunk_end c - 1).

End WindowTerms.

(** ** Line-number locations *)

Section LocationTerms.
Import Localization.

(** The line number a location string stands for, if it is a line-number
    location. *)
Definition location_line (loc : string) : option Z :=
  if Py.startswith loc "line:" then
    Py.split ":" loc !! 1%nat ≫= λ part, Py.int (Py.strip part)
  else None.

(** [L] is the line number of one of the locations. *)
Definition line_location (locations : list string) (L : Z) : Prop :=
  ∃ loc, loc ∈ locations ∧ location_line loc = Some L.

Definition total_lines (file_content : string) : Z :=
  Py.len (Py.split "010" file_content).

End LocationTerms.

(** ** Locations in range *)

Section CoverageTerms.
Import Localization.

(** A location is kept unless it is a line-number location out of the
    range of the file. *)
Definition keeps (file_content loc : string) : bool :=
  match location_line loc with
  | Some L => in_range (Py.split "010" file_content) L
  | None => true
  end.

End CoverageTerms.

(** ** Events of a container run *)

Section ContainerTerms.
Import TestExecution.

Variable container : Type.
Variable start_container : Problem → container.
Variable write_file : string → string → container → container.
Variable exec_run :
  string → string → string → container → ExecResult * container.
Variable decode : list Byte.byte → result string.

(** The container in which [git apply] is run. *)
Definition patched_container (problem : Problem) (patch : string)
  : container :=
  write_file (terminate_patch patch) "/tmp/patch.diff"
    (start_container problem).

(** What [git apply] returns and the container it leaves. *)
Definition primary (problem : Problem) (patch : string)
  : ExecResult * container :=
  exec_run git_apply_cmd "/testbed" "root" (patched_container problem patch).

(** What the fuzzy [patch] returns when run after [git apply]. *)
Definition fallback (problem : Problem) (patch : string)
  : ExecResult * container :=
  exec_run fuzzy_patch_cmd "/testbed" "root" (snd (primary problem patch)).

(** The script was run. *)
Definition is_script_run (e : ContainerEvent) : bool :=
  match e with
  | ExecRunWithTimeout _ _ _ _ => true
  | _ => false
  end.

(** The fuzzy fallback was attempted. *)
Definition is_fallback (e : ContainerEvent) : bool :=
  match e with
  | ExecRun cmd _ _ _ => String.eqb cmd fuzzy_patch_cmd
  | _ => false
  end.

(** The script was run and exceeded the timeout. *)
Definition container_timed_out (e : ContainerEvent) : bool :=
  match e with
  | ExecRunWithTimeout _ _ _ r => t_timed_out r
  | _ => false
  end.

(** The output of the script is text, or bytes that decode. *)
Definition decodes (e : ContainerEvent) : Prop :=
  match e with
  | ExecRunWithTimeout _ _ _ r =>
      match output r with
      | Str _ => True
      | Bytes b => ∃ s, decode b = Ok s
      end
  | _ => True
  end.

End ContainerTerms.

(** ** Events of a local run *)

Section LocalTerms.
Import TestExecution.

Variable tree : Type.

(** The fuzzy [patch] command was run. *)
Definition local_fallback (e : LocalEvent) : bool :=
  match e with
  | Run (Args (prog :: _)) _ _ => String.eqb prog "patch"
  | _ => false
  end.

(** A shell command was run and exceeded its timeout. *)
Definition local_timed_out (e : LocalEvent) : bool :=
  match e with
  | Run (Shell _) _ (Raise TimeoutExpired) => true
  | _ => false
  end.

(** The script was run. *)
Definition local_script_run (e : LocalEvent) : bool :=
  match e with
  | Run (Shell cmd) _ _ => String.eqb cmd command
  | _ => false
  end.

Definition timeout_output : ExecutionOutput :=
  {| stdout := Some "Script execution timed out";
     exit_code := 1;
     timed_out := true |}.

(** Outside of [dir] the two file systems are the same. *)
Definition same_elsewhere (dir : string) (f f' : gmap string tree) : Prop :=
  ∀ d, d ≠ dir → f' !! d = f !! d.

(** What a part of the runner has added to the log and done to the file
    system: no fuzzy patch was run, a timed-out shell command shows in
    the result, and only [dir] has changed. *)
Definition contained (dir : string) (w w' : World tree)
    (r : result ExecutionOutput) : Prop :=
  ∃ new,
    log tree w' = log tree w ++ new
    ∧ existsb local_fallback new = false
    ∧ (existsb local_timed_out new = true → r = Ok timeout_output)
    ∧ same_elsewhere dir (fs tree w) (fs tree w').

End LocalTerms.

Arguments same_elsewhere {tree} dir f f'.
Arguments contained {tree} dir w w' r.

(** ** A work item over the token budget *)

Section RunWorkTerms.
Import Localization.

Definition long_file_work : WorkItem :=
  {| problem_statement := "issue";
     file := {| path := "big.py"; file_text := "x = 1" |};
     config := {| max_file_tokens := 3; max_tokens := 10_000;
                  model := "anthropic/claude-3.5-sonnet" |} |}.

End RunWorkTerms.

(** ** Concrete sandboxes *)

Module Demo.
Import TestExecution.

Definition problem : Problem :=
  {| instance_id := "demo"; repo_location := "/repo";
     base_commit := "abc123" |}.

(** A container is the journal of what was done in it. [applies] tells
    whether [git apply] accepts the patch, [fuzzy_applies] whether the
    fuzzy [patch] does, [slow] whether the script exceeds its timeout. *)
Definition start_container (_ : Problem) : list string := [].

Definition write_file (content path : string) (c : list string)
  : list string := c ++ [path].

Definition exec_run (applies fuzzy_applies : bool)
    (cmd workdir user : string) (c : list string)
  : ExecResult * list string :=
  let ok := if String.eqb cmd git_apply_cmd then applies else fuzzy_applies in
  ({| er_exit_code := if ok then 0 else 1; er_output := Bytes [] |},
   if ok then c ++ ["patched"%string] else c).

Definition exec_run_with_timeout (slow : bool) (cmd workdir : string)
    (timeout : Z) (c : list string) : TimedExecResult * list string :=
  ({| output := Str "started";
      t_exit_code := if slow then 137 else 2;
      t_timed_out := slow |}, c).

Definition decode (b : list Byte.byte) : result string :=
  Ok (string_of_list_byte b).

Definition format_output (o : Output) : string :=
  match o with
  | Str s => s
  | Bytes b => string_of_list_byte b
  end.

Definition run_container (applies fuzzy_applies slow : bool) :=
  execute_script_container (list string) start_container write_file
    (exec_run applies fuzzy_applies) (exec_run_with_timeout slow) decode
    format_output.

(** A directory tree is the journal of what was done in it. The script
    exits with 2 in a tree without the patch and with 0 in a tree with
    it; with [slow] it exceeds its timeout. A [git reset] empties the
    journal. *)
Definition has_patch (t : list string) : bool :=
  existsb (String.eqb "patched") t.

Definition completed (code : Z) : result CompletedProcess :=
  Ok {| returncode := code; cp_stdout := Some (Str EmptyString) |}.

Definition run (applies slow : bool) (cmd : Command) (timeout : option Z)
    (t : list string) : result CompletedProcess * list string :=
  match cmd with
  | Args ("git" :: "reset" :: _) => (completed 0, [])
  | Args ("git" :: "apply" :: _) =>
      if applies then (completed 0, t ++ ["patched"%string])
      else (completed 1, t)
  | Args _ => (completed 0, t ++ ["patched"%string])
  | Shell cmd =>
      if String.prefix "git apply" cmd then
        if applies then (completed 0, t ++ ["patched"%string])
        else (completed 1, t)
      else if slow then (Raise TimeoutExpired, t)
      else (completed (if has_patch t then 0 else 2), t)
  end.

Definition write_text (name text : string) (t : list string)
  : list string := t ++ [name].

Definition mkdtemp (_ : World (list string)) : string := "/tmp/tmp0".

Definition str_exc (e : PyExc) : string :=
  match e with
  | OSError msg => msg
  | _ => EmptyString
  end.

Definition format_local (o : option Output) : string :=
  from_option format_output "None" o.

Definition local_run (applies slow : bool) :=
  execute_script (list string) (run applies slow) write_text mkdtemp decode
    str_exc format_local.

Definition test_local (applies : bool) :=
  run_swebench_test_local (list string) (run applies false) write_text
    mkdtemp decode str_exc format_local (λ _, "cd /testbed && pytest")
    (λ _ _ _, false).

(** The host with the canonical tree at [/repo]. *)
Definition host : World (list string) :=
  {| fs := {[ "/repo"%string := [] ]}; log := [] |}.

End Demo.

(** ** The lines a response points at *)

Section AnchorTerms.
Import Localization.

(** The line numbers of the line-number locations. *)
Definition location_lines (locations : list string) : gset Z :=
  list_to_set (omap location_line locations).

(** Those of them that are lines of the file. *)
Definition anchors (file_content : string) (locations : list string)
  : gset Z :=
  filter (λ L, 1 ≤ L ≤ total_lines file_content) (location_lines locations).

(** The whole file as one chunk. *)
Definition whole_file (file_content : string) : ContextChunk :=
  {| line_number := 1; content := Py.split "010" file_content |}.

End AnchorTerms.

(** ** The request of a work item *)

Section RequestTerms.
Import Localization.

(** The messages [_run_work] sends for a work item. *)
Definition localization_messages (SYSTEM_PROMPT : string) (work : WorkItem)
  : list Message :=
  [ {| role := "system"; text := SYSTEM_PROMPT |};
    {| role := "user";
       text := get_user_prompt (problem_statement work) (path (file work))
                 (file_text (file work)) |} ].

Definition short_file_work : WorkItem :=
  {| problem_statement := "issue";
     file := {| path := "small.py"; file_text := "x = 1" |};
     config := {| max_file_tokens := 100; max_tokens := 10_000;
                  model := "anthropic/claude-3.5-sonnet" |} |}.

(** An answer in the format the system prompt asks for. *)
Definition fenced_answer : string :=
  "LOCATIONS:
```
line: 1
```".

End RequestTerms.

(** ** What the in-place application logs *)

Section InPlaceTerms.
Import TestExecution.

(** A process was run and returned. *)
Definition returned (e : LocalEvent) : bool :=
  match e with
  | Run _ _ (Ok _) => true
  | _ => false
  end.

(** A process was run in the directory [dir]. *)
Definition runs_in (dir : string) (e : LocalEvent) : bool :=
  match e with
  | Run _ cwd _ => String.eqb cwd dir
  | _ => false
  end.

(** No process was run in a directory other than [dir]. *)
Definition only_in (dir : string) (new : list LocalEvent) : Prop :=
  ∀ d, d ≠ dir → existsb (runs_in d) new = false.

End InPlaceTerms.

(** ** Reading a patch backwards and forwards *)

Section PatchTerms.
Import ExportFinalPatches.

(** The edit that undoes an edit. *)
Definition swap_edit (e : Edit) : Edit :=
  {| file_name := file_name e;
     line_number := line_number e;
     line_content := new_line_content e;
     new_line_content := line_content e |}.

(** Line [i] of the text that the edits make of [old_content]: the new
    line of the edit at [i] if there is one, the old line otherwise. *)
Definition patched_line (es : list Edit) (old_content : string) (i : nat)
  : string :=
  match List.find (λ e, line_number e =? Z.of_nat i) es with
  | Some e => new_line_content e
  | None => line_at old_content i
  end.

End PatchTerms.

(** ** Characters, paths and a git configuration *)

Section TextTerms.
Import SweBenchVerified.

(** The character [c] occurs in the text. *)
Fixpoint occurs (c : ascii) (s : string) : bool :=
  match s with
  | EmptyString => false
  | String a s' => Ascii.eqb a c || occurs c s'
  end.

(** The path is that of a Python file: the name [py] or a name with the
    extension [.py]. *)
Definition python_file (file_path : string) : Prop :=
  file_path = "py"%string ∨ ∃ stem, file_path = stem +:+ ".py".

(** The path leads into the directory [dir]. *)
Definition inside (dir file_path : string) : Prop :=
  ∃ rest, file_path = dir +:+ "/" +:+ rest.

Definition tab : string := String "009" EmptyString.

(** The configuration of a clone of Django. *)
Definition git_config : string :=
  "[core]" +:+ Py.nl
  +:+ tab +:+ "bare = false" +:+ Py.nl
  +:+ remote_origin +:+ Py.nl
  +:+ tab +:+ "url = https://github.com/django/django.git" +:+ Py.nl
  +:+ tab +:+ "fetch = +refs/heads/*:refs/remotes/origin/*" +:+ Py.nl.

End TextTerms.

(** ** The messages of a request *)

Section CompletionTerms.
Import Completions.

(** The texts of a content, block by block. *)
Definition texts (c : Content) : list string :=
  match c with
  | Plain s => [s]
  | Blocks bs => map block_text bs
  end.

(** A content with the cache marker on its last block. *)
Definition marked_content (c : Content) : Content :=
  match c with
  | Plain s =>
      Blocks [ {| block_type := "text"; block_text := s;
                  cache_control := ephemeral |} ]
  | Blocks bs =>
      match last bs with
      | Some b =>
          Blocks (removelast bs
                  ++ [ {| block_type := block_type b;
                          block_text := block_text b;
                          cache_control := ephemeral |} ])
      | None => Blocks []
      end
  end.

Definition marked_message (m : ChatMessage) : ChatMessage :=
  {| role := role m; content := marked_content (content m) |}.

(** The positions of the last two user messages. *)
Definition cache_positions (messages : list ChatMessage) : list nat :=
  let positions := user_message_positions messages in
  drop (length positions - 2) positions.

Definition plain (r s : string) : ChatMessage :=
  {| role := r; content := Plain s |}.

(** A message of [_run_work] as [call_completions] takes it. *)
Definition of_message (m : Localization.Message) : ChatMessage :=
  plain (Localization.role m) (Localization.text m).

Definition caching_config : Config Z :=
  {| model := "anthropic/claude-3.5-sonnet"; temperature := 0;
     max_tokens := 10_000; anthropic_cache := true |}.



(** The request for the messages of a work item. *)
Definition work_request (SYSTEM_PROMPT : string)
    (work : Localization.WorkItem) : AnthropicRequest Z :=
  {| an_model := "anthropic/claude-3.5-sonnet";
     an_messages :=
       map (λ m, marked_message (of_message m))
         (drop 1 (localization_messages SYSTEM_PROMPT work));
     an_max_tokens := 10_000;
     an_temperature := 0;
     an_system := [ {| system_text := Plain SYSTEM_PROMPT;
                       system_cache := ephemeral |} ] |}.

End CompletionTerms.

(** ** Chunks for a prompt *)

Section PromptTerms.
Import Localization.

Definition two_chunks : RelevantChunks :=
  {| message := "m";
     chunks := [ {| line_number := 1;
                    content := ["1"; "2"; "3"; "4"]%string |};
                 {| line_number := 8;
                    content := ["8"; "9"; "10"]%string |} ];
     file_path := "f.py" |}.

End PromptTerms.

(** * Properties *)

(** ** The built-ins at work *)

Section BuiltinChecks.

Example split_colon :
  Py.split ":" "line: 10:x" = ["line"; " 10"; "x"]%string.
Proof. reflexivity. Qed.

Example split_empty : Py.split "010" EmptyString = [EmptyString].
Proof. reflexivity. Qed.

Example strip_spaces : Py.strip "  line: 51  " = "line: 51"%string.
Proof. reflexivity. Qed.

Example int_plain : Py.int " 42 " = Some 42.
Proof. reflexivity. Qed.

Example int_signed : Py.int "-7" = Some (-7) ∧ Py.int "+7" = Some 7.
Proof. split; reflexivity. Qed.

Example int_underscore : Py.int "1_000" = Some 1000.
Proof. reflexivity. Qed.

Example int_rejects :
  Py.int EmptyString = None ∧ Py.int "1__0" = None ∧ Py.int "12_" = None
  ∧ Py.int "_12" = None ∧ Py.int "10-20" = None ∧ Py.int "- 5" = None
  ∧ Py.int "abc" = None.
Proof. repeat split; reflexivity. Qed.

Example sorted_set :
  Py.sorted ({[ 5 ]} ∪ {[ 3 ]} ∪ {[ 5 ]} ∪ {[ -2 ]}) = [-2; 3; 5].
Proof. vm_compute. reflexivity. Qed.

Example slice_negative : Py.slice [1; 2; 3; 4; 5] 1 (-1) = [2; 3; 4].
Proof. reflexivity. Qed.

Example slice_clipped : Py.slice [1; 2; 3] 1 10 = [2; 3].
Proof. reflexivity. Qed.

Example splitlines_text :
  Py.splitlines ("a" +:+ Py.nl +:+ Py.nl +:+ "b" +:+ Py.nl)
  = ["a"%string; EmptyString; "b"%string].
Proof. reflexivity. Qed.

Example splitlines_crlf :
  Py.splitlines (String "a" (String "013" (String "010" "b")))
  = ["a"; "b"]%string.
Proof. reflexivity. Qed.

Example str_of_int_ex :
  Py.str_of_int 1234 = "1234"%string ∧ Py.str_of_int (-5) = "-5"%string.
Proof. split; vm_compute; reflexivity. Qed.

Example parse_response_ex :
  Localization.locations
    (Localization._parse_response
       ("thoughts" +:+ Py.nl +:+ "LOCATIONS: " +:+ Py.nl +:+ "```" +:+ Py.nl
        +:+ "line: 10" +:+ Py.nl +:+ "class: MyClass1" +:+ Py.nl +:+ Py.nl
        +:+ "  line: 51  " +:+ Py.nl +:+ "```" +:+ Py.nl +:+ "more"))
  = ["line: 10"; "class: MyClass1"; "line: 51"]%string.
Proof. vm_compute. reflexivity. Qed.

Example replace_ex :
  TestExecution.replace "cd /testbed && ls /testbed/x" "/testbed" "/repo"
  = "cd /repo && ls /repo/x"%string.
Proof. reflexivity. Qed.

End BuiltinChecks.

(** ** Strings *)

Section StringFacts.

Lemma append_cons (c : ascii) (s t : string) :
  String c s +:+ t = String c (s +:+ t).
Proof. reflexivity. Qed.

Lemma append_length (s t : string) :
  String.length (s +:+ t) = (String.length s + String.length t)%nat.
Proof.
  induction s as [|c s IH]; [done|]. rewrite append_cons. simpl. by rewrite IH.
Qed.

Lemma append_assoc (s t u : string) : (s +:+ t) +:+ u = s +:+ t +:+ u.
Proof.
  induction s as [|c s IH]; [done|]. rewrite !append_cons. by rewrite IH.
Qed.

Lemma substring_all (s : string) : String.substring 0 (String.length s) s = s.
Proof. induction s as [|c s IH]; simpl; [done | by rewrite IH]. Qed.

Lemma substring_length (n m : nat) (s : string) :
  (n + m ≤ String.length s)%nat →
  String.length (String.substring n m s) = m.
Proof.
  revert n m. induction s as [|c s IH]; intros n m Hle; simpl in *.
  - assert (n = 0%nat ∧ m = 0%nat) as [-> ->] by lia. done.
  - destruct n as [|n].
    + destruct m as [|m]; simpl; [done|]. rewrite (IH 0%nat m); [done | lia].
    + apply IH. lia.
Qed.

Lemma sdrop_0 (s : string) : Py.sdrop 0 s = s.
Proof. unfold Py.sdrop. rewrite Nat.sub_0_r. apply substring_all. Qed.

Lemma sdrop_nil (n : nat) : Py.sdrop n EmptyString = EmptyString.
Proof. by destruct n. Qed.

Lemma sdrop_cons (n : nat) (c : ascii) (s : string) :
  Py.sdrop (S n) (String c s) = Py.sdrop n s.
Proof. reflexivity. Qed.

Lemma sdrop_length (n : nat) (s : string) :
  String.length (Py.sdrop n s) = (String.length s - n)%nat.
Proof.
  revert n. induction s as [|c s IH]; intros n.
  - by rewrite sdrop_nil.
  - destruct n as [|n]; [by rewrite sdrop_0|]. rewrite sdrop_cons. apply IH.
Qed.

Lemma sdrop_add (n m : nat) (s : string) :
  Py.sdrop (n + m) s = Py.sdrop m (Py.sdrop n s).
Proof.
  revert n. induction s as [|c s IH]; intros n.
  - by rewrite !sdrop_nil.
  - destruct n as [|n]; [by rewrite sdrop_0|].
    change (S n + m)%nat with (S (n + m)). rewrite !sdrop_cons. apply IH.
Qed.

(** Cutting a string at [n]. *)
Lemma substring_cut (n : nat) (s : string) :
  String.substring 0 n s +:+ Py.sdrop n s = s.
Proof.
  revert n. induction s as [|c s IH]; intros n.
  - rewrite sdrop_nil. by destruct n.
  - destruct n as [|n]; [by rewrite sdrop_0|].
    rewrite sdrop_cons. simpl. rewrite append_cons. by rewrite IH.
Qed.

End StringFacts.

(** ** [truncate_output] and [render_stdout] *)

Section Truncation.
Import TestExecution.

Lemma sslice_front (output : string) (k : Z) :
  0 ≤ k ≤ Py.slen output →
  Py.sslice output None (Some k) = String.substring 0 (Z.to_nat k) output.
Proof.
  intros Hk. unfold Py.sslice, Py.slice_index, Py.slen in *. simpl.
  destruct (0 <? 0) eqn:E0; [lia|]. destruct (k <? 0) eqn:Ek; [lia|].
  rewrite Z.min_l by lia. rewrite Z.min_l by lia.
  by rewrite Z.sub_0_r.
Qed.

Lemma sslice_back (output : string) (k : Z) :
  0 ≤ k ≤ Py.slen output →
  Py.sslice output (Some k) None = Py.sdrop (Z.to_nat k) output.
Proof.
  intros Hk. unfold Py.sslice, Py.slice_index, Py.sdrop, Py.slen in *.
  simpl. destruct (k <? 0) eqn:Ek; [lia|].
  destruct (Z.of_nat (String.length output) <? 0) eqn:El; [lia|].
  rewrite Z.min_l by lia. rewrite Z.min_l by lia.
  f_equal. lia.
Qed.

(** C2. Within the budget the output is returned as it is. Beyond a budget
    [B >= 0] the output splits into a front of [B // 2] characters, a
    middle of [len(output) - B] characters and a back of [B - B // 2]
    characters, and the result is the header, the front, the marker that
    states the length of the middle, and the back. *)
Theorem truncate_output_keeps_front_and_back (output : string) (B : Z) :
  (Py.slen output ≤ B → truncate_output output B = output)
  ∧ (0 ≤ B < Py.slen output →
     ∃ front middle back : string,
       output = front +:+ middle +:+ back
       ∧ Py.slen front = B `div` 2
       ∧ Py.slen back = B - B `div` 2
       ∧ Py.slen middle = Py.slen output - B
       ∧ truncate_output output B
         = truncation_header +:+ front
           +:+ elision_marker (Py.slen middle) +:+ back).
Proof.
  split.
  - intros Hle. unfold truncate_output.
    destruct (Py.slen output <=? B) eqn:E; [done | lia].
  - intros [H0 Hlt]. unfold truncate_output.
    destruct (Py.slen output <=? B) eqn:E; [lia|]. clear E.
    assert (0 ≤ B `div` 2 ≤ B) as Hhalf.
    { split; [apply Z.div_pos; lia | apply Z.div_le_upper_bound; lia]. }
    set (f := B `div` 2) in *.
    set (n := Py.slen output) in *.
    rewrite sslice_front by (fold n; lia).
    rewrite sslice_back by (fold n; lia).
    set (tail := Py.sdrop (Z.to_nat f) output).
    assert (Py.slen tail = n - f) as Htail.
    { unfold Py.slen, tail. rewrite sdrop_length. unfold n, Py.slen in *. lia. }
    assert (Z.to_nat (n - (B - f)) = (Z.to_nat f + Z.to_nat (n - B))%nat)
      as -> by lia.
    rewrite sdrop_add. fold tail.
    assert (String.length tail = Z.to_nat (n - f)) as Htail'.
    { unfold Py.slen in Htail. lia. }
    assert (String.length output = Z.to_nat n) as Hn.
    { unfold n, Py.slen. lia. }
    exists (String.substring 0 (Z.to_nat f) output),
           (String.substring 0 (Z.to_nat (n - B)) tail),
           (Py.sdrop (Z.to_nat (n - B)) tail).
    assert (Py.slen (String.substring 0 (Z.to_nat (n - B)) tail) = n - B)
      as Hmid.
    { unfold Py.slen. rewrite substring_length; lia. }
    split; [by rewrite (substring_cut _ tail); unfold tail;
               rewrite substring_cut|].
    split; [unfold Py.slen; rewrite substring_length; lia|].
    split; [unfold Py.slen; rewrite sdrop_length; lia|].
    split; [done|].
    rewrite Hmid. unfold truncation_header, elision_marker.
    by rewrite !append_assoc.
Qed.

Lemma truncate_output_keeps_front_and_back_witness :
  truncate_output "abc" 5 = "abc"%string
  ∧ ∃ front middle back : string,
      "0123456789"%string = front +:+ middle +:+ back
      ∧ Py.slen front = 2
      ∧ Py.slen back = 3
      ∧ Py.slen middle = 5
      ∧ truncate_output "0123456789" 5
        = truncation_header +:+ front
          +:+ elision_marker (Py.slen middle) +:+ back.
Proof.
  split.
  - apply (proj1 (truncate_output_keeps_front_and_back "abc" 5)).
    vm_compute. discriminate.
  - apply (proj2 (truncate_output_keeps_front_and_back "0123456789" 5)).
    vm_compute. split; [discriminate | reflexivity].
Defined.

Example truncate_output_ex :
  truncate_output "0123456789" 5
  = ("[Output too long, truncating middle portion]" +:+ Py.nl +:+ Py.nl
     +:+ "01" +:+ Py.nl +:+ Py.nl +:+ "[Truncating 5 characters]"
     +:+ Py.nl +:+ Py.nl +:+ "789")%string.
Proof. vm_compute. reflexivity. Qed.

(** A negative budget is outside of the statement above: the slices then
    count from the end of the output. *)
Example truncate_output_negative_budget :
  truncate_output "abcdef" (-3)
  = truncation_header +:+ "abcd" +:+ elision_marker 9.
Proof. vm_compute. reflexivity. Qed.

(** C9. A timed-out output renders as the fixed timeout text whatever its
    stdout and [max_chars]; without a timeout an absent stdout renders as
    the fixed no-output text; a present stdout is returned as it is when
    [max_chars] is absent and goes through [truncate_output] only when it
    is given. *)
Theorem render_stdout_cases (self : ExecutionOutput) (max_chars : option Z) :
  (timed_out self = true →
   render_stdout self max_chars = "[Running script timed out]")
  ∧ (timed_out self = false → stdout self = None →
     render_stdout self max_chars = "[Running script produced no output]")
  ∧ (∀ out, timed_out self = false → stdout self = Some out →
     render_stdout self None = out
     ∧ ∀ m, render_stdout self (Some m) = truncate_output out m).
Proof.
  unfold render_stdout. split; [by intros ->|]. split; [by intros -> ->|].
  intros out -> ->. split; [done|]. by intros m.
Qed.

Lemma render_stdout_cases_witness :
  render_stdout
    {| stdout := Some "partial"; exit_code := 0; timed_out := true |}
    (Some 3)
  = "[Running script timed out]"%string
  ∧ render_stdout {| stdout := None; exit_code := 0; timed_out := false |}
      (Some 3)
    = "[Running script produced no output]"%string
  ∧ render_stdout
      {| stdout := Some "0123456789"; exit_code := 2; timed_out := false |}
      None
    = "0123456789"%string.
Proof.
  split; [|split].
  - apply (proj1 (render_stdout_cases _ _)). reflexivity.
  - apply (proj1 (proj2 (render_stdout_cases _ _))); reflexivity.
  - apply (proj2 (proj2 (render_stdout_cases
             {| stdout := Some "0123456789"; exit_code := 2;
                timed_out := false |} None)) "0123456789"%string);
      reflexivity.
Defined.

End Truncation.

(** ** [create_patch] *)

Section Diff.
Import ExportFinalPatches.

Lemma compare_line_fold (name old_content new_content : string)
    (indices : list nat) (acc : list Edit) :
  fold_left
    (compare_line name (Py.splitlines old_content)
       (Py.splitlines new_content)) indices acc
  = acc ++ map (edit_at name old_content new_content)
             (List.filter (differs_at old_content new_content) indices).
Proof.
  revert acc. induction indices as [|i indices IH]; intros acc; simpl.
  - by rewrite app_nil_r.
  - rewrite IH.
    change (compare_line name _ _ acc i)
      with (if differs_at old_content new_content i
            then acc ++ [edit_at name old_content new_content i] else acc).
    destruct (differs_at old_content new_content i); simpl; [|done].
    by rewrite <- app_assoc.
Qed.

Lemma compare_file_derive (acc : list Edit) (f : string * string * string) :
  compare_file acc f = acc ++ derive_edits f.
Proof. destruct f as [[name o] n]. apply compare_line_fold. Qed.

Lemma compare_file_fold (files : list (string * string * string))
    (acc : list Edit) :
  fold_left compare_file files acc = acc ++ flat_map derive_edits files.
Proof.
  revert acc. induction files as [|f files IH]; intros acc; simpl.
  - by rewrite app_nil_r.
  - by rewrite IH, compare_file_derive, <- app_assoc.
Qed.

Lemma validate_model_dump (e : Edit) : validate (model_dump e) = e.
Proof. by destruct e. Qed.

Lemma create_patch_derive (names olds news : list string) :
  edits (create_patch names olds news)
  = flat_map derive_edits (zip3 names olds news).
Proof.
  unfold create_patch. simpl. rewrite compare_file_fold. simpl.
  rewrite <- (map_id (flat_map _ _)) at 2.
  apply map_ext. intros e. apply validate_model_dump.
Qed.

Lemma differs_at_iff (o n : string) (i : nat) :
  differs_at o n i = true ↔ line_at o i ≠ line_at n i.
Proof.
  unfold differs_at. rewrite negb_true_iff.
  destruct (String.eqb_spec (line_at o i) (line_at n i)); naive_solver.
Qed.

Lemma differs_at_in_range (o n : string) (i : nat) :
  differs_at o n i = true →
  (i < Nat.max (line_count o) (line_count n))%nat.
Proof.
  rewrite differs_at_iff. unfold line_at, line_or_empty, line_count.
  intros Hne.
  destruct (i <? List.length (Py.splitlines o))%nat eqn:Eo;
    [apply Nat.ltb_lt in Eo; lia|].
  destruct (i <? List.length (Py.splitlines n))%nat eqn:En;
    [apply Nat.ltb_lt in En; lia|].
  done.
Qed.

Lemma differs_at_same (o : string) (i : nat) : differs_at o o i = false.
Proof. unfold differs_at. by rewrite String.eqb_refl. Qed.

Lemma filter_none {A} (P : A → bool) (l : list A) :
  (∀ x, In x l → P x = false) → List.filter P l = [].
Proof.
  induction l as [|x l IH]; intros H; simpl; [done|].
  rewrite (H x) by (by left). apply IH. intros y Hy. apply H. by right.
Qed.

Lemma filter_seq_single (P : nat → bool) (n i : nat) :
  (i < n)%nat → P i = true → (∀ j, j ≠ i → P j = false) →
  List.filter P (seq 0 n) = [i].
Proof.
  intros Hi Hp Hother.
  replace n with (i + (1 + (n - i - 1)))%nat by lia.
  rewrite !seq_app, !List.filter_app. simpl. rewrite Hp.
  rewrite !filter_none; [done| |].
  - intros x Hx%in_seq. apply Hother. lia.
  - intros x Hx%in_seq. apply Hother. lia.
Qed.

(** C3. [create_patch] yields, file by file, the edits of the
    specification's derivation: one [Edit] with the 0-based index, the
    original line and the new line for every index below the longer line
    count at which the lines differ, a line past a file's end counting as
    empty. For one file, no two edits share an index and the edits are
    those of the differing indices. Equal contents give no edit, and
    contents that differ at index [i] only give the one edit of [i]. *)
Theorem create_patch_line_diff :
  (∀ names olds news,
      edits (create_patch names olds news)
      = flat_map derive_edits (zip3 names olds news))
  ∧ (∀ name o n,
      let es := edits (create_patch [name] [o] [n]) in
      NoDup (map line_number es)
      ∧ ∀ e, In e es ↔
             ∃ i : nat, line_at o i ≠ line_at n i ∧ e = edit_at name o n i)
  ∧ (∀ names contents, edits (create_patch names contents contents) = [])
  ∧ (∀ name o n (i : nat),
      line_at o i ≠ line_at n i →
      (∀ j : nat, j ≠ i → line_at o j = line_at n j) →
      edits (create_patch [name] [o] [n]) = [edit_at name o n i]).
Proof.
  split; [exact create_patch_derive|]. split; [|split].
  - intros name o n es. subst es. rewrite create_patch_derive. simpl.
    rewrite app_nil_r. split.
    + rewrite map_map. simpl.
      apply (NoDup_fmap_2 Z.of_nat), NoDup_ListNoDup.
      apply List.NoDup_filter, seq_NoDup.
    + intros e. rewrite in_map_iff. split.
      * intros (i & <- & [_ Hd]%filter_In). exists i. split; [|done].
        by apply differs_at_iff.
      * intros (i & Hd%differs_at_iff & ->). exists i. split; [done|].
        apply filter_In. split; [|done]. apply in_seq.
        apply differs_at_in_range in Hd. lia.
  - intros names contents. rewrite create_patch_derive.
    revert contents. induction names as [|x names IH]; intros [|c cs];
      simpl; try done.
    rewrite IH, app_nil_r. rewrite filter_none; [done|].
    intros i _. apply differs_at_same.
  - intros name o n i Hi Hother. rewrite create_patch_derive. simpl.
    rewrite app_nil_r.
    rewrite (filter_seq_single _ _ i); [done| | |].
    + by apply differs_at_in_range, differs_at_iff.
    + by apply differs_at_iff.
    + intros j Hj. apply not_true_is_false. rewrite differs_at_iff.
      intros Hne. by apply Hne, Hother.
Qed.

Lemma create_patch_line_diff_witness :
  edits (create_patch ["f.py"] ["a
b
c"] ["a
B
c"])
  = [ edit_at "f.py" "a
b
c" "a
B
c" 1 ].
Proof.
  apply (proj2 (proj2 (proj2 create_patch_line_diff))).
  - vm_compute. discriminate.
  - intros [|[|[|[|j]]]] Hj; try reflexivity. by destruct Hj.
Defined.

(** A line feed added after the last line changes no line. *)
Example create_patch_trailing_blank :
  edits (create_patch ["f.py"] ["a" +:+ Py.nl +:+ "b"]
           ["a" +:+ Py.nl +:+ "b" +:+ Py.nl +:+ Py.nl]) = [].
Proof. reflexivity. Qed.

End Diff.

(** ** The combine step of [create_context_chunks] *)

Section Combine.
Import Localization.

Lemma combine_fold (lines : list string) (rest : list ContextChunk)
    (acc : list ContextChunk) (current : ContextChunk) :
  (let '(combined, last) :=
     fold_left (combine_step lines) rest (acc, current) in
   combined ++ [last])
  = acc ++ merge_from lines current rest.
Proof.
  revert acc current.
  induction rest as [|next rest IH]; intros acc current; simpl; [done|].
  unfold chunk_end.
  destruct (line_number next <=? _); rewrite IH; [done|].
  by rewrite <- app_assoc.
Qed.

Lemma combine_chunks_cons (lines : list string) (first : ContextChunk)
    (rest : list ContextChunk) :
  combine_chunks lines (first :: rest) = merge_from lines first rest.
Proof. unfold combine_chunks. by rewrite (combine_fold lines rest []). Qed.

Lemma merge_from_head (lines : list string) (rest : list ContextChunk) :
  ∀ current, ∃ c tl,
    merge_from lines current rest = c :: tl
    ∧ line_number c = line_number current.
Proof.
  induction rest as [|next rest IH]; intros current; simpl; [by eauto|].
  destruct (line_number next <=? chunk_end current); [|by eauto].
  destruct (IH (merged lines current next)) as (c & tl & -> & Hc). eauto.
Qed.

(** Whatever chunks come in, consecutive chunks that come out have a gap
    between them. *)
Lemma merge_from_gap (lines : list string) (rest : list ContextChunk) :
  ∀ current, Sorted gap (merge_from lines current rest).
Proof.
  induction rest as [|next rest IH]; intros current; simpl.
  - repeat constructor.
  - destruct (line_number next <=? chunk_end current) eqn:E; [apply IH|].
    constructor; [apply IH|].
    destruct (merge_from_head lines rest next) as (c & tl & -> & Hc).
    constructor. unfold gap. lia.
Qed.

Lemma combine_chunks_gap (lines : list string) (cs : list ContextChunk) :
  Sorted gap (combine_chunks lines cs).
Proof.
  destruct cs as [|first rest]; [constructor|].
  rewrite combine_chunks_cons. apply merge_from_gap.
Qed.

(** Chunks that already have gaps between them are left as they are. *)
Lemma merge_from_fixed (lines : list string) (rest : list ContextChunk) :
  ∀ current,
    Sorted gap (current :: rest) → merge_from lines current rest = current :: rest.
Proof.
  induction rest as [|next rest IH]; intros current Hs; simpl; [done|].
  apply Sorted_inv in Hs as [Hs Hhd]. apply HdRel_inv in Hhd.
  unfold gap in Hhd.
  destruct (line_number next <=? chunk_end current) eqn:E; [lia|].
  by rewrite IH.
Qed.

Lemma combine_chunks_fixed (lines : list string) (cs : list ContextChunk) :
  Sorted gap cs → combine_chunks lines cs = cs.
Proof.
  destruct cs as [|first rest]; [done|]. rewrite combine_chunks_cons.
  apply merge_from_fixed.
Qed.

#[local] Instance gap_trans : Transitive gap.
Proof.
  intros a b c. unfold gap, chunk_end, Py.len. lia.
Qed.

(** C8. The chunks the combine step returns have at least one omitted
    line between consecutive chunks, so combining them again returns them
    unchanged, for every chunk list, also for the chunks of
    [create_context_chunks] at any context radius. *)
Theorem combine_chunks_idempotent :
  (∀ lines cs,
      Sorted gap (combine_chunks lines cs)
      ∧ combine_chunks lines (combine_chunks lines cs)
        = combine_chunks lines cs)
  ∧ (∀ message locations file_path file_content context_lines rc,
      create_context_chunks message locations file_path file_content
        context_lines = Ok rc →
      Sorted gap (chunks rc)
      ∧ combine_chunks (Py.split "010" file_content) (chunks rc)
        = chunks rc).
Proof.
  split.
  - intros lines cs.
    split; [apply combine_chunks_gap|].
    apply combine_chunks_fixed, combine_chunks_gap.
  - intros message locations file_path file_content context_lines rc.
    unfold create_context_chunks.
    destruct (extract_line_numbers ∅ locations) as [s|e]; simpl; [|done].
    destruct (decide (s = ∅)); intros [= <-]; simpl.
    + split; [constructor | done].
    + split; [apply combine_chunks_gap|].
      apply combine_chunks_fixed, combine_chunks_gap.
Qed.

Lemma combine_chunks_idempotent_witness :
  let rc :=
    {| message := "m";
       chunks := [ {| line_number := 1;
                      content := ["1"; "2"; "3"; "4"]%string |};
                   {| line_number := 8;
                      content := ["8"; "9"; "10"]%string |} ];
       file_path := "f.py" |} in
  create_context_chunks "m" ["line: 2"; "line: 3"; "line: 9"] "f.py"
    ten_lines 1 = Ok rc
  ∧ combine_chunks (Py.split "010" ten_lines) (chunks rc) = chunks rc.
Proof.
  intros rc.
  assert (create_context_chunks "m" ["line: 2"; "line: 3"; "line: 9"]
            "f.py" ten_lines 1 = Ok rc) as Hrc
    by (vm_compute; reflexivity).
  split; [exact Hrc|].
  exact (proj2 (proj2 combine_chunks_idempotent "m"
                  ["line: 2"; "line: 3"; "line: 9"]%string "f.py"
                  ten_lines 1 rc Hrc)).
Defined.

End Combine.

(** ** The initial chunks of [create_context_chunks] *)

Section Windows.
Import Localization.

Variable lines : list string.
Variable context_lines : Z.

Lemma in_range_iff (L : Z) : in_range lines L = true ↔ 1 ≤ L ≤ Py.len lines.
Proof. unfold in_range. rewrite negb_true_iff, orb_false_iff. lia. Qed.

Lemma slice_length {A} (l : list A) (a b : Z) :
  0 ≤ a ≤ b → b ≤ Py.len l → Py.len (Py.slice l a b) = b - a.
Proof.
  intros Hab Hb. unfold Py.slice, Py.slice_index, Py.len in *.
  destruct (a <? 0) eqn:Ea; [lia|]. destruct (b <? 0) eqn:Eb; [lia|].
  rewrite !Z.min_l by lia. rewrite length_take, length_drop. lia.
Qed.

Lemma initial_chunks_fold (nums : list Z) (acc : list ContextChunk) :
  fold_left (add_chunk lines context_lines) nums acc
  = acc ++ map (window lines context_lines)
             (List.filter (in_range lines) nums).
Proof.
  revert acc. induction nums as [|L nums IH]; intros acc; simpl.
  - by rewrite app_nil_r.
  - rewrite IH. unfold add_chunk, in_range at 2.
    destruct ((L <? 1) || (L >? Py.len lines)); simpl; [done|].
    by rewrite <- app_assoc.
Qed.

Lemma initial_chunks_windows (nums : list Z) :
  initial_chunks lines context_lines nums
  = map (window lines context_lines) (List.filter (in_range lines) nums).
Proof. apply (initial_chunks_fold nums []). Qed.

Hypothesis radius_nonneg : 0 ≤ context_lines.

Lemma window_end (L : Z) :
  in_range lines L = true →
  chunk_end (window lines context_lines L)
  = Z.min (Py.len lines) (L + context_lines) + 1.
Proof.
  intros HL%in_range_iff. unfold chunk_end, window. simpl.
  rewrite slice_length; lia.
Qed.

Lemma window_within (L : Z) :
  in_range lines L = true → within lines (window lines context_lines L).
Proof.
  intros HL. unfold within. rewrite window_end by done.
  apply in_range_iff in HL. simpl. lia.
Qed.

Lemma window_covers (L : Z) :
  in_range lines L = true → covers L (window lines context_lines L).
Proof.
  intros HL. unfold covers. rewrite window_end by done.
  apply in_range_iff in HL. simpl. lia.
Qed.

Lemma window_before (L L' : Z) :
  in_range lines L = true → in_range lines L' = true → L ≤ L' →
  before (window lines context_lines L) (window lines context_lines L').
Proof.
  intros HL HL' Hle. unfold before. rewrite !window_end by done.
  simpl. lia.
Qed.

Lemma windows_ordered (nums : list Z) :
  StronglySorted Z.le nums →
  StronglySorted before
    (map (window lines context_lines) (List.filter (in_range lines) nums))
  ∧ Forall (within lines)
      (map (window lines context_lines) (List.filter (in_range lines) nums)).
Proof.
  induction 1 as [|L nums Hs [IHs IHw] Hall]; simpl.
  - split; constructor.
  - destruct (in_range lines L) eqn:HL; [|done]. simpl. split.
    + constructor; [done|]. apply Forall_forall.
      intros c Hc.
      apply list_elem_of_In, in_map_iff in Hc
        as (L' & <- & [HinL' HL']%filter_In).
      apply window_before; [done..|].
      rewrite Forall_forall in Hall. by apply Hall, list_elem_of_In.
    + constructor; [by apply window_within | done].
Qed.

Lemma merged_end (current next : ContextChunk) :
  within lines current → within lines next →
  line_number current ≤ line_number next →
  chunk_end (merged lines current next) = chunk_end next.
Proof.
  intros [Hc1 Hc2] [Hn1 Hn2] Hle. unfold chunk_end, merged in *. simpl.
  assert (0 ≤ Py.len (content next)) by (unfold Py.len; lia).
  rewrite slice_length; lia.
Qed.

(** Combining chunks that are in order and within the file keeps the set
    of covered lines. *)
Lemma merge_from_covers (rest : list ContextChunk) :
  ∀ current,
    StronglySorted before (current :: rest) →
    Forall (within lines) (current :: rest) →
    ∀ L, Exists (covers L) (merge_from lines current rest)
         ↔ Exists (covers L) (current :: rest).
Proof.
  induction rest as [|next rest IH]; intros current Hs Hw L; simpl; [done|].
  apply StronglySorted_inv in Hs as [Hs Hcur].
  apply Forall_cons in Hcur as [[Hb1 Hb2] Hcur].
  apply Forall_cons in Hw as [Hwc Hw].
  pose proof Hw as Hw'. apply Forall_cons in Hw' as [Hwn Hwr].
  pose proof Hs as Hs'. apply StronglySorted_inv in Hs' as [Hsr Hnext].
  destruct (line_number next <=? chunk_end current) eqn:E.
  - pose proof (merged_end current next Hwc Hwn Hb1) as Hend.
    rewrite IH.
    + rewrite !Exists_cons. unfold covers at 1 3 4. rewrite Hend. simpl.
      assert (chunk_end current ≤ chunk_end next) by done.
      split; [|intros [?|[?|?]]; [left; lia | left; lia | by right]].
      intros [?|?]; [|by right; right].
      destruct (decide (L < chunk_end current)); [left; lia|right; left; lia].
    + constructor; [done|].
      eapply Forall_impl; [exact Hnext|]. intros c [? ?].
      unfold before. rewrite Hend. simpl.
      split; [lia | done].
    + constructor; [|done]. unfold within. rewrite Hend. simpl.
      split; [apply Hwc | apply Hwn].
  - rewrite Exists_cons, IH by done. by rewrite (Exists_cons _ current).
Qed.

Lemma window_faithful (L : Z) :
  in_range lines L = true → faithful lines (window lines context_lines L).
Proof.
  intros HL. unfold faithful. rewrite window_end by done. simpl.
  f_equal. lia.
Qed.

Lemma merged_faithful (current next : ContextChunk) :
  within lines current → within lines next →
  line_number current ≤ line_number next →
  faithful lines (merged lines current next).
Proof.
  intros Hc Hn Hle. unfold faithful. rewrite merged_end by done.
  unfold chunk_end. simpl. f_equal.
Qed.

Lemma windows_faithful (nums : list Z) :
  Forall (faithful lines)
    (map (window lines context_lines) (List.filter (in_range lines) nums)).
Proof.
  apply Forall_forall. intros c Hc.
  apply list_elem_of_In, in_map_iff in Hc as (L & <- & [_ HL]%filter_In).
  by apply window_faithful.
Qed.

Lemma merge_from_faithful (rest : list ContextChunk) :
  ∀ current,
    StronglySorted before (current :: rest) →
    Forall (within lines) (current :: rest) →
    Forall (faithful lines) (current :: rest) →
    Forall (faithful lines) (merge_from lines current rest).
Proof.
  induction rest as [|next rest IH]; intros current Hs Hw Hf; simpl; [done|].
  apply StronglySorted_inv in Hs as [Hs Hcur].
  apply Forall_cons in Hcur as [[Hb1 Hb2] Hcur].
  apply Forall_cons in Hw as [Hwc Hw].
  pose proof Hw as Hw'. apply Forall_cons in Hw' as [Hwn Hwr].
  pose proof Hs as Hs'. apply StronglySorted_inv in Hs' as [Hsr Hnext].
  apply Forall_cons in Hf as [Hfc Hf].
  pose proof Hf as Hf'. apply Forall_cons in Hf' as [Hfn Hfr].
  destruct (line_number next <=? chunk_end current) eqn:E.
  - pose proof (merged_end current next Hwc Hwn Hb1) as Hend.
    apply IH.
    + constructor; [done|].
      eapply Forall_impl; [exact Hnext|]. intros c [? ?].
      unfold before. rewrite Hend. simpl. split; [lia | done].
    + constructor; [|done]. unfold within. rewrite Hend. simpl.
      split; [apply Hwc | apply Hwn].
    + constructor; [by apply merged_faithful | done].
  - constructor; [done|]. by apply IH.
Qed.

End Windows.

(** ** Line numbers of locations *)

Section Locations.
Import Localization.

Lemma split_nonempty (sep : ascii) (s : string) :
  ∃ h t, Py.split sep s = h :: t.
Proof.
  destruct s as [|c s]; simpl; [by eauto|].
  destruct (Ascii.eqb c sep); [by eauto|].
  destruct (Py.split sep s); eauto.
Qed.

Lemma total_lines_pos (file_content : string) : 1 ≤ total_lines file_content.
Proof.
  unfold total_lines, Py.len.
  destruct (split_nonempty "010" file_content) as (h & t & ->). simpl. lia.
Qed.

Lemma prefix_app (p s : string) :
  String.prefix p s = true → ∃ rest, s = p +:+ rest.
Proof.
  revert s. induction p as [|a p IH]; intros s H; [by exists s|].
  destruct s as [|b s]; simpl in H; [done|].
  destruct (ascii_dec a b) as [->|]; [|done].
  destruct (IH s H) as [rest ->]. by exists rest.
Qed.

(** After [startswith("line:")] the index [1] of the split exists. *)
Lemma line_prefix_split (loc : string) :
  Py.startswith loc "line:" = true →
  ∃ part tl, Py.split ":" loc = "line"%string :: part :: tl.
Proof.
  intros [rest ->]%prefix_app.
  destruct (split_nonempty ":" rest) as (h & t & E). exists h, t.
  change ("line:" +:+ rest)
    with (String "l" (String "i" (String "n" (String "e"
            (String ":" rest))))).
  simpl. by rewrite E.
Qed.

Lemma add_location_spec (s : gset Z) (loc : string) :
  add_location s loc
  = Ok (from_option (λ L, {[ L ]} ∪ s) s (location_line loc)).
Proof.
  unfold add_location, location_line.
  destruct (Py.startswith loc "line:") eqn:E; [|done].
  destruct (line_prefix_split loc E) as (part & tl & ->). simpl.
  by destruct (Py.int (Py.strip part)).
Qed.

(** The loop over the locations raises nothing and collects the line
    numbers of the line-number locations. *)
Lemma extract_line_numbers_spec (locations : list string) :
  ∀ s, ∃ s',
    extract_line_numbers s locations = Ok s'
    ∧ ∀ L, L ∈ s' ↔ L ∈ s ∨ line_location locations L.
Proof.
  unfold line_location.
  induction locations as [|loc locations IH]; intros s; simpl.
  - exists s. split; [done|]. intros L. split; [by left|].
    intros [?|(loc & []%elem_of_nil & _)]. done.
  - rewrite add_location_spec. simpl.
    destruct (IH (from_option (λ L, {[ L ]} ∪ s) s (location_line loc)))
      as (s' & -> & Hs').
    exists s'. split; [done|]. intros L. rewrite Hs'.
    destruct (location_line loc) as [L0|] eqn:E; simpl.
    + rewrite elem_of_union, elem_of_singleton. split.
      * intros [[->|?]|(l & Hl & HL)]; [|by left|].
        -- right. exists loc. split; [by left | done].
        -- right. exists l. split; [by right | done].
      * intros [?|(l & Hl & HL)]; [by left; right|].
        apply elem_of_cons in Hl as [->|Hl].
        -- left. left. congruence.
        -- right. by exists l.
    + split.
      * intros [?|(l & Hl & HL)]; [by left|].
        right. exists l. split; [by right | done].
      * intros [?|(l & Hl & HL)]; [by left|].
        apply elem_of_cons in Hl as [->|Hl]; [congruence|].
        right. by exists l.
Qed.

Lemma sorted_strongly (s : gset Z) : StronglySorted Z.le (Py.sorted s).
Proof. apply (StronglySorted_merge_sort Z.le). Qed.

Lemma sorted_perm (s : gset Z) : Py.sorted s ≡ₚ elements s.
Proof. apply merge_sort_Permutation. Qed.

Lemma sorted_elem (s : gset Z) (L : Z) : L ∈ Py.sorted s ↔ L ∈ s.
Proof. unfold Py.sorted. by rewrite merge_sort_Permutation, elem_of_elements. Qed.

Lemma sorted_NoDup (s : gset Z) : NoDup (Py.sorted s).
Proof. unfold Py.sorted. rewrite merge_sort_Permutation. apply NoDup_elements. Qed.

Lemma sorted_empty : Py.sorted ∅ = [].
Proof. unfold Py.sorted. by rewrite elements_empty. Qed.

Lemma StronglySorted_filter {A} (R : relation A) (P : A → bool)
    (l : list A) :
  StronglySorted R l → StronglySorted R (List.filter P l).
Proof.
  induction 1 as [|x l Hs IH Hall]; simpl; [constructor|].
  destruct (P x); [|done]. constructor; [done|].
  rewrite Forall_forall in *. intros y Hy. apply Hall.
  apply list_elem_of_In, filter_In in Hy as [Hy _]. by apply list_elem_of_In.
Qed.

(** Two sets with the same members in range give the same numbers in
    range, in the same order. *)
Lemma sorted_in_range (lines : list string) (s s' : gset Z) :
  (∀ L, in_range lines L = true → (L ∈ s ↔ L ∈ s')) →
  List.filter (in_range lines) (Py.sorted s)
  = List.filter (in_range lines) (Py.sorted s').
Proof.
  intros Hs.
  apply (StronglySorted_unique Z.le).
  - apply StronglySorted_filter, sorted_strongly.
  - apply StronglySorted_filter, sorted_strongly.
  - apply NoDup_Permutation.
    + apply NoDup_ListNoDup, List.NoDup_filter, NoDup_ListNoDup, sorted_NoDup.
    + apply NoDup_ListNoDup, List.NoDup_filter, NoDup_ListNoDup, sorted_NoDup.
    + intros L. rewrite !list_elem_of_In, !filter_In, <- !list_elem_of_In.
      rewrite !sorted_elem. split; intros [Hin HL]; (split; [|done]).
      * by apply Hs.
      * by apply Hs.
Qed.

(** What [create_context_chunks] returns, in both of its branches. *)
Lemma create_context_chunks_value (message : string)
    (locations : list string) (file_path file_content : string)
    (context_lines : Z) :
  ∃ s, extract_line_numbers ∅ locations = Ok s
       ∧ (∀ L, L ∈ s ↔ line_location locations L)
       ∧ create_context_chunks message locations file_path file_content
           context_lines
         = Ok {| message := message;
                 chunks :=
                   combine_chunks (Py.split "010" file_content)
                     (initial_chunks (Py.split "010" file_content)
                        context_lines (Py.sorted s));
                 file_path := file_path |}.
Proof.
  destruct (extract_line_numbers_spec locations ∅) as (s & Hs & Hmem).
  exists s. split; [done|]. split.
  - intros L. rewrite Hmem. split; [|by right].
    intros [Hin|HL]; [|done]. by apply not_elem_of_empty in Hin.
  - unfold create_context_chunks. rewrite Hs. simpl.
    destruct (decide (s = ∅)) as [->|]; [|done].
    by rewrite sorted_empty.
Qed.

End Locations.

(** ** Coverage of [create_context_chunks] *)

Section Coverage.
Import Localization.

Lemma strongly_sorted_lookup {A} (R : relation A) (l : list A) :
  StronglySorted R l →
  ∀ (i j : nat) a b,
    (i < j)%nat → l !! i = Some a → l !! j = Some b → R a b.
Proof.
  induction 1 as [|x l Hs IH Hall]; intros i j a b Hij Hi Hj; [done|].
  destruct i as [|i], j as [|j]; simplify_eq/=; try lia.
  - rewrite Forall_forall in Hall. apply Hall.
    by eapply list_elem_of_lookup_2.
  - apply (IH i j); [lia | done..].
Qed.

Lemma combine_chunks_covers (lines : list string) (cs : list ContextChunk) :
  StronglySorted (before) cs → Forall (within lines) cs →
  ∀ L, Exists (covers L) (combine_chunks lines cs) ↔ Exists (covers L) cs.
Proof.
  destruct cs as [|first rest]; [done|]. intros Hs Hw L.
  rewrite combine_chunks_cons. by apply merge_from_covers.
Qed.

Lemma line_location_keeps (file_content : string) (locations : list string)
    (L : Z) :
  line_location (List.filter (keeps file_content) locations) L
  ↔ line_location locations L
    ∧ in_range (Py.split "010" file_content) L = true.
Proof.
  unfold line_location. split.
  - intros (loc & Hloc & HL).
    apply list_elem_of_In, filter_In in Hloc as [Hloc Hk].
    unfold keeps in Hk. rewrite HL in Hk.
    split; [|done]. exists loc. by rewrite list_elem_of_In.
  - intros [(loc & Hloc & HL) Hr]. exists loc. split; [|done].
    apply list_elem_of_In, filter_In. split; [by apply list_elem_of_In|].
    unfold keeps. by rewrite HL.
Qed.

(** C1. For a context radius [context_lines >= 0], [create_context_chunks]
    raises nothing; every line number of a line-number location that lies
    in [1..total lines] is covered by exactly one of the returned chunks;
    the chunks are in ascending order of their start lines and no two of
    them overlap; no chunk covers a line out of [1..total lines]; the
    content of a chunk is the text of the lines it covers; and the result
    is the one obtained without the locations whose line number is out of
    range. *)
Theorem create_context_chunks_coverage (message : string)
    (locations : list string) (file_path file_content : string)
    (context_lines : Z) :
  0 ≤ context_lines →
  ∃ rc,
    create_context_chunks message locations file_path file_content
      context_lines = Ok rc
    ∧ (∀ L, line_location locations L →
            1 ≤ L ≤ total_lines file_content →
            ∃ (i : nat) ch,
              chunks rc !! i = Some ch ∧ covers L ch
              ∧ ∀ (j : nat) ch',
                  chunks rc !! j = Some ch' → covers L ch' → j = i)
    ∧ (∀ (i j : nat) a b,
          (i < j)%nat → chunks rc !! i = Some a → chunks rc !! j = Some b →
          line_number a < line_number b ∧ chunk_end a ≤ line_number b)
    ∧ (∀ L ch, ¬ (1 ≤ L ≤ total_lines file_content) →
               ch ∈ chunks rc → ¬ covers L ch)
    ∧ (∀ ch, ch ∈ chunks rc →
             content ch
             = Py.slice (Py.split "010" file_content)
                 (line_number ch - 1) (chunk_end ch - 1))
    ∧ create_context_chunks message
        (List.filter (keeps file_content) locations) file_path
        file_content context_lines = Ok rc.
Proof.
  intros Hc.
  destruct (create_context_chunks_value message locations file_path
              file_content context_lines) as (s & _ & Hmem & ->).
  eexists. split; [done|]. simpl.
  set (lines := Py.split "010" file_content).
  rewrite initial_chunks_windows.
  set (ws := map (window lines context_lines)
               (List.filter (in_range lines) (Py.sorted s))).
  destruct (windows_ordered lines context_lines Hc (Py.sorted s)
              (sorted_strongly s)) as [Hord Hwithin]. fold ws in Hord, Hwithin.
  pose proof (combine_chunks_covers lines ws Hord Hwithin) as Hcov.
  assert (StronglySorted gap (combine_chunks lines ws)) as Hgap.
  { apply Sorted_StronglySorted; [apply gap_trans|].
    apply combine_chunks_gap. }
  assert (∀ c, 0 ≤ Py.len (content c)) as Hlen
    by (intros c; unfold Py.len; lia).
  split; [|split; [|split; [|split]]].
  - intros L HL Hrange. apply Hmem in HL.
    apply (in_range_iff lines) in Hrange.
    assert (Exists (covers L) ws) as Hex.
    { apply Exists_exists. exists (window lines context_lines L). split.
      - apply list_elem_of_In, in_map. apply filter_In. split; [|done].
        by apply list_elem_of_In, sorted_elem.
      - by apply window_covers. }
    apply Hcov, Exists_exists in Hex as (ch & Hch & Hcovers).
    apply list_elem_of_lookup in Hch as [i Hi].
    exists i, ch. split; [done|]. split; [done|].
    intros j ch' Hj Hcovers'.
    destruct (Nat.lt_trichotomy i j) as [Hij|[->|Hji]]; [|done|].
    + pose proof (strongly_sorted_lookup gap _ Hgap i j ch ch' Hij Hi Hj).
      unfold gap, covers, chunk_end in *. lia.
    + pose proof (strongly_sorted_lookup gap _ Hgap j i ch' ch Hji Hj Hi).
      unfold gap, covers, chunk_end in *. lia.
  - intros i j a b Hij Hi Hj.
    pose proof (strongly_sorted_lookup gap _ Hgap i j a b Hij Hi Hj) as Hab.
    pose proof (Hlen a). unfold gap, chunk_end in *. lia.
  - intros L ch Hout Hch Hcovers. apply Hout.
    assert (Exists (covers L) ws) as Hex.
    { apply Hcov, Exists_exists. by exists ch. }
    apply Exists_exists in Hex as (w & Hw & HLw).
    rewrite Forall_forall in Hwithin. destruct (Hwithin w Hw) as [? ?].
    unfold covers in HLw. unfold total_lines. fold lines. lia.
  - intros ch Hch. revert ch Hch. apply Forall_forall.
    destruct ws as [|first rest] eqn:Ews; [constructor|].
    rewrite combine_chunks_cons.
    apply (merge_from_faithful lines); [done..|].
    rewrite <- Ews. by apply windows_faithful.
  - destruct (create_context_chunks_value message
                (List.filter (keeps file_content) locations) file_path
                file_content context_lines) as (s' & _ & Hmem' & ->).
    rewrite initial_chunks_windows. fold lines.
    rewrite (sorted_in_range lines s' s); [done|].
    intros L HL. rewrite Hmem, Hmem', line_location_keeps. fold lines.
    tauto.
Qed.

Lemma create_context_chunks_coverage_witness :
  ∃ rc,
    create_context_chunks "m"
      ["line: 2"; "content: x"; "line:9"; "line: 99"; "line: 5"] "f.py"
      ten_lines 1 = Ok rc
    ∧ ∃ (i : nat) ch, chunks rc !! i = Some ch ∧ covers 9 ch.
Proof.
  destruct (create_context_chunks_coverage "m"
              ["line: 2"; "content: x"; "line:9"; "line: 99"; "line: 5"]
              "f.py" ten_lines 1) as (rc & Hrc & Hcov & _); [lia|].
  exists rc. split; [done|].
  destruct (Hcov 9) as (i & ch & Hi & Hch & _).
  - exists "line:9"%string. split; [|reflexivity].
    apply list_elem_of_In. simpl. tauto.
  - vm_compute. split; discriminate.
  - by exists i, ch.
Defined.

Example create_context_chunks_ex :
  create_context_chunks "m"
    ["line: 2"; "content: x"; "line:9"; "line: 99"; "line: 5"] "f.py"
    ten_lines 1
  = Ok {| message := "m";
          chunks := [ {| line_number := 1;
                         content := ["1"; "2"; "3"; "4"; "5"; "6"] |};
                      {| line_number := 8;
                         content := ["8"; "9"; "10"] |} ]%string;
          file_path := "f.py" |}.
Proof. vm_compute. reflexivity. Qed.

(** With a negative radius the chunk built around a line does not cover
    it. *)
Example negative_radius_ex :
  create_context_chunks "m" ["line: 2"] "f.py" ("1" +:+ Py.nl +:+ "2") (-1)
  = Ok {| message := "m";
          chunks := [ {| line_number := 3; content := [] |} ];
          file_path := "f.py" |}.
Proof. vm_compute. reflexivity. Qed.

End Coverage.

(** ** [_run_work] *)

Section RunWorkFacts.
Import Localization.

Variable count_tokens : string → Z.
Variable SYSTEM_PROMPT : string.
Variable completion : LocalizationConfig → list Message → result string.

(** C10. When the file content counts more tokens than
    [max_file_tokens], [_run_work] returns normally with the state it was
    given: no completion request is added and the store is the same, so
    the file has a saved result afterwards only if it had one before. *)
Theorem run_work_over_budget (work : WorkItem) (st : State) :
  count_tokens (file_text (file work)) > max_file_tokens (config work) →
  _run_work count_tokens SYSTEM_PROMPT completion work st = (Ok (), st).
Proof.
  intros Hover. unfold _run_work.
  destruct (localization_decision_exists _ _); [done|].
  destruct (count_tokens _ >? max_file_tokens _) eqn:E; [done | lia].
Qed.

(** Within the budget, a file without a saved result does lead to a
    request. *)
Lemma run_work_within_budget (work : WorkItem) (st : State) :
  count_tokens (file_text (file work)) ≤ max_file_tokens (config work) →
  store st !! path (file work) = None →
  ∃ messages,
    requests (snd (_run_work count_tokens SYSTEM_PROMPT completion work st))
    = requests st ++ [messages].
Proof.
  intros Hin Hnone. unfold _run_work, localization_decision_exists.
  rewrite Hnone.
  rewrite bool_decide_eq_false_2 by (by intros [? ?]).
  destruct (count_tokens _ >? max_file_tokens _) eqn:E; [lia|].
  unfold call_completions. eexists.
  destruct (completion _ _); [|done].
  by destruct (create_context_chunks _ _ _ _ _).
Qed.

End RunWorkFacts.

Section RunWorkExample.
Import Localization.

Lemma run_work_over_budget_witness :
  _run_work Py.slen "system" (λ _ _, Ok "LOCATIONS:") long_file_work
    {| store := ∅; requests := [] |}
  = (Ok (), {| store := ∅; requests := [] |}).
Proof. apply run_work_over_budget. vm_compute. reflexivity. Defined.

End RunWorkExample.


(** ** The container runner *)

Section ContainerFacts.
Import TestExecution.

Variable container : Type.
Variable start_container : Problem → container.
Variable write_file : string → string → container → container.
Variable exec_run :
  string → string → string → container → ExecResult * container.
Variable exec_run_with_timeout :
  string → string → Z → container → TimedExecResult * container.
Variable decode : list Byte.byte → result string.
Variable format_output : Output → string.

Abbreviation run_container :=
  (execute_script_container container start_container write_file exec_run
     exec_run_with_timeout decode format_output).
Abbreviation primary_of :=
  (primary container start_container write_file exec_run).
Abbreviation fallback_of :=
  (fallback container start_container write_file exec_run).

Lemma run_script_container_log (script : string) (timeout : Z)
    (c : container) (log : list ContainerEvent) :
  ∃ out,
    fst (run_script_container container write_file exec_run_with_timeout
           decode script timeout c log)
    = log ++ [ WriteFile script "/tmp/repro/reproduce_script.py";
               ExecRunWithTimeout command "/tmp/repro" timeout out ].
Proof.
  unfold run_script_container.
  destruct (exec_run_with_timeout _ _ _ _) as [out c']. by exists out.
Qed.

(** In the container runner the fallback is attempted exactly when
    [git apply] fails, and a run in which both fail runs no script. *)
Lemma container_fallback_iff (script : string) (problem : Problem)
    (patch : string) (timeout : Z) (flag : bool) :
  let log := fst (run_container script problem (Some patch) timeout flag) in
  (existsb is_fallback log = true
   ↔ er_exit_code (fst (primary_of problem patch)) ≠ 0)
  ∧ (er_exit_code (fst (primary_of problem patch)) ≠ 0 →
     er_exit_code (fst (fallback_of problem patch)) ≠ 0 →
     existsb is_script_run log = false).
Proof.
  unfold execute_script_container, fallback, primary, patched_container.
  destruct (exec_run git_apply_cmd _ _ _) as [p c1]. simpl.
  destruct (er_exit_code p =? 0) eqn:Ep; simpl.
  - destruct (run_script_container_log script timeout c1
                [ WriteFile (terminate_patch patch) "/tmp/patch.diff";
                  ExecRun git_apply_cmd "/testbed" "root" p ])
      as [out ->].
    simpl. split; [|lia]. split; [done | lia].
  - destruct (exec_run fuzzy_patch_cmd _ _ _) as [q c2]. simpl.
    destruct (er_exit_code q =? 0) eqn:Eq; simpl.
    + destruct (run_script_container_log script timeout c2
                  [ WriteFile (terminate_patch patch) "/tmp/patch.diff";
                    ExecRun git_apply_cmd "/testbed" "root" p;
                    ExecRun fuzzy_patch_cmd "/testbed" "root" q ])
        as [out ->].
      simpl. split; [|lia]. split; [lia | done].
    + destruct flag; simpl; (split; [split; [lia | done] | done]).
Qed.

(** What the container runner returns when both applications fail. *)
Lemma container_patch_failure (script : string) (problem : Problem)
    (patch : string) (timeout : Z) (flag : bool) :
  er_exit_code (fst (primary_of problem patch)) ≠ 0 →
  er_exit_code (fst (fallback_of problem patch)) ≠ 0 →
  snd (run_container script problem (Some patch) timeout flag)
  = if flag then
      Ok {| stdout := Some "Could not apply patch to repository";
            exit_code := 1;
            timed_out := false |}
    else
      Raise (ValueError
               (patch_error_args
                  (er_exit_code (fst (primary_of problem patch)))
                  (format_output (er_output (fst (primary_of problem patch))))
                  (er_exit_code (fst (fallback_of problem patch)))
                  (format_output
                     (er_output (fst (fallback_of problem patch)))))).
Proof.
  unfold execute_script_container, fallback, primary, patched_container.
  destruct (exec_run git_apply_cmd _ _ _) as [p c1]. simpl.
  intros Hp. destruct (er_exit_code p =? 0) eqn:Ep; [lia|]. simpl.
  destruct (exec_run fuzzy_patch_cmd _ _ _) as [q c2]. simpl.
  intros Hq. destruct (er_exit_code q =? 0) eqn:Eq; [lia|]. simpl.
  by destruct flag.
Qed.

Lemma run_script_container_timeout (script : string) (timeout : Z)
    (c : container) (log : list ContainerEvent) :
  let r := run_script_container container write_file exec_run_with_timeout
             decode script timeout c log in
  existsb container_timed_out log = false →
  existsb container_timed_out (fst r) = true →
  Forall (decodes decode) (fst r) →
  ∃ text, snd r = Ok {| stdout := Some text;
                        exit_code := 1;
                        timed_out := true |}.
Proof.
  unfold run_script_container.
  destruct (exec_run_with_timeout _ _ _ _) as [out c']. simpl.
  rewrite existsb_app. intros -> Hout Hdec. simpl in Hout.
  rewrite orb_false_r in Hout. rewrite Hout. simpl.
  apply Forall_app in Hdec as [_ Hdec].
  apply Forall_cons in Hdec as [_ Hdec].
  apply Forall_cons in Hdec as [Hdec _]. simpl in Hdec.
  destruct (output out) as [text|b].
  - by exists text.
  - destruct Hdec as [text ->]. by exists text.
Qed.

(** A container run whose script exceeds the timeout returns exit code 1
    and [timed_out]. *)
Lemma container_timeout (script : string) (problem : Problem)
    (patch : option string) (timeout : Z) (flag : bool) :
  let r := run_container script problem patch timeout flag in
  existsb container_timed_out (fst r) = true →
  Forall (decodes decode) (fst r) →
  ∃ text, snd r = Ok {| stdout := Some text;
                        exit_code := 1;
                        timed_out := true |}.
Proof.
  unfold execute_script_container. destruct patch as [patch|].
  - destruct (exec_run git_apply_cmd _ _ _) as [p c1]. simpl.
    destruct (er_exit_code p =? 0) eqn:Ep; simpl.
    + by apply run_script_container_timeout.
    + destruct (exec_run fuzzy_patch_cmd _ _ _) as [q c2]. simpl.
      destruct (er_exit_code q =? 0) eqn:Eq; simpl.
      * by apply run_script_container_timeout.
      * by destruct flag.
  - by apply run_script_container_timeout.
Qed.

End ContainerFacts.

(** ** The local runner *)

Section LocalFacts.
Import TestExecution.

Variable tree : Type.
Variable run : Command → option Z → tree → result CompletedProcess * tree.
Variable write_text : string → string → tree → tree.
Variable mkdtemp : World tree → string.
Variable decode : list Byte.byte → result string.
Variable str_exc : PyExc → string.
Variable format_output : option Output → string.

Abbreviation world := (World tree).

Lemma same_elsewhere_refl (dir : string) (f : gmap string tree) :
  same_elsewhere dir f f.
Proof. by intros d _. Qed.

Lemma same_elsewhere_trans (dir : string) (f g h : gmap string tree) :
  same_elsewhere dir f g → same_elsewhere dir g h → same_elsewhere dir f h.
Proof. intros Hfg Hgh d Hd. by rewrite Hgh, Hfg. Qed.

Lemma subprocess_run_shape (cmd : Command) (timeout : option Z)
    (cwd : string) (w : world) :
  ∃ r f',
    subprocess_run tree run cmd timeout cwd w
    = (r, {| fs := f'; log := log tree w ++ [Run cmd cwd r] |})
    ∧ same_elsewhere cwd (fs tree w) f'
    ∧ (is_Some (fs tree w !! cwd) → is_Some (f' !! cwd))
    ∧ (∀ t, fs tree w !! cwd = Some t → r = fst (run cmd timeout t)).
Proof.
  unfold subprocess_run. destruct (fs tree w !! cwd) as [t|] eqn:E.
  - destruct (run cmd timeout t) as [r t'] eqn:Er.
    exists r, (<[cwd := t']> (fs tree w)). split; [done|]. split; [|split].
    + intros d Hd. by rewrite lookup_insert_ne.
    + intros _. rewrite lookup_insert_eq. by eexists.
    + intros ? [= <-]. by rewrite Er.
  - eexists _, _. split; [done|]. split; [apply same_elsewhere_refl|].
    split; [by intros [? ?] | done].
Qed.

Lemma write_in_shape (dir name text : string) (w : world) :
  ∃ f',
    write_in tree write_text dir name text w
    = {| fs := f';
         log := log tree w ++ [WriteText (dir +:+ "/" +:+ name) text] |}
    ∧ same_elsewhere dir (fs tree w) f'
    ∧ (is_Some (fs tree w !! dir) → is_Some (f' !! dir)).
Proof.
  unfold write_in. eexists. split; [done|]. simpl. split.
  - intros d Hd. by rewrite lookup_alter_ne.
  - intros [t Ht]. rewrite lookup_alter_eq, Ht. by eexists.
Qed.

Lemma run_script_local_contained (script : string) (timeout : Z)
    (temp : string) (w : world) :
  let x := run_script_local tree run write_text decode str_exc script
             timeout temp w in
  contained temp w (snd x) (Ok (fst x)).
Proof.
  destruct (write_in_shape temp "reproduce_script.py" script w)
    as (f1 & Hw1 & Hsame1 & _).
  destruct (subprocess_run_shape (Shell command) (Some timeout) temp
              {| fs := f1;
                 log := log tree w
                        ++ [WriteText (temp +:+ "/" +:+ "reproduce_script.py")
                              script] |})
    as (r & f2 & Hrun & Hsame2 & _ & _).
  simpl in Hsame2.
  pose proof (same_elsewhere_trans _ _ _ _ Hsame1 Hsame2) as Hsame.
  unfold run_script_local. rewrite Hw1, Hrun. simpl.
  unfold contained.
  destruct r as [out|e].
  - destruct (match cp_stdout out with
              | Some (Str s) => Ok s
              | Some (Bytes b) => decode b
              | None => Ok EmptyString
              end) as [text|e]; simpl; eexists;
      (split; [by rewrite <- !app_assoc|]); simpl; done.
  - destruct e; simpl; eexists;
      (split; [by rewrite <- !app_assoc|]); simpl; done.
Qed.

Lemma execute_script_in_contained (script : string) (problem : Problem)
    (temp : string) (patch : option string) (timeout : Z) (flag : bool)
    (w : world) :
  let x := execute_script_in tree run write_text decode str_exc
             format_output script problem temp patch timeout flag w in
  contained temp w (snd x) (fst x).
Proof.
  assert (∀ w0 : world,
            same_elsewhere temp (fs tree w) (fs tree w0) →
            (∃ pre, log tree w0 = log tree w ++ pre
                    ∧ existsb local_fallback pre = false
                    ∧ existsb local_timed_out pre = false) →
            let y := run_script_local tree run write_text decode str_exc
                       script timeout temp w0 in
            contained temp w (snd y) (Ok (fst y))) as Hscript.
  { intros w0 Hsame0 (pre & Hpre & Hf & Ht).
    destruct (run_script_local_contained script timeout temp w0)
      as (new & Hnew & Hnf & Hnt & Hns).
    exists (pre ++ new). rewrite Hnew, Hpre, <- app_assoc, !existsb_app.
    rewrite Hf, Ht, Hnf. simpl.
    split; [done|]. split; [done|]. split; [done|].
    by eapply same_elsewhere_trans. }
  assert (∀ p : ExecutionOutput * world,
            (let '(out, w0) := p in (Ok out, w0)) = (Ok p.1, p.2)) as Hpair
    by (by intros [? ?]).
  unfold execute_script_in. destruct patch as [patch|].
  - destruct (subprocess_run_shape
                (Args ["git"; "reset"; "--hard"; base_commit problem])
                None temp w) as (r1 & f1 & Hrun1 & Hsame1 & _ & _).
    rewrite Hrun1. simpl. destruct r1 as [cp1|e1].
    + set (w1 := {| fs := f1; log := _ |}).
      destruct (write_in_shape temp "patch.diff" (terminate_patch patch) w1)
        as (f2 & Hw2 & Hsame2 & _).
      rewrite Hw2. set (w2 := {| fs := f2; log := _ |}).
      destruct (subprocess_run_shape
                  (Args ["git"; "apply"; "-v"; temp +:+ "/patch.diff"])
                  None temp w2) as (r3 & f3 & Hrun3 & Hsame3 & _ & _).
      rewrite Hrun3. simpl in *.
      assert (same_elsewhere temp (fs tree w) f3) as Hsame.
      { eapply same_elsewhere_trans; [|exact Hsame3].
        eapply same_elsewhere_trans; [exact Hsame1 | exact Hsame2]. }
      destruct r3 as [cp3|e3]; [|destruct flag].
      * rewrite Hpair. simpl. apply Hscript; [done|].
        eexists. split; [by rewrite <- !app_assoc|]. done.
      * eexists. simpl. split; [by rewrite <- !app_assoc|]. done.
      * rewrite Hpair. simpl. apply Hscript; [done|].
        eexists. simpl. split; [by rewrite <- !app_assoc|]. done.
    + destruct flag.
      * eexists. simpl. split; [by rewrite <- !app_assoc|]. done.
      * rewrite Hpair. simpl. apply Hscript; [done|].
        eexists. simpl. split; [by rewrite <- !app_assoc|]. done.
  - rewrite Hpair. simpl. apply Hscript; [apply same_elsewhere_refl|].
    exists []. by rewrite app_nil_r.
Qed.

(** The local runner changes no directory but its temporary copy, never
    runs the fuzzy patch, and returns the timeout output whenever its
    script has timed out. *)
Lemma execute_script_contained (script : string) (problem : Problem)
    (repo_location : string) (patch : option string) (timeout : Z)
    (flag : bool) (w : world) :
  let x := execute_script tree run write_text mkdtemp decode str_exc
             format_output script problem repo_location patch timeout flag
             w in
  contained (mkdtemp w +:+ "/repo") w (snd x) (fst x).
Proof.
  unfold execute_script. simpl.
  set (temp := mkdtemp w +:+ "/repo").
  destruct (fs tree w !! repo_location) as [t|] eqn:Erepo.
  - set (w1 := {| fs := <[temp := t]> (fs tree w); log := _ |}).
    destruct (execute_script_in_contained script problem temp patch timeout
                flag w1) as (new & Hnew & Hf & Ht & Hsame).
    destruct (execute_script_in _ _ _ _ _ _ _ _ _ _ _ _ w1) as [r w'].
    subst w1. unfold emit. simpl in *.
    exists ([Copytree repo_location temp] ++ new ++ [Cleanup (mkdtemp w)]).
    rewrite Hnew. split; [by rewrite <- !app_assoc|].
    rewrite !existsb_app, Hf. simpl. rewrite !orb_false_r.
    split; [done|]. split; [done|].
    intros d Hd. rewrite lookup_delete_ne by done.
    rewrite (Hsame d Hd). by rewrite lookup_insert_ne.
  - eexists. simpl. split; [by rewrite <- !app_assoc|].
    split; [done|]. split; [done|]. apply same_elsewhere_refl.
Qed.

(** Whatever the world, running the script is logged. *)
Lemma run_script_local_logged (script : string) (timeout : Z)
    (temp : string) (w : world) :
  existsb local_script_run
    (log tree (snd (run_script_local tree run write_text decode str_exc
                      script timeout temp w))) = true.
Proof.
  destruct (write_in_shape temp "reproduce_script.py" script w)
    as (f1 & Hw1 & _ & _).
  destruct (subprocess_run_shape (Shell command) (Some timeout) temp
              {| fs := f1;
                 log := log tree w
                        ++ [WriteText (temp +:+ "/" +:+ "reproduce_script.py")
                              script] |})
    as (r & f2 & Hrun & _ & _ & _).
  unfold run_script_local. rewrite Hw1, Hrun. simpl.
  assert (∀ pre post : list LocalEvent,
            existsb local_script_run
              (pre ++ [Run (Shell command) temp r] ++ post) = true) as Hin.
  { intros pre post. rewrite !existsb_app. simpl. apply orb_true_r. }
  destruct r as [out|e].
  - destruct (match cp_stdout out with
              | Some (Str s) => Ok s
              | Some (Bytes b) => decode b
              | None => Ok EmptyString
              end) as [text|e]; simpl.
    + apply (Hin _ []).
    + rewrite <- app_assoc. apply (Hin _ [_]).
  - destruct e; simpl;
      first [apply (Hin _ []) | rewrite <- app_assoc; apply (Hin _ [_])].
Qed.

(** Without [return_error_as_execution_output] the local runner runs the
    script whatever [git reset] and [git apply] have returned or raised. *)
Lemma execute_script_in_runs_script (script : string) (problem : Problem)
    (temp : string) (patch : option string) (timeout : Z) (w : world) :
  existsb local_script_run
    (log tree (snd (execute_script_in tree run write_text decode str_exc
                      format_output script problem temp patch timeout false
                      w))) = true.
Proof.
  assert (∀ p : ExecutionOutput * world,
            (let '(out, w0) := p in (Ok out, w0)) = (Ok p.1, p.2)) as Hpair
    by (by intros [? ?]).
  unfold execute_script_in. destruct patch as [patch|].
  - destruct (subprocess_run_shape
                (Args ["git"; "reset"; "--hard"; base_commit problem])
                None temp w) as (r1 & f1 & Hrun1 & _).
    rewrite Hrun1. simpl. destruct r1 as [cp1|e1].
    + set (w1 := {| fs := f1; log := _ |}).
      destruct (write_in_shape temp "patch.diff" (terminate_patch patch) w1)
        as (f2 & Hw2 & _).
      rewrite Hw2. set (w2 := {| fs := f2; log := _ |}).
      destruct (subprocess_run_shape
                  (Args ["git"; "apply"; "-v"; temp +:+ "/patch.diff"])
                  None temp w2) as (r3 & f3 & Hrun3 & _).
      rewrite Hrun3. simpl.
      destruct r3 as [cp3|e3]; rewrite Hpair; simpl;
        apply run_script_local_logged.
    + rewrite Hpair. simpl. apply run_script_local_logged.
  - rewrite Hpair. simpl. apply run_script_local_logged.
Qed.

Lemma execute_script_runs_script (script : string) (problem : Problem)
    (repo_location : string) (patch : option string) (timeout : Z)
    (w : world) :
  is_Some (fs tree w !! repo_location) →
  existsb local_script_run
    (log tree (snd (execute_script tree run write_text mkdtemp decode str_exc
                      format_output script problem repo_location patch
                      timeout false w))) = true.
Proof.
  intros [t Ht]. unfold execute_script. simpl. rewrite Ht.
  set (w1 := {| fs := _; log := _ |}).
  pose proof (execute_script_in_runs_script script problem
                (mkdtemp w +:+ "/repo") patch timeout w1) as Hrun.
  destruct (execute_script_in _ _ _ _ _ _ _ _ _ _ _ _ w1) as [r w'].
  unfold emit. simpl in *. rewrite existsb_app, Hrun. done.
Qed.

End LocalFacts.


(** ** The sandbox claims *)

Section Sandbox.
Import TestExecution.

(** The local runner leaves every directory but its temporary copy as it
    was: the tree at [repo_location] is the same after
    [execute_script]. *)
Lemma execute_script_preserves_original (tree : Type)
    (run : Command → option Z → tree → result CompletedProcess * tree)
    (write_text : string → string → tree → tree)
    (mkdtemp : World tree → string)
    (decode : list Byte.byte → result string) (str_exc : PyExc → string)
    (format_output : option Output → string)
    (script : string) (problem : Problem) (repo_location : string)
    (patch : option string) (timeout : Z) (flag : bool) (w : World tree) :
  mkdtemp w +:+ "/repo" ≠ repo_location →
  fs tree (snd (execute_script tree run write_text mkdtemp decode str_exc
                  format_output script problem repo_location patch timeout
                  flag w)) !! repo_location
  = fs tree w !! repo_location.
Proof.
  intros Hfresh.
  destruct (execute_script_contained tree run write_text mkdtemp decode
              str_exc format_output script problem repo_location patch
              timeout flag w) as (new & _ & _ & _ & Hsame).
  apply Hsame. congruence.
Qed.

(** The local runner never runs the fuzzy patch. *)
Lemma execute_script_never_falls_back (tree : Type)
    (run : Command → option Z → tree → result CompletedProcess * tree)
    (write_text : string → string → tree → tree)
    (mkdtemp : World tree → string)
    (decode : list Byte.byte → result string) (str_exc : PyExc → string)
    (format_output : option Output → string)
    (script : string) (problem : Problem) (repo_location : string)
    (patch : option string) (timeout : Z) (flag : bool)
    (f : gmap string tree) :
  existsb local_fallback
    (log tree (snd (execute_script tree run write_text mkdtemp decode
                      str_exc format_output script problem repo_location
                      patch timeout flag {| fs := f; log := [] |})))
  = false.
Proof.
  destruct (execute_script_contained tree run write_text mkdtemp decode
              str_exc format_output script problem repo_location patch
              timeout flag {| fs := f; log := [] |})
    as (new & -> & Hf & _ & _).
  done.
Qed.

(** When the first of the commands of [GIT_APPLY_CMDS] runs, the tree at
    [problem.repo_location] after [run_swebench_test_local] is the tree
    that command has left there. *)
Lemma run_swebench_test_local_in_place (tree : Type)
    (run : Command → option Z → tree → result CompletedProcess * tree)
    (write_text : string → string → tree → tree)
    (mkdtemp : World tree → string)
    (decode : list Byte.byte → result string) (str_exc : PyExc → string)
    (format_output : option Output → string)
    (eval_script_of : Problem → string)
    (get_eval_report : Problem → string → string → bool)
    (problem : Problem) (patch log_dir : string) (w : World tree)
    (t t' : tree) (cp : CompletedProcess) :
  patch ≠ EmptyString →
  fs tree w !! repo_location problem = Some t →
  run (Shell ("git apply --verbose" +:+ " " +:+ mkdtemp w +:+ "/patch.diff"))
    None t = (Ok cp, t') →
  (∀ w0, mkdtemp w0 +:+ "/repo" ≠ repo_location problem) →
  fs tree (snd (run_swebench_test_local tree run write_text mkdtemp decode
                  str_exc format_output eval_script_of get_eval_report
                  problem patch log_dir w)) !! repo_location problem
  = Some t'.
Proof.
  intros Hpatch Hfs Hrun Hfresh. unfold run_swebench_test_local.
  rewrite (proj2 (String.eqb_neq patch EmptyString) Hpatch). simpl.
  unfold subprocess_run at 1. simpl. rewrite Hfs, Hrun.
  set (w1 := emit tree _ _).
  pose proof (execute_script_preserves_original tree run write_text mkdtemp
                decode str_exc format_output
                (replace (eval_script_of problem) "/testbed"
                   (repo_location problem))
                problem (repo_location problem) (Some patch) default_timeout
                false w1 (Hfresh w1)) as Hpres.
  destruct (execute_script _ _ _ _ _ _ _ _ _ _ _ _ _ w1) as [r w2].
  simpl in Hpres.
  assert (fs tree w1 !! repo_location problem = Some t') as Hw1
    by apply lookup_insert_eq.
  destruct r; simpl; by rewrite Hpres.
Qed.

(** C4, at a patch that [git apply] rejects and the fuzzy [patch] would
    accept: [execute_script] records the exit code 1 of [git apply], runs
    no fuzzy [patch], runs the script in the tree without the patch and
    returns the script's exit code 2. *)
Theorem execute_script_skips_fallback :
  Demo.local_run false false "script" Demo.problem "/repo" (Some "diff")
    600 false Demo.host
  = (Ok {| stdout := Some EmptyString; exit_code := 2;
           timed_out := false |},
     {| fs := {[ "/repo"%string := [] ]};
        log :=
          [ Copytree "/repo" "/tmp/tmp0/repo";
            Run (Args ["git"; "reset"; "--hard"; "abc123"])
              "/tmp/tmp0/repo" (Demo.completed 0);
            WriteText "/tmp/tmp0/repo/patch.diff" ("diff" +:+ Py.nl);
            Run (Args ["git"; "apply"; "-v"; "/tmp/tmp0/repo/patch.diff"])
              "/tmp/tmp0/repo" (Demo.completed 1);
            WriteText "/tmp/tmp0/repo/reproduce_script.py" "script";
            Run (Shell command) "/tmp/tmp0/repo" (Demo.completed 2);
            Cleanup "/tmp/tmp0" ] |})
  ∧ fst (Demo.run false false
           (Args ["patch"; "--batch"; "--fuzz=5"; "-p1"; "-i";
                  "/tmp/tmp0/repo/patch.diff"]) None [])
    = Demo.completed 0.
Proof. split; vm_compute; reflexivity. Qed.

(** C5 fails as stated: with the default
    [return_error_as_execution_output = False] a container run in which
    both applications fail raises [ValueError]. *)
Lemma container_patch_failure_raises :
  ¬ ∃ out,
      snd (Demo.run_container false false false "script" Demo.problem
             (Some "diff") 600 false) = Ok out
      ∧ exit_code out = 1.
Proof. vm_compute. by intros (out & [=] & _). Qed.

(** C5, amended. In a container run with a patch in which [git apply] and
    the fuzzy [patch] both exit with a code other than 0, the run returns
    the [ExecutionOutput] with exit code 1 and the text "Could not apply
    patch to repository" when [return_error_as_execution_output] is set,
    and raises [ValueError] with both exit codes and outputs when it is
    not. *)
Theorem container_patch_failure_outcome (container : Type)
    (start_container : Problem → container)
    (write_file : string → string → container → container)
    (exec_run :
      string → string → string → container → ExecResult * container)
    (exec_run_with_timeout :
      string → string → Z → container → TimedExecResult * container)
    (decode : list Byte.byte → result string)
    (format_output : Output → string)
    (script : string) (problem : Problem) (patch : string) (timeout : Z)
    (flag : bool) :
  let p := primary container start_container write_file exec_run problem
             patch in
  let q := fallback container start_container write_file exec_run problem
             patch in
  er_exit_code (fst p) ≠ 0 →
  er_exit_code (fst q) ≠ 0 →
  snd (execute_script_container container start_container write_file
         exec_run exec_run_with_timeout decode format_output script problem
         (Some patch) timeout flag)
  = if flag then
      Ok {| stdout := Some "Could not apply patch to repository";
            exit_code := 1;
            timed_out := false |}
    else
      Raise (ValueError
               (patch_error_args (er_exit_code (fst p))
                  (format_output (er_output (fst p)))
                  (er_exit_code (fst q))
                  (format_output (er_output (fst q))))).
Proof. intros p q. apply container_patch_failure. Qed.

Lemma container_patch_failure_outcome_witness :
  snd (Demo.run_container false false false "script" Demo.problem
         (Some "diff") 600 true)
  = Ok {| stdout := Some "Could not apply patch to repository";
          exit_code := 1;
          timed_out := false |}.
Proof.
  apply (container_patch_failure_outcome (list string)
           Demo.start_container Demo.write_file (Demo.exec_run false false)
           (Demo.exec_run_with_timeout false) Demo.decode
           Demo.format_output "script" Demo.problem "diff" 600 true);
    vm_compute; discriminate.
Defined.

(** C6. A container run whose script exceeded the timeout (and whose
    output is text or decodes) returns an [ExecutionOutput] with exit
    code 1 and [timed_out] set; so does a local run whose script exceeded
    the timeout. *)
Theorem timeout_forces_exit_code_1 :
  (∀ (container : Type) (start_container : Problem → container)
     (write_file : string → string → container → container)
     (exec_run :
       string → string → string → container → ExecResult * container)
     (exec_run_with_timeout :
       string → string → Z → container → TimedExecResult * container)
     (decode : list Byte.byte → result string)
     (format_output : Output → string)
     (script : string) (problem : Problem) (patch : option string)
     (timeout : Z) (flag : bool),
      let r := execute_script_container container start_container
                 write_file exec_run exec_run_with_timeout decode
                 format_output script problem patch timeout flag in
      existsb container_timed_out (fst r) = true →
      Forall (decodes decode) (fst r) →
      ∃ text, snd r = Ok {| stdout := Some text;
                            exit_code := 1;
                            timed_out := true |})
  ∧ (∀ (tree : Type)
       (run : Command → option Z → tree → result CompletedProcess * tree)
       (write_text : string → string → tree → tree)
       (mkdtemp : World tree → string)
       (decode : list Byte.byte → result string)
       (str_exc : PyExc → string)
       (format_output : option Output → string)
       (script : string) (problem : Problem) (repo_location : string)
       (patch : option string) (timeout : Z) (flag : bool)
       (f : gmap string tree),
        let x := execute_script tree run write_text mkdtemp decode str_exc
                   format_output script problem repo_location patch timeout
                   flag {| fs := f; log := [] |} in
        existsb local_timed_out (log tree (snd x)) = true →
        fst x = Ok {| stdout := Some "Script execution timed out";
                      exit_code := 1;
                      timed_out := true |}).
Proof.
  split.
  - intros. by apply container_timeout.
  - intros tree run write_text mkdtemp decode str_exc format_output script
      problem repo_location patch timeout flag f x.
    destruct (execute_script_contained tree run write_text mkdtemp decode
                str_exc format_output script problem repo_location patch
                timeout flag {| fs := f; log := [] |})
      as (new & Hlog & _ & Ht & _).
    fold x in Hlog, Ht. rewrite Hlog. simpl. exact Ht.
Qed.

Lemma timeout_forces_exit_code_1_witness :
  (∃ text,
      snd (Demo.run_container true true true "script" Demo.problem
             (Some "diff") 600 false)
      = Ok {| stdout := Some text; exit_code := 1; timed_out := true |})
  ∧ fst (Demo.local_run true true "script" Demo.problem "/repo"
           (Some "diff") 600 false Demo.host)
    = Ok {| stdout := Some "Script execution timed out";
            exit_code := 1;
            timed_out := true |}.
Proof.
  split.
  - apply (proj1 timeout_forces_exit_code_1 (list string)
             Demo.start_container Demo.write_file (Demo.exec_run true true)
             (Demo.exec_run_with_timeout true) Demo.decode
             Demo.format_output "script" Demo.problem (Some "diff"%string)
             600 false).
    + vm_compute. reflexivity.
    + vm_compute. repeat constructor.
  - apply (proj2 timeout_forces_exit_code_1 (list string)
             (Demo.run true true) Demo.write_text Demo.mkdtemp Demo.decode
             Demo.str_exc Demo.format_local "script" Demo.problem "/repo"
             (Some "diff"%string) 600 false (fs _ Demo.host)).
    vm_compute. reflexivity.
Defined.

(** C7, at a patch that applies: [run_swebench_test_local] runs
    [git apply] with the canonical repository as working directory, and
    the tree at [problem.repo_location], without the patch before the call,
    has the patch after it. *)
Theorem run_swebench_test_local_patches_original :
  let w := snd (Demo.test_local true Demo.problem "diff" "/logs" Demo.host) in
  fs _ Demo.host !! "/repo"%string = Some []
  ∧ fs _ w !! "/repo"%string = Some ["patched"%string]
  ∧ log _ w !! 1%nat
    = Some (Run (Shell "git apply --verbose /tmp/tmp0/patch.diff") "/repo"
              (Demo.completed 0)).
Proof. vm_compute. done. Qed.

End Sandbox.

(** * Further properties *)

(** ** Splitting, joining and searching text *)

Section TextFacts.

Lemma prefix_append (p rest : string) : String.prefix p (p +:+ rest) = true.
Proof.
  induction p as [|a p IH]; [by destruct rest|].
  rewrite append_cons. simpl. by destruct (ascii_dec a a).
Qed.

Lemma prefix_trans (a b c : string) :
  String.prefix a b = true → String.prefix b c = true →
  String.prefix a c = true.
Proof.
  intros [r1 ->]%prefix_app [r2 ->]%prefix_app.
  rewrite append_assoc. apply prefix_append.
Qed.

Lemma contains_nil (sub : string) :
  PyStr.contains sub EmptyString = String.prefix sub EmptyString.
Proof. by destruct sub. Qed.

Lemma contains_cons (sub : string) (c : ascii) (s : string) :
  PyStr.contains sub (String c s)
  = String.prefix sub (String c s) || PyStr.contains sub s.
Proof. reflexivity. Qed.

(** A text that holds [q] holds every prefix of [q]. *)
Lemma contains_prefix (p q s : string) :
  String.prefix p q = true →
  PyStr.contains q s = true → PyStr.contains p s = true.
Proof.
  intros Hpq. induction s as [|c s IH].
  - rewrite !contains_nil. by apply prefix_trans.
  - rewrite !contains_cons. intros [Hq|Hs]%orb_true_iff.
    + by rewrite (prefix_trans p q (String c s)).
    + rewrite (IH Hs). apply orb_true_r.
Qed.

Lemma split_cons_sep (sep : ascii) (s : string) :
  Py.split sep (String sep s) = EmptyString :: Py.split sep s.
Proof. simpl. by rewrite Ascii.eqb_refl. Qed.

Lemma split_app (sep : ascii) (a b : string) :
  Py.split sep (a +:+ String sep b) = Py.split sep a ++ Py.split sep b.
Proof.
  induction a as [|c a IH].
  - change (EmptyString +:+ String sep b) with (String sep b).
    by rewrite split_cons_sep.
  - rewrite append_cons. simpl. destruct (Ascii.eqb c sep); [by rewrite IH|].
    rewrite IH. destruct (split_nonempty sep a) as (h & t & ->). done.
Qed.

Lemma join_split (sep : ascii) (s : string) :
  PyStr.join (String sep EmptyString) (Py.split sep s) = s.
Proof.
  induction s as [|c s IH]; [done|]. simpl.
  destruct (split_nonempty sep s) as (h & t & Hs). rewrite Hs in *.
  destruct (Ascii.eqb_spec c sep) as [->|_].
  - change (PyStr.join (String sep EmptyString) (EmptyString :: h :: t))
      with (EmptyString +:+ String sep EmptyString
            +:+ PyStr.join (String sep EmptyString) (h :: t)).
    by rewrite IH.
  - destruct t as [|h' t]; simpl in *; [by rewrite IH|].
    rewrite append_cons. by rewrite IH.
Qed.

Lemma join_snoc (sep : string) (init : list string) (t : string) :
  init ≠ [] →
  PyStr.join sep (init ++ [t]) = PyStr.join sep init +:+ sep +:+ t.
Proof.
  induction init as [|a init IH]; [done|]. intros _.
  destruct init as [|b init]; [done|].
  change (PyStr.join sep ((a :: b :: init) ++ [t]))
    with (a +:+ sep +:+ PyStr.join sep ((b :: init) ++ [t])).
  rewrite IH by done.
  change (PyStr.join sep (a :: b :: init))
    with (a +:+ sep +:+ PyStr.join sep (b :: init)).
  by rewrite !append_assoc.
Qed.

(** The last part of a split is what follows the last separator. *)
Lemma split_last (sep : ascii) (s t : string) :
  last (Py.split sep s) = Some t →
  s = t ∨ ∃ stem, s = stem +:+ String sep t.
Proof.
  intros Hlast. apply last_Some in Hlast as [init Hinit].
  pose proof (join_split sep s) as Hjoin. rewrite Hinit in Hjoin.
  destruct init as [|a init]; [left; by rewrite <- Hjoin|].
  right. rewrite join_snoc in Hjoin by done.
  eexists. by rewrite <- Hjoin.
Qed.

(** The first part of a split is what precedes the first separator. *)
Lemma split_first (sep : ascii) (s h : string) :
  Py.split sep s !! 0%nat = Some h →
  s = h ∨ ∃ rest, s = h +:+ String sep rest.
Proof.
  revert h. induction s as [|c s IH]; intros h; simpl.
  - intros [= <-]. by left.
  - destruct (Ascii.eqb_spec c sep) as [->|_].
    + intros [= <-]. right. by exists s.
    + destruct (split_nonempty sep s) as (h' & t & Hs). rewrite Hs in *.
      intros [= <-]. destruct (IH h' eq_refl) as [->|[rest ->]].
      * by left.
      * right. exists rest. by rewrite append_cons.
Qed.

Lemma index_last {A} (l : list A) :
  PyStr.index l (-1) = from_option Ok (Raise IndexError) (last l).
Proof.
  unfold PyStr.index, Py.len. simpl.
  destruct l as [|a l]; [done|].
  destruct (Z.ltb_spec (-1 + Z.of_nat (length (a :: l))) 0) as [H|_];
    [simpl in H; lia|].
  rewrite last_lookup.
  replace (Z.to_nat (-1 + Z.of_nat (length (a :: l))))
    with (Nat.pred (length (a :: l))) by (simpl; lia).
  by destruct ((a :: l) !! Nat.pred (length (a :: l))).
Qed.

Lemma index_first {A} (l : list A) :
  PyStr.index l 0 = from_option Ok (Raise IndexError) (l !! 0%nat).
Proof. by destruct l. Qed.

End TextFacts.

(** ** Stripping *)

Section StripFacts.

Lemma append_nil_r (s : string) : s +:+ EmptyString = s.
Proof. induction s as [|c s IH]; [done|]. by rewrite append_cons, IH. Qed.

Lemma lstrip_head (s : string) :
  Py.lstrip s = EmptyString
  ∨ ∃ c r, Py.lstrip s = String c r ∧ Py.isspace c = false.
Proof.
  induction s as [|c s IH]; simpl; [by left|].
  destruct (Py.isspace c) eqn:E; [done|]. right. by exists c, s.
Qed.

(** What [lstrip] removes is in front. *)
Lemma lstrip_suffix (s : string) : ∃ ws, s = ws +:+ Py.lstrip s.
Proof.
  induction s as [|c s [ws IH]]; simpl; [by exists EmptyString|].
  destruct (Py.isspace c).
  - exists (String c ws). by rewrite append_cons, <- IH.
  - by exists EmptyString.
Qed.

Lemma rstrip_cons (c : ascii) (s : string) :
  Py.rstrip (String c s)
  = match Py.rstrip s with
    | EmptyString => if Py.isspace c then EmptyString else String c EmptyString
    | r => String c r
    end.
Proof. reflexivity. Qed.

Lemma rstrip_head (c : ascii) (s : string) :
  Py.isspace c = false → ∃ r, Py.rstrip (String c s) = String c r.
Proof.
  intros Hc. rewrite rstrip_cons, Hc. destruct (Py.rstrip s); by eexists.
Qed.

Lemma rstrip_idem (s : string) : Py.rstrip (Py.rstrip s) = Py.rstrip s.
Proof.
  induction s as [|c s IH]; [done|]. rewrite rstrip_cons.
  destruct (Py.rstrip s) as [|d r] eqn:E.
  - destruct (Py.isspace c) eqn:Hc; [done|]. by rewrite rstrip_cons, Hc.
  - by rewrite rstrip_cons, IH.
Qed.

(** A text that [rstrip] leaves non-empty is stripped the same way after
    any text. *)
Lemma rstrip_app (s t : string) :
  Py.rstrip t ≠ EmptyString → Py.rstrip (s +:+ t) = s +:+ Py.rstrip t.
Proof.
  intros Ht. induction s as [|c s IH]; [done|].
  rewrite !append_cons, rstrip_cons, IH.
  destruct (s +:+ Py.rstrip t) as [|d r] eqn:E; [|done].
  destruct s; [|by rewrite append_cons in E]. by destruct (Py.rstrip t).
Qed.

Lemma strip_idem (s : string) : Py.strip (Py.strip s) = Py.strip s.
Proof.
  unfold Py.strip.
  destruct (lstrip_head s) as [->|(c & r & -> & Hc)]; [done|].
  destruct (rstrip_head c r Hc) as [r' Hr]. rewrite Hr.
  simpl Py.lstrip. rewrite Hc, <- Hr. apply rstrip_idem.
Qed.

Lemma occurs_lstrip (c : ascii) (s : string) :
  occurs c s = false → occurs c (Py.lstrip s) = false.
Proof.
  induction s as [|a s IH]; simpl; [done|].
  intros [Ha Hs]%orb_false_iff. destruct (Py.isspace a); [by apply IH|].
  simpl. by rewrite Ha, Hs.
Qed.

Lemma occurs_rstrip (c : ascii) (s : string) :
  occurs c s = false → occurs c (Py.rstrip s) = false.
Proof.
  induction s as [|a s IH]; [done|]. rewrite rstrip_cons. simpl.
  intros [Ha Hs]%orb_false_iff. specialize (IH Hs).
  destruct (Py.rstrip s) as [|d r].
  - destruct (Py.isspace a); [done|]. simpl. by rewrite Ha.
  - simpl in *. by rewrite Ha, IH.
Qed.

Lemma occurs_split (sep : ascii) (s part : string) :
  In part (Py.split sep s) → occurs sep part = false.
Proof.
  revert part. induction s as [|a s IH]; intros part; simpl.
  - by intros [<-|[]].
  - destruct (Ascii.eqb a sep) eqn:Ha.
    + intros [<-|Hin]; [done|]. by apply IH.
    + destruct (split_nonempty sep s) as (h & t & Hs). rewrite Hs in *.
      intros [<-|Hin].
      * simpl. rewrite Ha. apply IH. by left.
      * apply IH. by right.
Qed.

Lemma contains_char (c : ascii) (s : string) :
  PyStr.contains (String c EmptyString) s = occurs c s.
Proof.
  induction s as [|a s IH]; [done|].
  change (PyStr.contains (String c EmptyString) (String a s))
    with (String.prefix (String c EmptyString) (String a s)
          || PyStr.contains (String c EmptyString) s).
  rewrite IH. simpl. f_equal.
  destruct (ascii_dec c a) as [->|Hne].
  - rewrite Ascii.eqb_refl. by destruct s.
  - symmetry. apply Ascii.eqb_neq. congruence.
Qed.

End StripFacts.

(** ** The chunks of [create_context_chunks], line by line *)

Section ChunkFacts.
Import Localization.

Lemma location_lines_elem (locations : list string) (L : Z) :
  L ∈ location_lines locations ↔ line_location locations L.
Proof.
  unfold location_lines, line_location.
  by rewrite elem_of_list_to_set, list_elem_of_omap.
Qed.

Lemma anchors_elem (file_content : string) (locations : list string)
    (L : Z) :
  L ∈ anchors file_content locations
  ↔ line_location locations L ∧ 1 ≤ L ≤ total_lines file_content.
Proof.
  unfold anchors. by rewrite elem_of_filter, location_lines_elem, (comm and).
Qed.

(** The line numbers for which a chunk is created are the anchors, in
    ascending order. *)
Lemma in_range_sorted (file_content : string) (locations : list string)
    (s : gset Z) :
  (∀ L, L ∈ s ↔ line_location locations L) →
  List.filter (in_range (Py.split "010" file_content)) (Py.sorted s)
  = Py.sorted (anchors file_content locations).
Proof.
  intros Hs. apply (StronglySorted_unique Z.le).
  - apply StronglySorted_filter, sorted_strongly.
  - apply sorted_strongly.
  - apply NoDup_Permutation.
    + apply NoDup_ListNoDup, List.NoDup_filter, NoDup_ListNoDup, sorted_NoDup.
    + apply sorted_NoDup.
    + intros L. rewrite list_elem_of_In, filter_In, <- list_elem_of_In.
      rewrite !sorted_elem, anchors_elem, Hs, in_range_iff. done.
Qed.

Lemma create_context_chunks_anchors (message : string)
    (locations : list string) (file_path file_content : string)
    (context_lines : Z) :
  create_context_chunks message locations file_path file_content
    context_lines
  = Ok {| message := message;
          chunks :=
            combine_chunks (Py.split "010" file_content)
              (map (window (Py.split "010" file_content) context_lines)
                 (Py.sorted (anchors file_content locations)));
          file_path := file_path |}.
Proof.
  destruct (create_context_chunks_value message locations file_path
              file_content context_lines) as (s & _ & Hs & ->).
  by rewrite initial_chunks_windows, (in_range_sorted _ locations).
Qed.

Lemma anchors_in_range (file_content : string) (locations : list string) :
  List.filter (in_range (Py.split "010" file_content))
    (Py.sorted (anchors file_content locations))
  = Py.sorted (anchors file_content locations).
Proof.
  apply forallb_filter_id, forallb_forall. intros L HL.
  apply list_elem_of_In, sorted_elem, anchors_elem in HL as [_ HL].
  by apply in_range_iff.
Qed.

Lemma anchors_windows (file_content : string) (locations : list string)
    (context_lines : Z) :
  0 ≤ context_lines →
  let lines := Py.split "010" file_content in
  let ws := map (window lines context_lines)
              (Py.sorted (anchors file_content locations)) in
  StronglySorted (before) ws ∧ Forall (within lines) ws.
Proof.
  intros Hc lines ws. subst ws.
  rewrite <- (anchors_in_range file_content locations).
  apply windows_ordered; [done | apply sorted_strongly].
Qed.

(** X1. For a context radius of at least 0, a line of the file lies in one
    of the chunks that [create_context_chunks] returns exactly when it is
    within the radius of a line-number location that is itself a line of
    the file. *)
Theorem chunks_cover_exactly (message : string) (locations : list string)
    (file_path file_content : string) (context_lines : Z)
    (rc : RelevantChunks) (L : Z) :
  0 ≤ context_lines →
  create_context_chunks message locations file_path file_content
    context_lines = Ok rc →
  Exists (covers L) (chunks rc)
  ↔ 1 ≤ L ≤ total_lines file_content
    ∧ ∃ L0, line_location locations L0
            ∧ 1 ≤ L0 ≤ total_lines file_content
            ∧ Z.abs (L - L0) ≤ context_lines.
Proof.
  intros Hc Hrc. rewrite create_context_chunks_anchors in Hrc.
  injection Hrc as <-. simpl.
  destruct (anchors_windows file_content locations context_lines Hc)
    as [Hs Hw].
  rewrite combine_chunks_covers by done.
  rewrite Exists_exists. unfold total_lines. split.
  - intros (ch & Hch & Hcov).
    apply list_elem_of_In, in_map_iff in Hch as (L0 & <- & HL0).
    apply list_elem_of_In, sorted_elem, anchors_elem in HL0 as [Hloc HL0].
    unfold covers in Hcov. rewrite window_end in Hcov
      by (done || by apply in_range_iff).
    simpl in Hcov. unfold total_lines in HL0.
    split; [lia|]. exists L0. repeat split; [done|lia..].
  - intros (HL & L0 & Hloc & HL0 & Habs).
    exists (window (Py.split "010" file_content) context_lines L0). split.
    + apply list_elem_of_In, in_map_iff. exists L0. split; [done|].
      by apply list_elem_of_In, sorted_elem, anchors_elem.
    + unfold covers. rewrite window_end by (done || by apply in_range_iff).
      simpl. lia.
Qed.

Lemma chunks_cover_exactly_witness :
  Exists (covers 6)
    (chunks {| message := "m";
               chunks := [ {| line_number := 1;
                              content := ["1"; "2"; "3"; "4"; "5"; "6"] |};
                           {| line_number := 8;
                              content := ["8"; "9"; "10"] |} ]%string;
               file_path := "f.py" |})
  ↔ 1 ≤ 6 ≤ total_lines ten_lines
    ∧ ∃ L0, line_location
              ["line: 2"; "content: x"; "line:9"; "line: 99"; "line: 5"] L0
            ∧ 1 ≤ L0 ≤ total_lines ten_lines
            ∧ Z.abs (6 - L0) ≤ 1.
Proof.
  apply (chunks_cover_exactly "m"
           ["line: 2"; "content: x"; "line:9"; "line: 99"; "line: 5"]
           "f.py" ten_lines 1); [lia | vm_compute; reflexivity].
Defined.

(** X2. [create_context_chunks] depends on the locations only through
    the set of line numbers that are lines of the file: their order, their
    repetitions, the locations of other kinds and the line numbers out of
    range make no difference to the result. *)
Theorem create_context_chunks_anchors_only (message : string)
    (locations locations' : list string) (file_path file_content : string)
    (context_lines : Z) :
  anchors file_content locations = anchors file_content locations' →
  create_context_chunks message locations file_path file_content
    context_lines
  = create_context_chunks message locations' file_path file_content
      context_lines.
Proof.
  intros Heq. rewrite !create_context_chunks_anchors. by rewrite Heq.
Qed.

Lemma create_context_chunks_anchors_only_witness :
  create_context_chunks "m" ["line: 2"; "line: 9"] "f.py" ten_lines 1
  = create_context_chunks "m"
      ["line:9"; "class: A"; "line: 2"; "line: 0"; "line: 9 "; "line: 11"]
      "f.py" ten_lines 1.
Proof.
  apply (create_context_chunks_anchors_only "m" ["line: 2"; "line: 9"]
           ["line:9"; "class: A"; "line: 2"; "line: 0"; "line: 9 ";
            "line: 11"] "f.py" ten_lines 1).
  vm_compute. reflexivity.
Defined.

Lemma sorted_nil_inv (s : gset Z) : Py.sorted s = [] → s = ∅.
Proof.
  intros E. apply set_eq. intros L. rewrite <- sorted_elem, E.
  split; [by intros ?%elem_of_nil | by intros ?%not_elem_of_empty].
Qed.

Lemma slice_all {A} (l : list A) : Py.slice l 0 (Py.len l) = l.
Proof.
  unfold Py.slice, Py.slice_index, Py.len. simpl.
  destruct (Z.ltb_spec (Z.of_nat (length l)) 0) as [|_]; [lia|].
  rewrite Z.min_id, Z.min_l by lia. simpl.
  rewrite Z.sub_0_r, Nat2Z.id. apply firstn_all.
Qed.

Lemma merge_from_same (lines : list string) (W : ContextChunk)
    (rest : list ContextChunk) :
  line_number W ≤ chunk_end W → merged lines W W = W →
  Forall (λ ch, ch = W) rest → merge_from lines W rest = [W].
Proof.
  intros Hle Hm. induction 1 as [|ch rest -> _ IH]; simpl; [done|].
  destruct (line_number W <=? chunk_end W) eqn:E; [|lia].
  by rewrite Hm.
Qed.

(** X3. When the context radius is at least the number of lines of the
    file less one, and some line-number location is a line of the file,
    [create_context_chunks] returns the whole file as one chunk that
    starts at line 1. *)
Theorem create_context_chunks_whole_file (message : string)
    (locations : list string) (file_path file_content : string)
    (context_lines : Z) :
  total_lines file_content - 1 ≤ context_lines →
  anchors file_content locations ≠ ∅ →
  create_context_chunks message locations file_path file_content
    context_lines
  = Ok {| message := message;
          chunks := [whole_file file_content];
          file_path := file_path |}.
Proof.
  intros Hc Hne. rewrite create_context_chunks_anchors. do 2 f_equal.
  pose proof (total_lines_pos file_content) as Hpos.
  set (lines := Py.split "010" file_content).
  assert (∀ L, L ∈ Py.sorted (anchors file_content locations) →
               window lines context_lines L = whole_file file_content)
    as Hwin.
  { intros L [_ HL]%sorted_elem%anchors_elem.
    unfold window, whole_file, total_lines in *. fold lines in HL, Hc |- *.
    rewrite Z.max_l, Z.min_l by lia.
    by rewrite slice_all. }
  destruct (Py.sorted (anchors file_content locations)) as [|L0 nums] eqn:E.
  - by apply sorted_nil_inv in E.
  - cbn [map]. rewrite combine_chunks_cons, Hwin by left.
    apply merge_from_same.
    + unfold chunk_end, whole_file, Py.len. simpl. lia.
    + unfold merged, whole_file. simpl. f_equal. fold lines.
      replace (1 - 1) with 0 by lia.
      replace (1 + Py.len lines - 1) with (Py.len lines) by lia.
      apply slice_all.
    + apply Forall_forall. intros ch Hch.
      apply list_elem_of_In, in_map_iff in Hch as (L & <- & HL).
      apply Hwin. right. by apply list_elem_of_In.
Qed.

Lemma create_context_chunks_whole_file_witness :
  create_context_chunks "m" ["line: 3"; "def: f"] "f.py" ten_lines
    default_context_lines
  = Ok {| message := "m";
          chunks := [whole_file ten_lines];
          file_path := "f.py" |}.
Proof.
  apply (create_context_chunks_whole_file "m" ["line: 3"; "def: f"] "f.py"
           ten_lines default_context_lines).
  - vm_compute. discriminate.
  - vm_compute. discriminate.
Defined.

Lemma size_list_to_set_le (l : list Z) :
  (size (list_to_set (C := gset Z) l) ≤ length l)%nat.
Proof.
  induction l as [|x l IH].
  - by rewrite list_to_set_nil, size_empty.
  - rewrite list_to_set_cons, size_union_alt, size_singleton. simpl.
    assert (list_to_set (C := gset Z) l ∖ {[x]} ⊆ list_to_set l) as Hsub
      by (by intros y [Hy _]%elem_of_difference).
    apply subseteq_size in Hsub. lia.
Qed.

Lemma length_omap_le {A B} (f : A → option B) (l : list A) :
  (length (omap f l) ≤ length l)%nat.
Proof.
  induction l as [|x l IH]; simpl; [done|].
  change (list_omap A B f l) with (omap f l).
  destruct (f x); simpl; lia.
Qed.

Lemma merge_from_length (lines : list string) (rest : list ContextChunk) :
  ∀ current,
    (length (merge_from lines current rest) ≤ S (length rest))%nat.
Proof.
  induction rest as [|next rest IH]; intros current; simpl; [lia|].
  destruct (line_number next <=? chunk_end current).
  - specialize (IH (merged lines current next)). lia.
  - specialize (IH next). simpl. lia.
Qed.

Lemma merge_from_nonempty (lines : list string) (rest : list ContextChunk) :
  ∀ current,
    StronglySorted (before) (current :: rest) →
    Forall (within lines) (current :: rest) →
    Forall (λ ch, line_number ch < chunk_end ch) (current :: rest) →
    Forall (λ ch, line_number ch < chunk_end ch)
      (merge_from lines current rest).
Proof.
  induction rest as [|next rest IH]; intros current Hs Hw Hn; simpl;
    [done|].
  apply StronglySorted_inv in Hs as [Hs Hcur].
  apply Forall_cons in Hcur as [[Hb1 Hb2] Hcur].
  apply Forall_cons in Hw as [Hwc Hw].
  pose proof Hw as Hw'. apply Forall_cons in Hw' as [Hwn Hwr].
  pose proof Hs as Hs'. apply StronglySorted_inv in Hs' as [Hsr Hnext].
  apply Forall_cons in Hn as [Hnc Hn].
  pose proof Hn as Hn'. apply Forall_cons in Hn' as [Hnn Hnr].
  destruct (line_number next <=? chunk_end current) eqn:E.
  - pose proof (merged_end lines current next Hwc Hwn Hb1) as Hend.
    apply IH.
    + constructor; [done|].
      eapply Forall_impl; [exact Hnext|]. intros c [? ?].
      unfold before. rewrite Hend. simpl. split; [lia | done].
    + constructor; [|done]. unfold within. rewrite Hend. simpl.
      split; [apply Hwc | apply Hwn].
    + constructor; [|done]. rewrite Hend. simpl. lia.
  - constructor; [done|]. by apply IH.
Qed.

(** X4. For a context radius of at least 0, [create_context_chunks]
    returns no chunk exactly when no line-number location is a line of the
    file, never more chunks than there are such lines, never more such
    lines than locations, and no chunk without content. *)
Theorem create_context_chunks_count (message : string)
    (locations : list string) (file_path file_content : string)
    (context_lines : Z) :
  0 ≤ context_lines →
  ∃ rc,
    create_context_chunks message locations file_path file_content
      context_lines = Ok rc
    ∧ (chunks rc = [] ↔ anchors file_content locations = ∅)
    ∧ (length (chunks rc) ≤ size (anchors file_content locations))%nat
    ∧ (size (anchors file_content locations) ≤ length locations)%nat
    ∧ Forall (λ ch, content ch ≠ []) (chunks rc).
Proof.
  intros Hc. eexists. split; [apply create_context_chunks_anchors|]. simpl.
  destruct (anchors_windows file_content locations context_lines Hc)
    as [Hs Hw].
  assert (length (Py.sorted (anchors file_content locations))
          = size (anchors file_content locations)) as Hlen.
  { unfold Py.sorted. by rewrite merge_sort_Permutation. }
  assert (Forall (λ ch : ContextChunk, line_number ch < chunk_end ch)
            (map (window (Py.split "010" file_content) context_lines)
               (Py.sorted (anchors file_content locations)))) as Hn.
  { apply Forall_forall. intros ch Hch.
    apply list_elem_of_In, in_map_iff in Hch as (L & <- & HL).
    apply list_elem_of_In, sorted_elem, anchors_elem in HL as [_ HL].
    pose proof (window_covers (Py.split "010" file_content) context_lines
                  Hc L (proj2 (in_range_iff _ L) HL)) as Hcov.
    unfold covers in Hcov. lia. }
  rewrite <- Hlen.
  destruct (Py.sorted (anchors file_content locations)) as [|L0 nums] eqn:E.
  - simpl. split; [|split; [lia|split; [lia|constructor]]].
    split; [|done]. intros _. by apply sorted_nil_inv.
  - cbn [map length] in *. rewrite combine_chunks_cons.
    split; [|split; [|split]].
    + split.
      * intros Hnil.
        destruct (merge_from_head (Py.split "010" file_content)
                    (map (window (Py.split "010" file_content)
                            context_lines) nums)
                    (window (Py.split "010" file_content) context_lines L0))
          as (c & tl & Hm & _).
        by rewrite Hm in Hnil.
      * intros Hempty. rewrite Hempty, sorted_empty in E. done.
    + etrans; [apply merge_from_length|]. by rewrite length_map.
    + rewrite Hlen. unfold anchors.
      etrans; [apply subseteq_size; by intros y [_ Hy]%elem_of_filter|].
      unfold location_lines.
      etrans; [apply size_list_to_set_le|]. apply length_omap_le.
    + eapply Forall_impl; [by apply merge_from_nonempty|].
      intros ch Hch Hnil. unfold chunk_end, Py.len in Hch.
      rewrite Hnil in Hch. simpl in Hch. lia.
Qed.

Lemma create_context_chunks_count_witness :
  ∃ rc,
    create_context_chunks "m" ["line: 2"; "line: 3"; "line: 9"] "f.py"
      ten_lines 1 = Ok rc
    ∧ (chunks rc = []
       ↔ anchors ten_lines ["line: 2"; "line: 3"; "line: 9"] = ∅)
    ∧ (length (chunks rc)
       ≤ size (anchors ten_lines ["line: 2"; "line: 3"; "line: 9"]))%nat
    ∧ (size (anchors ten_lines ["line: 2"; "line: 3"; "line: 9"])
       ≤ length ["line: 2"; "line: 3"; "line: 9"])%nat
    ∧ Forall (λ ch, content ch ≠ []) (chunks rc).
Proof.
  apply (create_context_chunks_count "m" ["line: 2"; "line: 3"; "line: 9"]
           "f.py" ten_lines 1).
  lia.
Defined.

End ChunkFacts.

(** ** The locations of a response *)

Section NoSection.
Import Localization.

Lemma match_locations_prefix (s g : string) :
  match_locations s = Some g → String.prefix "LOCATIONS:" s = true.
Proof.
  unfold match_locations. by destruct (String.prefix "LOCATIONS:" s).
Qed.

Lemma search_locations_contains (s g : string) :
  search_locations s = Some g → PyStr.contains "LOCATIONS:" s = true.
Proof.
  induction s as [|c s IH].
  - cbn [search_locations]. destruct (match_locations EmptyString) eqn:E;
      [|done].
    intros _. apply match_locations_prefix in E. by rewrite contains_nil.
  - cbn [search_locations].
    rewrite contains_cons. destruct (match_locations (String c s)) eqn:E.
    + intros _. apply match_locations_prefix in E. by rewrite E.
    + intros Hs. rewrite (IH Hs). apply orb_true_r.
Qed.

(** X5. A response in which the text [LOCATIONS:] does not occur has no
    locations, and [create_context_chunks] makes of it a result without
    chunks, whatever the file. *)
Theorem response_without_section (message file_path file_content : string)
    (context_lines : Z) :
  PyStr.contains "LOCATIONS:" message = false →
  _parse_response message = {| rl_message := message; locations := [] |}
  ∧ create_context_chunks message (locations (_parse_response message))
      file_path file_content context_lines
    = Ok {| message := message; chunks := []; file_path := file_path |}.
Proof.
  intros Hno.
  assert (_parse_response message
          = {| rl_message := message; locations := [] |}) as Hparse.
  { unfold _parse_response.
    destruct (search_locations message) as [group|] eqn:E; [|done].
    apply search_locations_contains in E. congruence. }
  split; [done|]. rewrite Hparse. simpl.
  rewrite create_context_chunks_anchors.
  assert (anchors file_content [] = ∅) as ->.
  { apply set_eq. intros L. rewrite anchors_elem.
    split; [|by intros ?%not_elem_of_empty].
    by intros [(loc & Hloc%elem_of_nil & _) _]. }
  by rewrite sorted_empty.
Qed.

Lemma response_without_section_witness :
  _parse_response "This file is not relevant."
  = {| rl_message := "This file is not relevant."; locations := [] |}
  ∧ create_context_chunks "This file is not relevant."
      (locations (_parse_response "This file is not relevant.")) "f.py"
      ten_lines default_context_lines
    = Ok {| message := "This file is not relevant."; chunks := [];
            file_path := "f.py" |}.
Proof.
  apply (response_without_section "This file is not relevant." "f.py"
           ten_lines default_context_lines).
  vm_compute. reflexivity.
Defined.

End NoSection.

Section ParsedLocations.
Import Localization.

(** X6. [_parse_response] keeps the message, and every location it
    returns is non-empty, has no whitespace at either end and holds no
    line feed. *)
Theorem parse_response_clean (message : string) :
  rl_message (_parse_response message) = message
  ∧ Forall (λ loc, loc ≠ EmptyString
                   ∧ Py.strip loc = loc
                   ∧ PyStr.contains Py.nl loc = false)
      (locations (_parse_response message)).
Proof.
  unfold _parse_response.
  destruct (search_locations message) as [group|]; [|by split].
  destruct (nonempty (Py.strip group)); simpl; [|by split].
  split; [done|]. apply Forall_forall. intros loc Hloc.
  apply list_elem_of_In, in_map_iff in Hloc as (raw & <- & Hraw).
  apply filter_In in Hraw as [Hraw Hne]. split; [|split].
  - unfold nonempty in Hne. apply negb_true_iff in Hne.
    by apply String.eqb_neq.
  - apply strip_idem.
  - unfold Py.nl. rewrite contains_char. unfold Py.strip.
    apply occurs_rstrip, occurs_lstrip. by eapply occurs_split.
Qed.

End ParsedLocations.

(** ** [_run_work] and the trajectory store *)

Section RunWorkStore.
Import Localization.

Variable count_tokens : string → Z.
Variable SYSTEM_PROMPT : string.
Variable completion : LocalizationConfig → list Message → result string.

Abbreviation run_work := (_run_work count_tokens SYSTEM_PROMPT completion).

Lemma run_work_unfold (work : WorkItem) (st : State) :
  run_work work st
  = let p := path (file work) in
    let sent :=
      {| store := store st;
         requests :=
           requests st ++ [localization_messages SYSTEM_PROMPT work] |} in
    if bool_decide (is_Some (store st !! p)) then (Ok (), st)
    else if count_tokens (file_text (file work))
            >? max_file_tokens (config work)
    then (Ok (), st)
    else
      match completion (config work)
              (localization_messages SYSTEM_PROMPT work) with
      | Raise e => (Raise e, sent)
      | Ok m =>
          match create_context_chunks m (locations (_parse_response m)) p
                  (file_text (file work)) default_context_lines with
          | Raise e => (Raise e, sent)
          | Ok rc =>
              (Ok (), {| store := <[p := rc]> (store st);
                         requests := requests sent |})
          end
      end.
Proof. reflexivity. Qed.

(** The cases of [_run_work]. *)
Lemma run_work_cases (work : WorkItem) (st : State) :
  let p := path (file work) in
  let sent :=
    {| store := store st;
       requests := requests st ++ [localization_messages SYSTEM_PROMPT work]
    |} in
  (run_work work st = (Ok (), st)
   ∧ (is_Some (store st !! p)
      ∨ count_tokens (file_text (file work))
        > max_file_tokens (config work)))
  ∨ (store st !! p = None
     ∧ count_tokens (file_text (file work)) ≤ max_file_tokens (config work)
     ∧ ((∃ e, completion (config work)
                (localization_messages SYSTEM_PROMPT work) = Raise e
              ∧ run_work work st = (Raise e, sent))
        ∨ (∃ m rc,
              completion (config work)
                (localization_messages SYSTEM_PROMPT work) = Ok m
              ∧ create_context_chunks m (locations (_parse_response m)) p
                  (file_text (file work)) default_context_lines = Ok rc
              ∧ run_work work st
                = (Ok (), {| store := <[p := rc]> (store st);
                             requests := requests sent |})))).
Proof.
  intros p sent. rewrite run_work_unfold. cbv zeta. fold p.
  case_bool_decide as Hex.
  - left. split; [done|]. by left.
  - assert (store st !! p = None) as Ep.
    { destruct (store st !! p) eqn:E; [|done]. exfalso. apply Hex. by eexists. }
    destruct (Z.gtb_spec (count_tokens (file_text (file work)))
                (max_file_tokens (config work))) as [Hgt|Hle].
    + left. split; [done|]. right. lia.
    + right. split; [done|]. split; [done|].
      destruct (completion (config work)
                  (localization_messages SYSTEM_PROMPT work)) as [m|e].
      * right.
        destruct (create_context_chunks_value m
                    (locations (_parse_response m)) p (file_text (file work))
                    default_context_lines) as (s & _ & _ & Hrc).
        rewrite Hrc. by eexists m, _.
      * left. by exists e.
Qed.

(** X7. Once [_run_work] has returned for a work item, running it again
    returns at once: the state stays as it is, and no further request is
    sent. *)
Theorem run_work_rerun (work : WorkItem) (st : State) :
  fst (run_work work st) = Ok () →
  run_work work (snd (run_work work st))
  = (Ok (), snd (run_work work st)).
Proof.
  intros Hok.
  destruct (run_work_cases work st)
    as [[Hrun _]|(Hnone & Hle & [(e & _ & Hrun)|(m & rc & _ & _ & Hrun)])].
  - rewrite Hrun. simpl. exact Hrun.
  - by rewrite Hrun in Hok.
  - rewrite Hrun. simpl. rewrite run_work_unfold. cbv zeta. simpl.
    case_bool_decide as Hex; [done|].
    exfalso. apply Hex. rewrite lookup_insert_eq. by eexists.
Qed.

(** X8. [_run_work] never changes or removes a decision that is in the
    store, touches no entry but that of the work item's file, leaves the
    store as it was when it raises, and sends at most one request, the one
    with the system prompt and the user prompt of the file. *)
Theorem run_work_frame (work : WorkItem) (st : State) :
  let r := run_work work st in
  (∀ p rc, store st !! p = Some rc → store (snd r) !! p = Some rc)
  ∧ (∀ p, p ≠ path (file work) → store (snd r) !! p = store st !! p)
  ∧ (∀ e, fst r = Raise e → store (snd r) = store st)
  ∧ (requests (snd r) = requests st
     ∨ requests (snd r)
       = requests st ++ [localization_messages SYSTEM_PROMPT work]).
Proof.
  destruct (run_work_cases work st)
    as [[Hrun _]|(Hnone & Hle & [(e & _ & Hrun)|(m & rc & _ & _ & Hrun)])];
    simpl; rewrite Hrun; simpl.
  - repeat split; try done. by left.
  - repeat split; try done. by right.
  - split; [|split; [|split]].
    + intros p rc0 Hp. rewrite lookup_insert_ne; [done|].
      intros <-. by rewrite Hnone in Hp.
    + intros p Hp. by rewrite lookup_insert_ne.
    + done.
    + by right.
Qed.


End RunWorkStore.

Section RunWorkStoreExamples.
Import Localization.

Lemma run_work_rerun_witness :
  _run_work Py.slen "system" (λ _ _, Ok fenced_answer) short_file_work
    (snd (_run_work Py.slen "system" (λ _ _, Ok fenced_answer)
            short_file_work {| store := ∅; requests := [] |}))
  = (Ok (),
     snd (_run_work Py.slen "system" (λ _ _, Ok fenced_answer)
            short_file_work {| store := ∅; requests := [] |})).
Proof.
  apply (run_work_rerun Py.slen "system" (λ _ _, Ok fenced_answer)
           short_file_work {| store := ∅; requests := [] |}).
  vm_compute. reflexivity.
Defined.

Lemma run_work_frame_witness :
  store (snd (_run_work Py.slen "system" (λ _ _, Raise TimeoutExpired)
                short_file_work {| store := ∅; requests := [] |}))
  = ∅.
Proof.
  apply (proj1 (proj2 (proj2 (run_work_frame Py.slen "system"
                                (λ _ _, Raise TimeoutExpired)
                                short_file_work
                                {| store := ∅; requests := [] |})))
           TimeoutExpired).
  vm_compute. reflexivity.
Defined.


End RunWorkStoreExamples.

(** ** The request of [call_completions] *)

Section RequestFacts.
Import Completions.

Variable float : Type.
Variable config : Config float.

Lemma slice_last_two {A} (l : list A) :
  Py.slice l (-2) (Py.len l) = drop (length l - 2) l.
Proof.
  unfold Py.slice, Py.slice_index, Py.len. simpl.
  destruct (Z.ltb_spec (Z.of_nat (length l)) 0) as [|_]; [lia|].
  rewrite Z.min_id.
  replace (Z.to_nat (0 `max` (-2 + Z.of_nat (length l))))
    with (length l - 2)%nat by lia.
  apply take_ge. rewrite length_drop. lia.
Qed.

Lemma slice_tail {A} (l : list A) : Py.slice l 1 (Py.len l) = drop 1 l.
Proof.
  unfold Py.slice, Py.slice_index, Py.len. simpl.
  destruct (Z.ltb_spec (Z.of_nat (length l)) 0) as [|_]; [lia|].
  rewrite Z.min_id.
  destruct l as [|a l]; [done|].
  rewrite Z.min_l by (simpl; lia). simpl.
  rewrite drop_0. apply take_ge. lia.
Qed.

Lemma index_nat {A} (l : list A) (i : nat) :
  PyStr.index l (Z.of_nat i)
  = from_option Ok (Raise IndexError) (l !! i).
Proof.
  unfold PyStr.index. cbv zeta.
  destruct (Z.ltb_spec (Z.of_nat i) 0) as [|_]; [lia|].
  destruct (Z.ltb_spec (Z.of_nat i) 0) as [|_]; [lia|].
  rewrite Nat2Z.id. by destruct (l !! i).
Qed.

Lemma index_second {A} (l : list A) :
  PyStr.index l 1 = from_option Ok (Raise IndexError) (l !! 1%nat).
Proof. apply (index_nat l 1). Qed.

Lemma mark_returned (c c' : Content) :
  mark c = Returned c' → c' = marked_content c.
Proof.
  destruct c as [s|bs]; simpl; [by intros [= <-]|].
  rewrite index_last. destruct (last bs) as [b|]; simpl; [|done].
  by intros [= <-].
Qed.

Lemma mark_at_returned (messages out : list ChatMessage) (pos : nat) :
  mark_at messages pos = Returned out →
  ∃ m, messages !! pos = Some m
       ∧ out = <[pos := marked_message m]> messages.
Proof.
  unfold mark_at. rewrite index_nat.
  destruct (messages !! pos) as [m|]; simpl; [|done].
  destruct (mark (content m)) as [c|e] eqn:Hc; simpl; [|done].
  intros [= <-]. exists m. split; [done|].
  by rewrite (mark_returned _ _ Hc).
Qed.

Lemma fold_raised (ps : list nat) (e : Exc) :
  foldl (λ acc pos, marked ← acc; mark_at marked pos) (Raised e) ps
  = Raised e.
Proof. by induction ps. Qed.

(** The loop over the positions as a map over the messages. *)
Lemma fold_marks (ps : list nat) :
  ∀ messages out,
    NoDup ps →
    foldl (λ acc pos, marked ← acc; mark_at marked pos) (Returned messages)
      ps = Returned out →
    length out = length messages
    ∧ ∀ i m, messages !! i = Some m →
             out !! i
             = Some (if bool_decide (i ∈ ps) then marked_message m else m).
Proof.
  induction ps as [|p ps IH]; intros messages out Hnd; cbn [foldl].
  - intros [= <-]. split; [done|]. intros i m Hi.
    case_bool_decide as Hin; [by apply elem_of_nil in Hin | done].
  - apply NoDup_cons in Hnd as [Hp Hnd].
    change (Returned messages ≫= (λ marked, mark_at marked p))
      with (mark_at messages p).
    destruct (mark_at messages p) as [messages1|e] eqn:Hm;
      [|by rewrite fold_raised].
    apply mark_at_returned in Hm as (mp & Hmp & ->).
    intros Hfold. destruct (IH _ _ Hnd Hfold) as [Hlen Hout].
    rewrite length_insert in Hlen. split; [done|]. intros i m Hi.
    destruct (decide (i = p)) as [->|Hne].
    + rewrite (Hout p (marked_message mp))
        by (apply list_lookup_insert_eq; by eapply lookup_lt_Some).
      replace m with mp by congruence.
      repeat case_bool_decide; try done.
      exfalso. match goal with H : ¬ _ |- _ => apply H end.
      apply elem_of_cons. by left.
    + rewrite (Hout i m) by by rewrite list_lookup_insert_ne.
      repeat case_bool_decide; try done.
      * exfalso. match goal with H : ¬ _ |- _ => apply H end.
        apply elem_of_cons. by right.
      * exfalso. by match goal with
                    | H : i ∈ p :: ps |- _ => apply elem_of_cons in H as [?|?]
                    end.
Qed.



Lemma NoDup_filter_fst {A B} (P : A * B → bool) (l : list (A * B)) :
  NoDup (map fst l) → NoDup (map fst (List.filter P l)).
Proof.
  induction l as [|x l IH]; simpl; [done|].
  intros [Hx Hl]%NoDup_cons. destruct (P x); simpl; [|by apply IH].
  apply NoDup_cons. split; [|by apply IH].
  intros Hin. apply Hx.
  apply list_elem_of_In, in_map_iff in Hin as (y & Hy & [Hin _]%filter_In).
  apply list_elem_of_In, in_map_iff. by exists y.
Qed.

Lemma user_positions_NoDup (messages : list ChatMessage) :
  NoDup (user_message_positions messages).
Proof.
  unfold user_message_positions. apply NoDup_filter_fst.
  assert (∀ a, map fst (combine (seq a (length messages)) messages)
               = seq a (length messages)) as ->.
  { induction messages as [|m l IH]; intros a; simpl; [done|].
    by rewrite IH. }
  apply NoDup_ListNoDup, seq_NoDup.
Qed.

Lemma cache_positions_NoDup (messages : list ChatMessage) :
  NoDup (cache_positions messages).
Proof.
  unfold cache_positions.
  eapply sublist_NoDup; [apply user_positions_NoDup | apply sublist_drop].
Qed.

Lemma texts_marked (c : Content) : texts (marked_content c) = texts c.
Proof.
  destruct c as [s|bs]; simpl; [done|].
  destruct (last bs) as [b|] eqn:Hb; simpl.
  - apply last_Some in Hb as [init ->].
    by rewrite removelast_last, !map_app.
  - by apply last_None in Hb as ->.
Qed.

Lemma map_marked {B} (f : ChatMessage → B) (P : nat → bool)
    (out l : list ChatMessage) :
  (∀ m, f (marked_message m) = f m) →
  length out = length l →
  (∀ i m, l !! i = Some m →
          out !! i = Some (if P i then marked_message m else m)) →
  map f out = map f l.
Proof.
  intros Hf Hlen Hout. change (f <$> out = f <$> l).
  apply list_eq. intros i. rewrite !list_lookup_fmap.
  destruct (l !! i) as [m|] eqn:Hi.
  - rewrite (Hout i m Hi). simpl. destruct (P i); by rewrite ?Hf.
  - apply lookup_ge_None in Hi. rewrite <- Hlen in Hi.
    apply lookup_ge_None in Hi. by rewrite Hi.
Qed.


(** X11. A request is built for the Anthropic client only from a
    conversation that starts with a system message followed by a user
    message. The request then has the roles and the texts of the messages
    after the first, in their order, the system text, and the model, token
    limit and temperature of the configuration; without [anthropic_cache]
    the messages are sent as given and nothing is marked. *)
Theorem anthropic_request_keeps_conversation
    (messages : list ChatMessage) (rq : AnthropicRequest float) :
  anthropic_request float config messages = Returned rq →
  (∃ m0 m1 rest,
      messages = m0 :: m1 :: rest
      ∧ role m0 = "system"%string ∧ role m1 = "user"%string
      ∧ map system_text (an_system float rq) = [content m0])
  ∧ map role (an_messages float rq) = map role (drop 1 messages)
  ∧ map (λ m, texts (content m)) (an_messages float rq)
    = map (λ m, texts (content m)) (drop 1 messages)
  ∧ (anthropic_cache float config = false →
     an_messages float rq = drop 1 messages
     ∧ map system_cache (an_system float rq) = [None])
  ∧ an_model float rq = model float config
  ∧ an_max_tokens float rq = max_tokens float config
  ∧ an_temperature float rq = temperature float config.
Proof.
  unfold anthropic_request.
  rewrite index_first, index_second.
  destruct messages as [|m0 [|m1 rest]]; simpl; try done.
  { by destruct (String.eqb (role m0) "system"). }
  destruct (String.eqb_spec (role m0) "system") as [Hr0|]; simpl; [|done].
  destruct (String.eqb_spec (role m1) "user") as [Hr1|]; simpl; [|done].
  rewrite (slice_tail (m0 :: m1 :: rest)), slice_last_two. simpl drop.
  fold (cache_positions (m1 :: rest)).
  destruct (anthropic_cache float config) eqn:Hcache.
  - destruct (foldl _ _ _) as [marked|e] eqn:Hfold; simpl; [|done].
    intros [= <-]. cbn [an_messages an_system an_model an_max_tokens
                        an_temperature].
    destruct (fold_marks _ _ _ (cache_positions_NoDup _) Hfold)
      as [Hlen Hout].
    split; [by exists m0, m1, rest|].
    split; [|split; [|done]].
    + by apply (map_marked role
                  (λ i, bool_decide (i ∈ cache_positions (m1 :: rest)))
                  marked (m1 :: rest)).
    + apply (map_marked (λ m, texts (content m))
               (λ i, bool_decide (i ∈ cache_positions (m1 :: rest)))
               marked (m1 :: rest)); [|done..].
      intros m. apply texts_marked.
  - simpl. intros [= <-]. simpl.
    split; [by exists m0, m1, rest|]. done.
Qed.

End RequestFacts.

Section RequestExamples.
Import Completions.


Lemma anthropic_request_keeps_conversation_witness :
  map role (an_messages Z (work_request "system" short_file_work))
  = ["user"%string]
  ∧ map system_text (an_system Z (work_request "system" short_file_work))
    = [Plain "system"].
Proof.
  destruct (anthropic_request_keeps_conversation Z caching_config
              (map of_message (localization_messages "system"
                                 short_file_work))
              (work_request "system" short_file_work))
    as ((m0 & m1 & rest & Hm & _ & _ & Hsys) & Hroles & _).
  - vm_compute. reflexivity.
  - split; [exact Hroles|]. injection Hm as <- _ _. exact Hsys.
Defined.

End RequestExamples.

(** ** [_should_include_file] *)

Section FileFilter.
Import LocalizationFilter.

Lemma extension_py (file_path : string) :
  last (Py.split "." file_path) = Some "py"%string ↔ python_file file_path.
Proof.
  split.
  - intros [->|[stem ->]]%split_last; [by left|right; by exists stem].
  - intros [->|[stem ->]]; [done|].
    change (stem +:+ ".py") with (stem +:+ String "." "py").
    rewrite split_app. change (Py.split "." "py") with ["py"%string].
    by rewrite last_snoc.
Qed.

Lemma top_directory (dir file_path : string) :
  Py.split "/" dir = [dir] →
  Py.split "/" file_path !! 0%nat = Some dir
  ↔ file_path = dir ∨ inside dir file_path.
Proof.
  intros Hdir. split.
  - intros [->|[rest ->]]%split_first; [by left|right; by exists rest].
  - intros [->|[rest ->]]; [by rewrite Hdir|].
    change (dir +:+ "/" +:+ rest) with (dir +:+ String "/" rest).
    by rewrite split_app, Hdir.
Qed.

(** X12. [_should_include_file] never raises, and it accepts a path
    exactly when the path is that of a Python file (the extension [.py],
    or the bare name [py]) that does not lie in a top-level directory
    [test] or [tests]. *)
Theorem should_include_file_iff (file_path : string) :
  (∃ b, _should_include_file file_path = Ok b)
  ∧ (_should_include_file file_path = Ok true
     ↔ python_file file_path
       ∧ ¬ inside "test" file_path ∧ ¬ inside "tests" file_path).
Proof.
  unfold _should_include_file. rewrite index_last, index_first.
  destruct (split_nonempty "." file_path) as (h & t & Hdot).
  destruct (split_nonempty "/" file_path) as (top & t' & Hslash).
  pose proof (extension_py file_path) as Hext.
  pose proof (top_directory "test" file_path eq_refl) as Htest.
  pose proof (top_directory "tests" file_path eq_refl) as Htests.
  rewrite Hslash in *. simpl in Htest, Htests.
  destruct (last (Py.split "." file_path)) as [ext|] eqn:Hlast;
    [|apply last_None in Hlast; congruence].
  simpl.
  destruct (String.eqb_spec ext "py") as [->|Hne]; simpl.
  - destruct (String.eqb_spec top "test") as [->|Hn1]; simpl.
    + split; [by eexists|]. split; [done|]. intros (Hpy & Hu & _).
      destruct (proj1 Htest eq_refl) as [->|?]; [|done].
      by destruct Hpy as [?|[[|? [|? [|? ?]]] ?]].
    + destruct (String.eqb_spec top "tests") as [->|Hn2]; simpl.
      * split; [by eexists|]. split; [done|]. intros (Hpy & _ & Hu).
        destruct (proj1 Htests eq_refl) as [->|?]; [|done].
        by destruct Hpy as [?|[[|? [|? [|? [|? ?]]]] ?]].
      * split; [by eexists|]. split; [|done]. intros _.
        split; [by apply Hext|]. split.
        -- intros Hu. apply Hn1. assert (Some top = Some "test"%string)
             as [= ->]; [|done]. apply Htest. by right.
        -- intros Hu. apply Hn2. assert (Some top = Some "tests"%string)
             as [= ->]; [|done]. apply Htests. by right.
  - split; [by eexists|]. split; [done|]. intros (Hpy & _).
    apply Hext in Hpy. congruence.
Qed.

End FileFilter.

(** ** The length of a truncated output *)

Section TruncationLength.
Import TestExecution.

(** X13. A truncated output is longer than its budget: for a budget
    [B] with [0 <= B < len(output)] the result of [truncate_output] has [B]
    characters of the output and 74 characters of header and marker,
    besides the digits of the number of characters left out. *)
Theorem truncate_output_length (output : string) (B : Z) :
  0 ≤ B < Py.slen output →
  Py.slen (truncate_output output B)
  = B + 74 + Py.slen (Py.str_of_int (Py.slen output - B)).
Proof.
  intros HB. unfold truncate_output.
  destruct (Z.leb_spec (Py.slen output) B) as [|_]; [lia|].
  assert (0 ≤ B `div` 2 ≤ B) as Hhalf.
  { split; [apply Z.div_pos; lia | apply Z.div_le_upper_bound; lia]. }
  rewrite sslice_front, sslice_back by lia.
  unfold Py.slen in *. rewrite !append_length, sdrop_length.
  rewrite substring_length by lia.
  change (String.length "[Output too long, truncating middle portion]")
    with 44%nat.
  change (String.length Py.nl) with 1%nat.
  change (String.length "[Truncating ") with 12%nat.
  change (String.length " characters]") with 12%nat.
  lia.
Qed.

Lemma truncate_output_length_witness :
  Py.slen (truncate_output "0123456789" 5)
  = 5 + 74 + Py.slen (Py.str_of_int (Py.slen "0123456789" - 5)).
Proof.
  apply (truncate_output_length "0123456789" 5). vm_compute. split; congruence.
Defined.

End TruncationLength.

(** ** When the container runner runs the script *)

Section ContainerScript.
Import TestExecution.

Variable container : Type.
Variable start_container : Problem → container.
Variable write_file : string → string → container → container.
Variable exec_run :
  string → string → string → container → ExecResult * container.
Variable exec_run_with_timeout :
  string → string → Z → container → TimedExecResult * container.
Variable decode : list Byte.byte → result string.
Variable format_output : Output → string.

(** X14. In a container run with a patch the script is run exactly when
    [git apply] or, after it, the fuzzy [patch] has exited with code 0;
    the fuzzy [patch] is run exactly when [git apply] has not; and the run
    starts by writing the patch, ended by a line feed, and running
    [git apply]. *)
Theorem container_script_runs_iff_patched (script : string)
    (problem : Problem) (patch : string) (timeout : Z) (flag : bool) :
  let log :=
    fst (execute_script_container container start_container write_file
           exec_run exec_run_with_timeout decode format_output script
           problem (Some patch) timeout flag) in
  let p := primary container start_container write_file exec_run problem
             patch in
  let q := fallback container start_container write_file exec_run problem
             patch in
  (existsb is_script_run log = true
   ↔ er_exit_code (fst p) = 0 ∨ er_exit_code (fst q) = 0)
  ∧ (existsb is_fallback log = true ↔ er_exit_code (fst p) ≠ 0)
  ∧ log !! 0%nat = Some (WriteFile (terminate_patch patch) "/tmp/patch.diff")
  ∧ log !! 1%nat = Some (ExecRun git_apply_cmd "/testbed" "root" (fst p)).
Proof.
  unfold execute_script_container, fallback, primary, patched_container.
  destruct (exec_run git_apply_cmd _ _ _) as [p c1]. simpl.
  destruct (Z.eqb_spec (er_exit_code p) 0) as [Ep|Ep]; simpl.
  - destruct (run_script_container_log container write_file
                exec_run_with_timeout decode script timeout c1
                [ WriteFile (terminate_patch patch) "/tmp/patch.diff";
                  ExecRun git_apply_cmd "/testbed" "root" p ])
      as [out ->].
    simpl. repeat split; try done; auto.
  - destruct (exec_run fuzzy_patch_cmd _ _ _) as [q c2]. simpl.
    destruct (Z.eqb_spec (er_exit_code q) 0) as [Eq|Eq]; simpl.
    + destruct (run_script_container_log container write_file
                  exec_run_with_timeout decode script timeout c2
                  [ WriteFile (terminate_patch patch) "/tmp/patch.diff";
                    ExecRun git_apply_cmd "/testbed" "root" p;
                    ExecRun fuzzy_patch_cmd "/testbed" "root" q ])
        as [out ->].
      simpl. repeat split; try done; auto.
    + destruct flag; simpl; repeat split; try done; intros [?|?]; done.
Qed.

End ContainerScript.

(** ** The patch file *)

Section PatchFile.
Import TestExecution.

Lemma endswith_char_snoc (s : string) (c : ascii) :
  Py.endswith_char (s +:+ String c EmptyString) c = true.
Proof.
  induction s as [|a s IH].
  - simpl. apply Ascii.eqb_refl.
  - rewrite append_cons. simpl.
    destruct (s +:+ String c EmptyString) eqn:E; [|done].
    by destruct s.
Qed.

(** X15. The patch that the runners write always ends with a line feed:
    a patch that ends with one is written as it is, any other gets one
    line feed appended, and doing so twice changes nothing more. *)
Theorem terminate_patch_line_feed (patch : string) :
  Py.endswith_char (terminate_patch patch) "010" = true
  ∧ terminate_patch (terminate_patch patch) = terminate_patch patch
  ∧ (Py.endswith_char patch "010" = true → terminate_patch patch = patch)
  ∧ (Py.endswith_char patch "010" = false →
     terminate_patch patch = patch +:+ Py.nl).
Proof.
  assert (Py.endswith_char (terminate_patch patch) "010" = true) as Hend.
  { unfold terminate_patch.
    destruct (Py.endswith_char patch "010") eqn:E; simpl; [done|].
    apply endswith_char_snoc. }
  split; [done|]. split; [|split].
  - unfold terminate_patch at 1. by rewrite Hend.
  - intros E. unfold terminate_patch. by rewrite E.
  - intros E. unfold terminate_patch. by rewrite E.
Qed.

End PatchFile.

(** ** What the local runner leaves behind *)

Section LocalTrace.
Import TestExecution.

Variable tree : Type.
Variable run : Command → option Z → tree → result CompletedProcess * tree.
Variable write_text : string → string → tree → tree.
Variable mkdtemp : World tree → string.
Variable decode : list Byte.byte → result string.
Variable str_exc : PyExc → string.
Variable format_output : option Output → string.
Variable eval_script_of : Problem → string.
Variable get_eval_report : Problem → string → string → bool.

Lemma only_in_app (dir : string) (l l' : list LocalEvent) :
  only_in dir l → only_in dir l' → only_in dir (l ++ l').
Proof.
  intros Hl Hl' d Hd. by rewrite existsb_app, Hl, Hl'.
Qed.

Lemma only_in_run (dir : string) (cmd : Command)
    (r : result CompletedProcess) :
  only_in dir [Run cmd dir r].
Proof.
  intros d Hd. simpl. rewrite orb_false_r. apply String.eqb_neq. congruence.
Qed.

Lemma only_in_write (dir path text : string) : only_in dir [WriteText path text].
Proof. by intros d Hd. Qed.

Lemma only_in_print (dir msg : string) : only_in dir [Print msg].
Proof. by intros d Hd. Qed.

Lemma run_script_local_quiet (script : string) (timeout : Z)
    (temp : string) (w : World tree) :
  ∃ new,
    log tree (snd (run_script_local tree run write_text decode str_exc
                     script timeout temp w)) = log tree w ++ new
    ∧ only_in temp new.
Proof.
  destruct (write_in_shape tree write_text temp "reproduce_script.py" script
              w) as (f1 & Hw1 & _ & _).
  destruct (subprocess_run_shape tree run (Shell command) (Some timeout)
              temp
              {| fs := f1;
                 log := log tree w
                        ++ [WriteText (temp +:+ "/" +:+ "reproduce_script.py")
                              script] |})
    as (r & f2 & Hrun & _ & _ & _).
  unfold run_script_local. rewrite Hw1, Hrun. simpl.
  assert (only_in temp
            ([WriteText (temp +:+ "/" +:+ "reproduce_script.py") script]
             ++ [Run (Shell command) temp r])) as Hq
    by (apply only_in_app; [apply only_in_write | apply only_in_run]).
  assert (∀ msg,
            only_in temp
              (([WriteText (temp +:+ "/" +:+ "reproduce_script.py") script]
                ++ [Run (Shell command) temp r]) ++ [Print msg])) as Hq'
    by (intros msg; apply only_in_app; [done | apply only_in_print]).
  destruct r as [out|e].
  - destruct (match cp_stdout out with
              | Some (Str s) => Ok s
              | Some (Bytes b) => decode b
              | None => Ok EmptyString
              end) as [text|e]; simpl; eexists;
      (split; [by rewrite <- !app_assoc|]); first [exact Hq | apply Hq'].
  - destruct e; simpl; eexists;
      (split; [by rewrite <- !app_assoc|]); first [exact Hq | apply Hq'].
Qed.

Lemma execute_script_in_quiet (script : string) (problem : Problem)
    (temp : string) (patch : option string) (timeout : Z) (flag : bool)
    (w : World tree) :
  let x := execute_script_in tree run write_text decode str_exc
             format_output script problem temp patch timeout flag w in
  (∃ out, fst x = Ok out)
  ∧ ∃ new, log tree (snd x) = log tree w ++ new ∧ only_in temp new.
Proof.
  assert (∀ w0 : World tree,
            (∃ pre, log tree w0 = log tree w ++ pre ∧ only_in temp pre) →
            let y := run_script_local tree run write_text decode str_exc
                       script timeout temp w0 in
            (∃ out, Ok (fst y) = Ok out)
            ∧ ∃ new, log tree (snd y) = log tree w ++ new ∧ only_in temp new)
    as Hscript.
  { intros w0 (pre & Hpre & Hq). split; [by eexists|].
    destruct (run_script_local_quiet script timeout temp w0)
      as (new & Hnew & Hqn).
    exists (pre ++ new). rewrite Hnew, Hpre, <- app_assoc.
    split; [done|]. by apply only_in_app. }
  assert (∀ p : ExecutionOutput * World tree,
            (let '(out, w0) := p in (Ok out, w0)) = (Ok p.1, p.2)) as Hpair
    by (by intros [? ?]).
  unfold execute_script_in. destruct patch as [patch|].
  - destruct (subprocess_run_shape tree run
                (Args ["git"; "reset"; "--hard"; base_commit problem])
                None temp w) as (r1 & f1 & Hrun1 & _ & _ & _).
    rewrite Hrun1. simpl. destruct r1 as [cp1|e1].
    + set (w1 := {| fs := f1; log := _ |}).
      destruct (write_in_shape tree write_text temp "patch.diff"
                  (terminate_patch patch) w1) as (f2 & Hw2 & _ & _).
      rewrite Hw2. set (w2 := {| fs := f2; log := _ |}).
      destruct (subprocess_run_shape tree run
                  (Args ["git"; "apply"; "-v"; temp +:+ "/patch.diff"])
                  None temp w2) as (r3 & f3 & Hrun3 & _ & _ & _).
      rewrite Hrun3. simpl in *.
      assert (only_in temp
                ([Run (Args ["git"; "reset"; "--hard"; base_commit problem])
                    temp (Ok cp1)]
                 ++ [WriteText (temp +:+ "/" +:+ "patch.diff")
                       (terminate_patch patch)]
                 ++ [Run (Args ["git"; "apply"; "-v";
                                temp +:+ "/patch.diff"]) temp r3])) as Hq.
      { apply only_in_app; [apply only_in_run|].
        apply only_in_app; [apply only_in_write | apply only_in_run]. }
      destruct r3 as [cp3|e3]; [|destruct flag].
      * rewrite Hpair. simpl. apply Hscript.
        eexists. split; [by rewrite <- !app_assoc | exact Hq].
      * simpl. split; [by eexists|]. eexists.
        split; [by rewrite <- !app_assoc|].
        rewrite app_assoc. rewrite (app_assoc _ _ [Print _]).
        rewrite <- (app_assoc [Run _ _ _]).
        apply only_in_app; [exact Hq | apply only_in_print].
      * rewrite Hpair. simpl. apply Hscript.
        eexists. simpl. split; [by rewrite <- !app_assoc|].
        rewrite app_assoc. rewrite (app_assoc _ _ [Print _]).
        rewrite <- (app_assoc [Run _ _ _]).
        apply only_in_app; [exact Hq | apply only_in_print].
    + assert (only_in temp
                ([Run (Args ["git"; "reset"; "--hard"; base_commit problem])
                    temp (Raise e1)]
                 ++ [Print ("Error applying patch: " +:+ str_exc e1)]))
        as Hq by (apply only_in_app; [apply only_in_run | apply only_in_print]).
      destruct flag.
      * simpl. split; [by eexists|]. eexists.
        split; [by rewrite <- !app_assoc | exact Hq].
      * rewrite Hpair. simpl. apply Hscript.
        eexists. simpl. split; [by rewrite <- !app_assoc | exact Hq].
  - rewrite Hpair. simpl. apply Hscript.
    exists []. by rewrite app_nil_r.
Qed.

(** X16. When the temporary directory is new, [execute_script] leaves
    the file system of the host as it found it (every process keeping to
    the tree of its working directory, as in this model), and it starts
    no process anywhere but in its copy of the repository. *)
Theorem execute_script_leaves_no_trace (script : string) (problem : Problem)
    (repo_location : string) (patch : option string) (timeout : Z)
    (flag : bool) (w : World tree) :
  fs tree w !! (mkdtemp w +:+ "/repo") = None →
  let x := execute_script tree run write_text mkdtemp decode str_exc
             format_output script problem repo_location patch timeout flag
             w in
  fs tree (snd x) = fs tree w
  ∧ ∃ new,
      log tree (snd x) = log tree w ++ new
      ∧ only_in (mkdtemp w +:+ "/repo") new.
Proof.
  intros Hfresh x. split.
  - destruct (execute_script_contained tree run write_text mkdtemp decode
                str_exc format_output script problem repo_location patch
                timeout flag w) as (new & _ & _ & _ & Hsame).
    fold x in Hsame. apply map_eq. intros d.
    destruct (decide (d = mkdtemp w +:+ "/repo")) as [->|Hd];
      [|by apply Hsame].
    rewrite Hfresh. subst x. unfold execute_script. simpl.
    destruct (fs tree w !! repo_location) as [t|]; [|done].
    destruct (execute_script_in _ _ _ _ _ _ _ _ _ _ _ _ _) as [r w'].
    simpl. apply lookup_delete_eq.
  - subst x. unfold execute_script. simpl.
    set (temp := mkdtemp w +:+ "/repo").
    destruct (fs tree w !! repo_location) as [t|].
    + set (w1 := {| fs := <[temp := t]> (fs tree w); log := _ |}).
      destruct (execute_script_in_quiet script problem temp patch timeout
                  flag w1) as (_ & new & Hnew & Hq).
      destruct (execute_script_in _ _ _ _ _ _ _ _ _ _ _ _ w1) as [r w'].
      subst w1. unfold emit. simpl in *.
      exists ([Copytree repo_location temp] ++ new ++ [Cleanup (mkdtemp w)]).
      rewrite Hnew. split; [by rewrite <- !app_assoc|].
      intros d Hd. rewrite !existsb_app, (Hq d Hd). done.
    + eexists. simpl. split; [by rewrite <- !app_assoc|]. done.
Qed.


(** X18. The loop over [GIT_APPLY_CMDS] in
    [run_swebench_test_local] stops at the first command that returns,
    whatever its exit code: no event but the last is a process that
    returned, so a later command is tried only after the one before has
    raised. All of them run in the directory given. *)
Theorem apply_in_place_stops_at_first_return (cmds : list string)
    (patch_path cwd : string) (w : World tree) :
  ∃ new,
    log tree (apply_in_place tree run str_exc cmds patch_path cwd w)
    = log tree w ++ new
    ∧ existsb returned (removelast new) = false
    ∧ only_in cwd new.
Proof.
  revert w. induction cmds as [|cmd rest IH]; intros w; simpl.
  - exists []. by rewrite app_nil_r.
  - destruct (subprocess_run_shape tree run
                (Shell (cmd +:+ " " +:+ patch_path)) None cwd w)
      as (r & f' & Hrun & _ & _ & _).
    rewrite Hrun. destruct r as [cp|e].
    + eexists. simpl. split; [done|]. split; [done|]. apply only_in_run.
    + destruct (IH (emit tree
                      (Print ("Failed to apply patch with command '" +:+ cmd
                              +:+ "': " +:+ str_exc e))
                      {| fs := f';
                         log := log tree w
                                ++ [Run (Shell (cmd +:+ " " +:+ patch_path))
                                      cwd (Raise e)] |}))
        as (new & Hnew & Hret & Hq).
      rewrite Hnew. unfold emit. simpl.
      exists ([Run (Shell (cmd +:+ " " +:+ patch_path)) cwd (Raise e);
               Print ("Failed to apply patch with command '" +:+ cmd
                      +:+ "': " +:+ str_exc e)] ++ new).
      split; [by rewrite <- !app_assoc|]. split.
      * destruct new as [|e0 new]; [done|].
        rewrite removelast_app by done. rewrite existsb_app, Hret. done.
      * apply (only_in_app cwd [_; _]); [|exact Hq].
        apply (only_in_app cwd [_] [_]);
          [apply only_in_run | apply only_in_print].
Qed.

End LocalTrace.

Section LocalTraceExamples.
Import TestExecution.

Lemma execute_script_leaves_no_trace_witness :
  fs _ (snd (Demo.local_run true false "script" Demo.problem "/repo"
               (Some "diff") 600 false Demo.host))
  = fs _ Demo.host.
Proof.
  apply (execute_script_leaves_no_trace (list string) (Demo.run true false)
           Demo.write_text Demo.mkdtemp Demo.decode Demo.str_exc
           Demo.format_local "script" Demo.problem "/repo"
           (Some "diff"%string) 600 false Demo.host).
  vm_compute. reflexivity.
Defined.


End LocalTraceExamples.

(** ** Reading the edits of [create_patch] *)

Section PatchFacts.
Import ExportFinalPatches.

Lemma differs_at_sym (o n : string) (i : nat) :
  differs_at o n i = differs_at n o i.
Proof. unfold differs_at. by rewrite String.eqb_sym. Qed.

Lemma derive_edits_swap (name o n : string) :
  derive_edits (name, n, o) = map swap_edit (derive_edits (name, o, n)).
Proof.
  unfold derive_edits. rewrite map_map, Nat.max_comm.
  rewrite (List.filter_ext _ _ (differs_at_sym n o)).
  by apply map_ext.
Qed.

Lemma zip3_swap (names olds news : list string) :
  flat_map derive_edits (zip3 names news olds)
  = map swap_edit (flat_map derive_edits (zip3 names olds news)).
Proof.
  revert olds news.
  induction names as [|name names IH]; intros [|o olds] [|n news]; try done.
  cbn [zip3 flat_map]. by rewrite map_app, IH, derive_edits_swap.
Qed.

(** X19. Exchanging the old and the new contents exchanges
    [line_content] and [new_line_content] in every edit of [create_patch],
    and nothing else. *)
Theorem create_patch_swap (names olds news : list string) :
  edits (create_patch names news olds)
  = map swap_edit (edits (create_patch names olds news))
  ∧ edits (create_patch names olds news)
    = map swap_edit (edits (create_patch names news olds)).
Proof.
  rewrite !create_patch_derive. split; apply zip3_swap.
Qed.

Lemma edit_in_derive (name o n : string) (e : Edit) :
  In e (derive_edits (name, o, n))
  ↔ ∃ i : nat, differs_at o n i = true ∧ e = edit_at name o n i.
Proof.
  unfold derive_edits. rewrite in_map_iff. split.
  - intros (i & <- & [_ Hd]%filter_In). by exists i.
  - intros (i & Hd & ->). exists i. split; [done|].
    apply filter_In. split; [|done].
    apply in_seq. pose proof (differs_at_in_range o n i Hd). lia.
Qed.

(** X20. The edits that [create_patch] returns for one file, together
    with the old content, give back every line of the new content: the new
    line of the edit at that line where there is one, the old line
    where there is none. *)
Theorem create_patch_rebuilds_new (name o n : string) (i : nat) :
  patched_line (edits (create_patch [name] [o] [n])) o i = line_at n i.
Proof.
  rewrite create_patch_derive. cbn [zip3 flat_map]. rewrite app_nil_r.
  unfold patched_line.
  destruct (find _ _) as [e|] eqn:E.
  - apply find_some in E as [(j & _ & ->)%edit_in_derive Hj].
    simpl in *. apply Z.eqb_eq in Hj. by replace j with i by lia.
  - destruct (differs_at o n i) eqn:Hd.
    + pose proof (find_none _ _ E (edit_at name o n i)) as Hnone.
      simpl in Hnone. rewrite Z.eqb_refl in Hnone.
      discriminate Hnone. apply edit_in_derive. by exists i.
    + unfold differs_at in Hd. apply negb_false_iff in Hd.
      by apply String.eqb_eq.
Qed.

Lemma seq_strongly_sorted (a n : nat) : StronglySorted lt (seq a n).
Proof.
  revert a. induction n as [|n IH]; intros a; simpl; constructor; [done|].
  apply Forall_forall. intros j Hj%list_elem_of_In%in_seq. lia.
Qed.

Lemma StronglySorted_map {A B} (R : relation A) (R' : relation B)
    (f : A → B) (l : list A) :
  (∀ x y, R x y → R' (f x) (f y)) →
  StronglySorted R l → StronglySorted R' (map f l).
Proof.
  intros Hf. induction 1 as [|x l _ IH Hall]; simpl; constructor; [done|].
  apply Forall_forall. intros y (x' & <- & Hx')%list_elem_of_In%in_map_iff.
  apply Hf. rewrite Forall_forall in Hall. by apply Hall, list_elem_of_In.
Qed.

(** X21. [create_patch] works file by file: the edits of a list of
    files are those of the first file followed by those of the others.
    The edits of a file carry its name, change their line, and have line
    numbers from 0 that ascend strictly and stay below the longer line
    count. A list of names or contents that is empty gives no edits. *)
Theorem create_patch_per_file (name o n : string)
    (names olds news : list string) :
  edits (create_patch (name :: names) (o :: olds) (n :: news))
  = edits (create_patch [name] [o] [n])
    ++ edits (create_patch names olds news)
  ∧ Forall (λ e, file_name e = name
                 ∧ line_content e ≠ new_line_content e
                 ∧ 0 ≤ line_number e
                   < Z.of_nat (Nat.max (line_count o) (line_count n)))
      (edits (create_patch [name] [o] [n]))
  ∧ StronglySorted Z.lt
      (map line_number (edits (create_patch [name] [o] [n])))
  ∧ edits (create_patch [] olds news) = []
  ∧ edits (create_patch names [] news) = []
  ∧ edits (create_patch names olds []) = [].
Proof.
  rewrite !create_patch_derive. cbn [zip3 flat_map]. rewrite app_nil_r.
  split; [done|]. split; [|split; [|split; [done|split]]].
  - apply Forall_forall. intros e (i & Hd & ->)%list_elem_of_In%edit_in_derive.
    simpl. split; [done|]. split.
    + by apply differs_at_iff.
    + pose proof (differs_at_in_range o n i Hd). lia.
  - unfold derive_edits. rewrite map_map. simpl.
    apply (StronglySorted_map lt); [lia|].
    apply StronglySorted_filter, seq_strongly_sorted.
  - by destruct names.
  - by destruct names, olds.
Qed.

End PatchFacts.

(** ** [get_test_command] *)

Section TestCommand.
Import SweBenchVerified.

(** X22. [get_test_command] never returns the command of its second
    branch: a repository name that holds [django-cms] holds [django], so it
    gets the command of Django. *)
Theorem get_test_command_django_cms (repo : string) :
  get_test_command repo ≠ "./tests/runtests.py --verbosity 2"%string
  ∧ (PyStr.contains "django-cms" repo = true →
     get_test_command repo
     = "./tests/runtests.py --verbosity 2 --settings=test_sqlite --parallel 1"%string).
Proof.
  unfold get_test_command.
  destruct (PyStr.contains "django" repo) eqn:Hd; [done|].
  destruct (PyStr.contains "django-cms" repo) eqn:Hc.
  - apply (contains_prefix "django") in Hc; [|done]. congruence.
  - split; [|done].
    repeat match goal with
           | |- context [if ?b then _ else _] => destruct b
           end; done.
Qed.

Lemma get_test_command_django_cms_witness :
  get_test_command "https://github.com/django-cms/django-cms"
  = "./tests/runtests.py --verbosity 2 --settings=test_sqlite --parallel 1"%string.
Proof.
  apply (proj2 (get_test_command_django_cms
                  "https://github.com/django-cms/django-cms")).
  vm_compute. reflexivity.
Defined.

End TestCommand.

(** ** The repository of a directory *)

Section RepoFacts.
Import SweBenchVerified.

Variable path_exists : string → bool.
Variable read : string → result string.
Variable str_exc : PyExc → string.

Lemma span_space_app (s : string) :
  s = (Localization.span_space s).1 +:+ (Localization.span_space s).2.
Proof.
  induction s as [|c s IH]; simpl; [done|].
  destruct (Py.isspace c); [|done].
  destruct (Localization.span_space s) as [run rest]. simpl in *.
  by rewrite append_cons, <- IH.
Qed.

Lemma last_char_suffix (s g : string) :
  last_char s = Some g → ∃ pre, s = pre +:+ g.
Proof.
  induction s as [|c s IH]; simpl; [done|]. destruct s as [|d s].
  - intros [= <-]. by exists EmptyString.
  - intros [pre ->]%IH. exists (String c pre). by rewrite append_cons.
Qed.

Lemma sdrop_suffix (n : nat) (s : string) : ∃ pre, s = pre +:+ Py.sdrop n s.
Proof. exists (String.substring 0 n s). by rewrite substring_cut. Qed.

Lemma match_url_suffix (s g : string) :
  match_url s = Some g → ∃ pre, s = pre +:+ g.
Proof.
  unfold match_url. destruct (String.prefix "url" s); [|done].
  destruct (sdrop_suffix 3 s) as [p0 Hs].
  pose proof (span_space_app (Py.sdrop 3 s)) as H1.
  destruct (Localization.span_space (Py.sdrop 3 s)) as [run1 rest].
  simpl in H1. destruct rest as [|c after]; [done|].
  destruct (Ascii.eqb_spec c "=") as [->|Hne];
    [|by destruct c as [[] [] [] [] [] [] [] []]].
  pose proof (span_space_app after) as H2.
  destruct (Localization.span_space after) as [run value]. simpl in H2.
  destruct value as [|v value].
  - intros [pre Hrun]%last_char_suffix.
    exists (p0 +:+ run1 +:+ String "=" pre).
    rewrite Hs at 1. rewrite H1, H2, Hrun, append_nil_r.
    by rewrite !append_assoc, !append_cons, ?append_assoc.
  - intros [= <-]. exists (p0 +:+ run1 +:+ String "=" run).
    rewrite Hs at 1. rewrite H1, H2.
    by rewrite !append_assoc, !append_cons, ?append_assoc.
Qed.

Lemma search_url_suffix (s g : string) :
  search_url s = Some g → ∃ pre, s = pre +:+ g.
Proof.
  induction s as [|c s IH].
  - cbn [search_url]. destruct (match_url EmptyString) eqn:E; [|done].
    intros [= ->]. by apply match_url_suffix.
  - cbn [search_url]. destruct (match_url (String c s)) eqn:E.
    + intros [= ->]. by apply match_url_suffix.
    + intros [pre ->]%IH. exists (String c pre). by rewrite append_cons.
Qed.

Lemma match_origin_suffix (s g : string) :
  match_origin s = Some g → ∃ pre, s = pre +:+ g.
Proof.
  unfold match_origin. destruct (String.prefix remote_origin s); [|done].
  intros [pre Hpre]%search_url_suffix.
  destruct (sdrop_suffix (String.length remote_origin) s) as [p0 Hs].
  exists (p0 +:+ pre). rewrite Hs at 1. by rewrite Hpre, append_assoc.
Qed.

Lemma search_origin_suffix (s g : string) :
  search_origin s = Some g → ∃ pre, s = pre +:+ g.
Proof.
  induction s as [|c s IH].
  - cbn [search_origin]. destruct (match_origin EmptyString) eqn:E; [|done].
    intros [= ->]. by apply match_origin_suffix.
  - cbn [search_origin]. destruct (match_origin (String c s)) eqn:E.
    + intros [= ->]. by apply match_origin_suffix.
    + intros [pre ->]%IH. exists (String c pre). by rewrite append_cons.
Qed.

(** X23. What [get_repo] returns, when it is not empty, runs to the end
    of the configuration file: it ends where the text of the file ends,
    trailing whitespace apart, and so holds every line that follows the
    [url] of [[remote "origin"]]. *)
Theorem get_repo_runs_to_the_end (directory config : string) :
  let repo := fst (get_repo path_exists read str_exc directory) in
  read (PyStr.path_join (PyStr.path_join directory ".git") "config")
  = Ok config →
  repo ≠ EmptyString →
  ∃ pre, Py.rstrip config = pre +:+ repo.
Proof.
  intros repo Hread. subst repo. unfold get_repo.
  destruct (path_exists _); simpl; [|done]. rewrite Hread.
  destruct (search_origin config) as [group|] eqn:Hs; simpl; [|done].
  apply search_origin_suffix in Hs as [pre ->].
  destruct (lstrip_suffix group) as [ws Hg]. unfold Py.strip.
  intros Hne. exists (pre +:+ ws).
  rewrite Hg at 1. rewrite <- append_assoc. by apply rstrip_app.
Qed.

(** X24. The base commit that [_get_base_commit] reads has no
    whitespace at either end. *)
Theorem base_commit_stripped (repo_location : string) :
  Py.strip (_get_base_commit path_exists read repo_location)
  = _get_base_commit path_exists read repo_location.
Proof.
  unfold _get_base_commit. destruct (path_exists _); [|done].
  destruct (read _) as [text|e]; [|done].
  destruct (Py.startswith (Py.strip text) "ref: "); [|apply strip_idem].
  destruct (read _) as [ref_text|e]; [apply strip_idem | done].
Qed.

End RepoFacts.

Section RepoExamples.
Import SweBenchVerified.

Example get_repo_ex :
  get_repo (λ _, true) (λ _, Ok git_config) (λ _, EmptyString) "/repo"
  = ("https://github.com/django/django.git" +:+ Py.nl +:+ tab
     +:+ "fetch = +refs/heads/*:refs/remotes/origin/*", []).
Proof. vm_compute. reflexivity. Qed.

Lemma get_repo_runs_to_the_end_witness :
  ∃ pre,
    Py.rstrip git_config
    = pre +:+ fst (get_repo (λ _, true) (λ _, Ok git_config)
                     (λ _, EmptyString) "/repo").
Proof.
  apply (get_repo_runs_to_the_end (λ _, true) (λ _, Ok git_config)
           (λ _, EmptyString) "/repo" git_config).
  - reflexivity.
  - vm_compute. discriminate.
Defined.

End RepoExamples.

(** ** The order of the chunks in a prompt *)

Section PromptFacts.
Import Localization EditingPrompts.

Lemma sorted_by_cons {A} (key : A → Z) (x : A) (l : list A) :
  PyStr.sorted_by key (x :: l)
  = PyStr.insert_by key x (PyStr.sorted_by key l).
Proof. reflexivity. Qed.

(** Sorting a list that is in order changes nothing. *)
Lemma sorted_by_fixed {A} (key : A → Z) (l : list A) :
  Sorted (λ a b, key a ≤ key b) l → PyStr.sorted_by key l = l.
Proof.
  induction 1 as [|x l _ IH Hhd]; [done|].
  rewrite sorted_by_cons, IH. destruct Hhd as [|y l Hxy]; [done|].
  simpl. by destruct (Z.leb_spec (key x) (key y)) as [_|?]; [|lia].
Qed.

Lemma insert_by_perm {A} (key : A → Z) (x : A) (l : list A) :
  PyStr.insert_by key x l ≡ₚ x :: l.
Proof.
  induction l as [|y l IH]; simpl; [done|].
  destruct (key x <=? key y); [done|]. by rewrite IH, Permutation_swap.
Qed.

Lemma sorted_by_perm {A} (key : A → Z) (l : list A) :
  PyStr.sorted_by key l ≡ₚ l.
Proof.
  induction l as [|x l IH]; [done|].
  by rewrite sorted_by_cons, insert_by_perm, IH.
Qed.

Lemma insert_by_sorted {A} (key : A → Z) (x : A) (l : list A) :
  StronglySorted (λ a b, key a ≤ key b) l →
  StronglySorted (λ a b, key a ≤ key b) (PyStr.insert_by key x l).
Proof.
  induction 1 as [|y l Hs IH Hall]; simpl; [by repeat constructor|].
  destruct (Z.leb_spec (key x) (key y)) as [Hle|Hgt].
  - constructor; [by constructor|]. constructor; [done|].
    eapply Forall_impl; [exact Hall|]. simpl. lia.
  - constructor; [done|].
    rewrite (insert_by_perm key x l). constructor; [lia | done].
Qed.

Lemma sorted_by_sorted {A} (key : A → Z) (l : list A) :
  StronglySorted (λ a b, key a ≤ key b) (PyStr.sorted_by key l).
Proof.
  induction l as [|x l IH]; [constructor|].
  rewrite sorted_by_cons. by apply insert_by_sorted.
Qed.

(** Lists in order with the same elements, no two of them with the same
    key, are the same. *)
Lemma sorted_by_key_unique {A} (key : A → Z) (l1 : list A) :
  ∀ l2,
    StronglySorted (λ a b, key a ≤ key b) l1 →
    StronglySorted (λ a b, key a ≤ key b) l2 →
    l1 ≡ₚ l2 → NoDup (map key l1) → l1 = l2.
Proof.
  induction l1 as [|x l1 IH]; intros l2 Hs1 Hs2 Hp Hnd.
  - by apply Permutation_nil_l in Hp.
  - destruct l2 as [|y l2]; [by apply Permutation_nil_r in Hp|].
    apply StronglySorted_inv in Hs1 as [Hs1 Hx].
    apply StronglySorted_inv in Hs2 as [Hs2 Hy].
    rewrite Forall_forall in Hx, Hy.
    simpl in Hnd. apply NoDup_cons in Hnd as [Hkx Hnd].
    assert (x = y) as <-.
    { assert (y ∈ x :: l1) as [->|Hy1]%elem_of_cons
        by (rewrite Hp; by left); [done|].
      assert (x ∈ y :: l2) as [->|Hx2]%elem_of_cons
        by (rewrite <- Hp; by left); [done|].
      specialize (Hx y Hy1). specialize (Hy x Hx2). simpl in *.
      exfalso. apply Hkx. replace (key x) with (key y) by lia.
      apply list_elem_of_In, in_map. by apply list_elem_of_In. }
    f_equal. apply IH; [done..| |done].
    by apply Permutation_cons_inv in Hp.
Qed.

Lemma gap_ordered (cs : list ContextChunk) :
  Sorted gap cs → Sorted (λ a b, line_number a ≤ line_number b) cs.
Proof.
  induction 1 as [|c cs _ IH Hhd]; constructor; [done|].
  destruct Hhd as [|d cs Hgap]; constructor.
  unfold gap, chunk_end, Py.len in Hgap. lia.
Qed.

(** X25. The chunks that [create_context_chunks] returns are in the
    order in which [format_relevant_chunks] puts them: sorting them by
    line number changes nothing, and the prompt shows them as they were
    returned. *)
Theorem format_keeps_the_order_of_chunks (message : string)
    (locations : list string) (file_path file_content : string)
    (context_lines : Z) (rc : RelevantChunks) :
  create_context_chunks message locations file_path file_content
    context_lines = Ok rc →
  PyStr.sorted_by line_number (chunks rc) = chunks rc
  ∧ format_relevant_chunks [rc]
    = ("<files>" +:+ Py.nl)
      +:+ (("<file path=" +:+ PyStr.dq +:+ file_path +:+ PyStr.dq +:+ ">"
            +:+ Py.nl)
           +:+ PyStr.join omitted (map format_chunk (chunks rc))
           +:+ (Py.nl +:+ "</file>"))
      +:+ (Py.nl +:+ "</files>").
Proof.
  intros Hrc.
  destruct (create_context_chunks_value message locations file_path
              file_content context_lines) as (s & _ & _ & Hval).
  rewrite Hval in Hrc. injection Hrc as <-. simpl.
  assert (PyStr.sorted_by line_number
            (combine_chunks (Py.split "010" file_content)
               (initial_chunks (Py.split "010" file_content) context_lines
                  (Py.sorted s)))
          = combine_chunks (Py.split "010" file_content)
              (initial_chunks (Py.split "010" file_content) context_lines
                 (Py.sorted s))) as Hsort
    by apply sorted_by_fixed, gap_ordered, combine_chunks_gap.
  split; [done|].
  unfold format_relevant_chunks, format_file. simpl. by rewrite Hsort.
Qed.

(** X26. [format_relevant_chunks] gives the same text for the same
    chunks in any order, when no two of them start at the same line; the
    message of the [RelevantChunks] does not show in it. *)
Theorem format_ignores_the_order_of_chunks (message message' : string)
    (file_path : string) (cs cs' : list ContextChunk) :
  cs ≡ₚ cs' →
  NoDup (map line_number cs) →
  format_relevant_chunks
    [ {| message := message; chunks := cs; file_path := file_path |} ]
  = format_relevant_chunks
      [ {| message := message'; chunks := cs'; file_path := file_path |} ].
Proof.
  intros Hp Hnd.
  assert (PyStr.sorted_by line_number cs = PyStr.sorted_by line_number cs')
    as Hsame.
  { apply (sorted_by_key_unique line_number).
    - apply sorted_by_sorted.
    - apply sorted_by_sorted.
    - by rewrite !sorted_by_perm.
    - change (NoDup (line_number <$> PyStr.sorted_by line_number cs)).
      by rewrite sorted_by_perm. }
  unfold format_relevant_chunks, format_file. simpl. by rewrite Hsame.
Qed.

End PromptFacts.

Section PromptExamples.
Import Localization EditingPrompts.

Lemma format_keeps_the_order_of_chunks_witness :
  PyStr.sorted_by line_number (chunks two_chunks) = chunks two_chunks
  ∧ format_relevant_chunks [two_chunks]
    = ("<files>" +:+ Py.nl)
      +:+ (("<file path=" +:+ PyStr.dq +:+ "f.py" +:+ PyStr.dq +:+ ">"
            +:+ Py.nl)
           +:+ PyStr.join omitted (map format_chunk (chunks two_chunks))
           +:+ (Py.nl +:+ "</file>"))
      +:+ (Py.nl +:+ "</files>").
Proof.
  apply (format_keeps_the_order_of_chunks "m"
           ["line: 2"; "line: 3"; "line: 9"] "f.py" ten_lines 1 two_chunks).
  vm_compute. reflexivity.
Defined.

Lemma format_ignores_the_order_of_chunks_witness :
  format_relevant_chunks
    [ {| message := "m"; chunks := rev (chunks two_chunks);
         file_path := "f.py" |} ]
  = format_relevant_chunks [two_chunks].
Proof.
  apply (format_ignores_the_order_of_chunks "m" "m" "f.py"
           (rev (chunks two_chunks)) (chunks two_chunks)).
  - simpl. apply Permutation_swap.
  - simpl. apply (bool_decide_unpack _). vm_compute. exact I.
Defined.

End PromptExamples.
